(** * The event decision engine of integration-file-drop

    A shallow embedding of [src/event-processor/S3EventProcessor.ts]
    (class [S3EventProcessor]) together with the JavaScript string
    primitives it calls, and the properties of its [process] method.

    JavaScript strings are sequences of UTF-16 code units; they are
    modelled as [list N].  The ports of the engine (clock, bucket,
    subscriber) are answered by an explicit environment, and every call
    that [process] makes to a port is appended to a trace. *)

From Stdlib Require Import List NArith Bool Ascii String Lia PeanoNat.
From Stdlib Require Import Permutation Wf_nat.
Import ListNotations.

Local Open Scope N_scope.
Local Open Scope list_scope.

(* ================================================================== *)
(** ** JavaScript strings *)

Module Js.

Definition jsstring : Type := list N.

(** A string literal of the source, one code unit per character. *)
Definition lit (s : string) : jsstring :=
  map N_of_ascii (list_ascii_of_string s).

Definition SLASH : N := 47.
Definition PERCENT : N := 37.
Definition PLUS : N := 43.
Definition SPACE : N := 32.
Definition HYPHEN : N := 45.

(** [s.startsWith(p)] *)
Fixpoint startsWith (s p : jsstring) {struct p} : bool :=
  match p with
  | [] => true
  | c :: p' =>
      match s with
      | [] => false
      | d :: s' => (d =? c) && startsWith s' p'
      end
  end.

(** [s.substring(n)]: the code units from index [n] on; an index beyond
    the end is clamped, giving the empty string. *)
Definition substring (s : jsstring) (n : nat) : jsstring := skipn n s.

(** [s.split('/')]: never an empty array; the empty string gives [['']]. *)
Fixpoint split (s : jsstring) : list jsstring :=
  match s with
  | [] => [[]]
  | c :: rest =>
      if c =? SLASH then [] :: split rest
      else match split rest with
           | [] => [[c]]
           | seg :: segs => (c :: seg) :: segs
           end
  end.

(** [parts.join('/')] *)
Fixpoint join (parts : list jsstring) : jsstring :=
  match parts with
  | [] => []
  | [p] => p
  | p :: ps => p ++ SLASH :: join ps
  end.

(** [parts.slice(0, -1)] *)
Definition slice_0_m1 (parts : list jsstring) : list jsstring :=
  removelast parts.

(** [parts.pop() || ''] and [parts[parts.length - 1]] on an array of
    strings: the last element; [undefined] (empty array) and the empty
    string both end as ['']. *)
Definition pop_or_empty (parts : list jsstring) : jsstring := last parts [].

(** [s.replace(/\+/g, ' ')] *)
Definition replace_plus (s : jsstring) : jsstring :=
  map (fun c => if c =? PLUS then SPACE else c) s.

(** *** decodeURIComponent (ECMA-262, Decode with an empty reserved set) *)

Definition hexDigit (c : N) : option N :=
  if (48 <=? c) && (c <=? 57) then Some (c - 48)
  else if (65 <=? c) && (c <=? 70) then Some (c - 55)
  else if (97 <=? c) && (c <=? 102) then Some (c - 87)
  else None.

Definition ParseHexOctet (h1 h2 : N) : option N :=
  match hexDigit h1, hexDigit h2 with
  | Some a, Some b => Some (16 * a + b)
  | _, _ => None
  end.

(** The number of leading 1 bits of the octet [B]. *)
Definition leadingOnes (B : N) : nat :=
  if negb (N.testbit B 7) then 0%nat
  else if negb (N.testbit B 6) then 1%nat
  else if negb (N.testbit B 5) then 2%nat
  else if negb (N.testbit B 4) then 3%nat
  else if negb (N.testbit B 3) then 4%nat
  else 5%nat.

Definition isContinuation (B : N) : bool := (128 <=? B) && (B <=? 191).

(** The code point of a well-formed UTF-8 sequence (Unicode, table 3-7):
    continuation octets in 80..BF, no overlong form, no surrogate,
    nothing above U+10FFFF. *)
Definition utf8CodePoint (octets : list N) : option N :=
  match octets with
  | [b0; b1] =>
      let v := (b0 - 192) * 64 + (b1 - 128) in
      if isContinuation b1 && (128 <=? v) then Some v else None
  | [b0; b1; b2] =>
      let v := (b0 - 224) * 4096 + (b1 - 128) * 64 + (b2 - 128) in
      if isContinuation b1 && isContinuation b2 && (2048 <=? v)
         && negb ((55296 <=? v) && (v <=? 57343))
      then Some v else None
  | [b0; b1; b2; b3] =>
      let v := (b0 - 240) * 262144 + (b1 - 128) * 4096
               + (b2 - 128) * 64 + (b3 - 128) in
      if isContinuation b1 && isContinuation b2 && isContinuation b3
         && (65536 <=? v) && (v <=? 1114111)
      then Some v else None
  | _ => None
  end.

Definition UTF16EncodeCodePoint (v : N) : jsstring :=
  if v <=? 65535 then [v]
  else [(v - 65536) / 1024 + 55296; (v - 65536) mod 1024 + 56320].

(** The loop of Decode.  [pending] is the number of continuation
    octets still owed to the escape sequence being read ([n - j] in the
    standard) and [octets] the octets read for it so far.  [None] is
    the URIError exception. *)
Fixpoint Decode (pending : nat) (octets : list N) (s : jsstring)
  {struct s} : option jsstring :=
  match pending with
  | O =>
      match s with
      | [] => Some []
      | c :: rest =>
          if c =? PERCENT then
            match rest with
            | h1 :: h2 :: rest' =>
                match ParseHexOctet h1 h2 with
                | None => None
                | Some B =>
                    match leadingOnes B with
                    | 0%nat => option_map (cons B) (Decode 0 [] rest')
                    | 2%nat => Decode 1 [B] rest'
                    | 3%nat => Decode 2 [B] rest'
                    | 4%nat => Decode 3 [B] rest'
                    | _ => None
                    end
                end
            | _ => None
            end
          else option_map (cons c) (Decode 0 [] rest)
      end
  | S p =>
      match s with
      | c :: h1 :: h2 :: rest' =>
          if c =? PERCENT then
            match ParseHexOctet h1 h2 with
            | None => None
            | Some B =>
                match p with
                | O =>
                    match utf8CodePoint (octets ++ [B]) with
                    | None => None
                    | Some v =>
                        option_map (app (UTF16EncodeCodePoint v))
                                   (Decode 0 [] rest')
                    end
                | S _ => Decode p (octets ++ [B]) rest'
                end
            end
          else None
      | _ => None
      end
  end.

Definition decodeURIComponent (s : jsstring) : option jsstring :=
  Decode 0 [] s.

End Js.

(* ================================================================== *)
(** ** Anchored regular expressions of the shape used by the source *)

Module Regex.
Import Js.

(** The atoms that occur in [TIMESTAMP_PREFIX_PATTERN]: the class [\d]
    (the ASCII digits) and a literal character. *)
Inductive atom : Type :=
| Digit
| Char (c : N).

Definition isDigit (c : N) : bool := (48 <=? c) && (c <=? 57).

Definition matchAtom (a : atom) (c : N) : bool :=
  match a with
  | Digit => isDigit c
  | Char d => c =? d
  end.

(** [/^a1 a2 ... an/.test(s)]: the atoms match the first [n] code units
    of [s]; whatever follows is free. *)
Fixpoint test (pattern : list atom) (s : jsstring) {struct pattern}
  : bool :=
  match pattern with
  | [] => true
  | a :: pattern' =>
      match s with
      | [] => false
      | c :: s' => matchAtom a c && test pattern' s'
      end
  end.

End Regex.

(* ================================================================== *)
(** ** The data model *)

Import Js.

(** [BucketSubdirectory] and [BucketConfig] of [context/IContext], with
    the fields the test fixtures give them. *)
Record BucketSubdirectory : Type := {
  path : jsstring;
  objectLifetimeDays : N;
  errorObjectLifetimeDays : option N;
  subscriberLambdaArn : jsstring;
  subscriberLambdaExecutionRoleArn : jsstring
}.

Record BucketConfig : Type := {
  name : jsstring;
  subdirectories : list BucketSubdirectory
}.

(** The part of [S3EventRecord] that [process] reads. *)
Record S3EventRecord : Type := {
  s3_bucket_name : jsstring;
  s3_object_key : jsstring
}.

Inductive Action : Type :=
| skipped_no_match
| skipped_already_processed
| renamed
| error_rename
| error_invoke.

Record ProcessingResult : Type := {
  success : bool;
  action : Action;
  reason : option jsstring;
  originalKey : jsstring;
  newKey : option jsstring;
  subscriberInvoked : option bool;
  movedToErrors : option bool
}.

(* ================================================================== *)
(** ** Ports, traces and the monad of [process] *)

(** A call made by the engine to one of its collaborators. *)
Inductive Call : Type :=
| CallClock
| CallRenameObject (key newKey : jsstring)
| CallNotify (subscriberLambdaArn newKey : jsstring)
| CallMoveToErrors (key subfolderPath reason : jsstring).

Definition Trace : Type := list Call.

(** How [await subscriber.notify(...)] settles.  A rejection carries
    the text that the template literal [`${error}`] gives the thrown
    value. *)
Inductive NotifyResult : Type :=
| Resolved
| Rejected (error : jsstring).

(** The collaborators.  Each answer may depend on the calls made so
    far, so that a clock may tick and a bucket may change. *)
Record Ports : Type := {
  getConfig : BucketConfig;
  clockFn : Trace -> jsstring;
  renameObject : Trace -> jsstring -> jsstring -> bool;
  notify : Trace -> jsstring -> jsstring -> NotifyResult;
  moveToErrors : Trace -> jsstring -> jsstring -> jsstring -> bool
}.

Inductive Exception : Type :=
| URIError.

Inductive Completion (A : Type) : Type :=
| Returns (a : A)
| Throws (e : Exception).
Arguments Returns {A} a.
Arguments Throws {A} e.

Definition M (A : Type) : Type := Trace -> Completion A * Trace.

Definition ret {A} (a : A) : M A := fun t => (Returns a, t).

Definition throw {A} (e : Exception) : M A := fun t => (Throws e, t).

Definition bind {A B} (m : M A) (f : A -> M B) : M B :=
  fun t =>
    match m t with
    | (Returns a, t') => f a t'
    | (Throws e, t') => (Throws e, t')
    end.

(** Performing a call: the collaborator answers from the trace so far,
    and the call is recorded. *)
Definition perform {A} (c : Call) (answer : Trace -> A) : M A :=
  fun t => (Returns (answer t), t ++ [c]).

Notation "x <- m ;; k" := (bind m (fun x => k))
  (at level 61, m at next level, right associativity).

(* ================================================================== *)
(** ** S3EventProcessor *)

Module S3EventProcessor.
Import Regex.

(** [/^\d{4}-\d{2}-\d{2}T\d{2}:\d{2}:\d{2}\.\d{3}Z-/] *)
Definition TIMESTAMP_PREFIX_PATTERN : list atom :=
  [Digit; Digit; Digit; Digit; Char 45;
   Digit; Digit; Char 45;
   Digit; Digit; Char 84;
   Digit; Digit; Char 58;
   Digit; Digit; Char 58;
   Digit; Digit; Char 46;
   Digit; Digit; Digit; Char 90; Char 45].

Definition isAlreadyProcessed (filename : jsstring) : bool :=
  test TIMESTAMP_PREFIX_PATTERN filename.

(** The [for ... of] loop of [findSubfolderConfig]. *)
Fixpoint findSubfolderConfig_loop (subdirectories : list BucketSubdirectory)
  (key : jsstring) : option BucketSubdirectory :=
  match subdirectories with
  | [] => None
  | subdir :: others =>
      if startsWith key (path subdir ++ [SLASH]) then Some subdir
      else findSubfolderConfig_loop others key
  end.

Definition findSubfolderConfig (bucket : Ports) (key : jsstring)
  : option BucketSubdirectory :=
  findSubfolderConfig_loop (subdirectories (getConfig bucket)) key.

Definition generateDateBasedFileName (bucket : Ports)
  (subfolderPath nestedPath originalFilename : jsstring) : M jsstring :=
  timestamp <- perform CallClock (clockFn bucket) ;;
  match nestedPath with
  | _ :: _ =>
      ret (subfolderPath ++ SLASH :: nestedPath ++ SLASH :: timestamp
             ++ HYPHEN :: originalFilename)
  | [] =>
      ret (subfolderPath ++ SLASH :: timestamp ++ HYPHEN :: originalFilename)
  end.

Definition REASON_NO_MATCH : jsstring :=
  lit "File does not match any configured subdirectory".
Definition REASON_ALREADY_PROCESSED : jsstring :=
  lit "File already has timestamp prefix indicating previous processing".
Definition REASON_RENAME_FAILED : jsstring :=
  lit "Failed to rename object in S3".
Definition REASON_INVOKE_FAILED (error : jsstring) : jsstring :=
  lit "Subscriber Lambda invocation failed: " ++ error.

(** The key of the record, decoded:
    [decodeURIComponent(key.replace(/\+/g, ' '))]. *)
Definition decodeKey (raw : jsstring) : option jsstring :=
  decodeURIComponent (replace_plus raw).

(** The filename the guard looks at: [key.split('/').pop() || '']. *)
Definition filenameOf (key : jsstring) : jsstring :=
  pop_or_empty (split key).

(** The body of [process] from the first use of the decoded key on. *)
Definition processKey (bucket : Ports) (key : jsstring)
  : M ProcessingResult :=
  let result :=
    {| success := false; action := error_rename; reason := None;
       originalKey := key; newKey := None;
       subscriberInvoked := None; movedToErrors := None |} in
  match findSubfolderConfig bucket key with
  | None =>
      ret {| success := true; action := skipped_no_match;
             reason := Some REASON_NO_MATCH;
             originalKey := originalKey result; newKey := newKey result;
             subscriberInvoked := subscriberInvoked result;
             movedToErrors := movedToErrors result |}
  | Some subfolderConfig =>
      let filename := filenameOf key in
      if isAlreadyProcessed filename then
        ret {| success := true; action := skipped_already_processed;
               reason := Some REASON_ALREADY_PROCESSED;
               originalKey := originalKey result; newKey := newKey result;
               subscriberInvoked := subscriberInvoked result;
               movedToErrors := movedToErrors result |}
      else
        let relativePath :=
          substring key (List.length (path subfolderConfig) + 1) in
        let pathParts := split relativePath in
        let filenameOnly := last pathParts [] in
        let nestedPath := join (slice_0_m1 pathParts) in
        newKey' <- generateDateBasedFileName bucket (path subfolderConfig)
                     nestedPath filenameOnly ;;
        renamed' <- perform (CallRenameObject key newKey')
                      (fun t => renameObject bucket t key newKey') ;;
        if negb renamed' then
          ret {| success := success result; action := error_rename;
                 reason := Some REASON_RENAME_FAILED;
                 originalKey := originalKey result; newKey := newKey result;
                 subscriberInvoked := subscriberInvoked result;
                 movedToErrors := movedToErrors result |}
        else
          let result :=
            {| success := success result; action := renamed;
               reason := reason result;
               originalKey := originalKey result; newKey := Some newKey';
               subscriberInvoked := subscriberInvoked result;
               movedToErrors := movedToErrors result |} in
          let arn := subscriberLambdaArn subfolderConfig in
          settled <- perform (CallNotify arn newKey')
                       (fun t => notify bucket t arn newKey') ;;
          match settled with
          | Resolved =>
              ret {| success := true; action := action result;
                     reason := reason result;
                     originalKey := originalKey result;
                     newKey := newKey result;
                     subscriberInvoked := Some true;
                     movedToErrors := movedToErrors result |}
          | Rejected error =>
              movedToErrors' <-
                perform (CallMoveToErrors newKey' (path subfolderConfig)
                           (REASON_INVOKE_FAILED error))
                  (fun t => moveToErrors bucket t newKey'
                              (path subfolderConfig)
                              (REASON_INVOKE_FAILED error)) ;;
              ret {| success := false; action := error_invoke;
                     reason := Some (REASON_INVOKE_FAILED error);
                     originalKey := originalKey result;
                     newKey := newKey result;
                     subscriberInvoked := Some false;
                     movedToErrors := Some movedToErrors' |}
          end
  end.

(** [process()]: decode the key of the record, then decide.  A
    malformed escape sequence makes [decodeURIComponent] throw. *)
Definition process (record : S3EventRecord) (bucket : Ports)
  : M ProcessingResult :=
  match decodeKey (s3_object_key record) with
  | None => throw URIError
  | Some key => processKey bucket key
  end.

(** One invocation, started with an empty trace. *)
Definition run (record : S3EventRecord) (bucket : Ports)
  : Completion ProcessingResult * Trace :=
  process record bucket [].

End S3EventProcessor.

(* ================================================================== *)
(** ** Vocabulary of the specification *)

Import S3EventProcessor.

(** [s.includes('/')] *)
Definition includesSlash (s : jsstring) : bool := existsb (N.eqb SLASH) s.

Definition noSlash (s : jsstring) : Prop := ~ In SLASH s.

(** "[intakePath] followed by a path separator is a literal prefix of
    the key". *)
Definition underIntakePath (intakePath key : jsstring) : Prop :=
  exists rest, key = intakePath ++ SLASH :: rest.

(** The marker as the specification words it: four digits, [-], two
    digits, [-], two digits, [T], two digits, [:], two digits, [:], two
    digits, [.], three digits, [Z], then [-], at position 0. *)
Definition digits (n : nat) (s : jsstring) : Prop :=
  List.length s = n /\ Forall (fun c => 48 <= c <= 57) s.

Definition markedSpec (filename : jsstring) : Prop :=
  exists year month day hour minute second millis rest,
    digits 4 year /\ digits 2 month /\ digits 2 day /\ digits 2 hour /\
    digits 2 minute /\ digits 2 second /\ digits 3 millis /\
    filename =
      year ++ lit "-" ++ month ++ lit "-" ++ day ++ lit "T" ++
      hour ++ lit ":" ++ minute ++ lit ":" ++ second ++ lit "." ++
      millis ++ lit "Z" ++ lit "-" ++ rest.

(** The format of [Date.prototype.toISOString] for the years 0000 to
    9999, which is what the default clock of the constructor, 
    [() => new Date().toISOString()], produces: the marker without its
    closing hyphen, and nothing after it. *)
Definition ISO_TIMESTAMP_FORMAT : list Regex.atom :=
  removelast TIMESTAMP_PREFIX_PATTERN.

Definition isISOTimestamp (timestamp : jsstring) : bool :=
  Nat.eqb (List.length timestamp) 24 && Regex.test ISO_TIMESTAMP_FORMAT timestamp.

(** The key transition as the specification words it:
    [intakePath/[nestedSubPath/]timestamp-filename]. *)
Definition computeNewKey (intakePath nestedSubPath filename timestamp
  : jsstring) : jsstring :=
  intakePath ++ lit "/"
    ++ match nestedSubPath with
       | [] => []
       | _ :: _ => nestedSubPath ++ lit "/"
       end
    ++ timestamp ++ lit "-" ++ filename.

(** The nested sub-path and the file name that [process] takes from a
    key matched by [subdir], and the key it asks the bucket to rename
    the object to when the clock reads [timestamp]. *)
Definition relativePathOf (subdir : BucketSubdirectory) (key : jsstring)
  : jsstring :=
  substring key (List.length (path subdir) + 1).

Definition nestedPathOf (subdir : BucketSubdirectory) (key : jsstring)
  : jsstring :=
  join (slice_0_m1 (split (relativePathOf subdir key))).

Definition filenameOnlyOf (subdir : BucketSubdirectory) (key : jsstring)
  : jsstring :=
  last (split (relativePathOf subdir key)) [].

Definition newKeyOf (subdir : BucketSubdirectory) (key timestamp : jsstring)
  : jsstring :=
  computeNewKey (path subdir) (nestedPathOf subdir key)
    (filenameOnlyOf subdir key) timestamp.

(** How often a trace reads the clock. *)
Definition isClockRead (c : Call) : bool :=
  match c with
  | CallClock => true
  | _ => false
  end.

Definition clockReads (t : Trace) : nat :=
  List.length (filter isClockRead t).

(** The calls of one invocation, read off its outcome. *)
Definition callsOf (r : ProcessingResult) (key newKey' arn subfolderPath
  : jsstring) : Trace :=
  match action r with
  | skipped_no_match | skipped_already_processed => []
  | error_rename => [CallClock; CallRenameObject key newKey']
  | renamed =>
      [CallClock; CallRenameObject key newKey'; CallNotify arn newKey']
  | error_invoke =>
      [CallClock; CallRenameObject key newKey'; CallNotify arn newKey';
       CallMoveToErrors newKey' subfolderPath
         (match reason r with Some why => why | None => [] end)]
  end.

(** A configuration whose intake paths do not overlap: for no two
    rules is the path of one, followed by a slash, a prefix of the path
    of the other followed by a slash. *)
Definition apart (a b : BucketSubdirectory) : bool :=
  negb (startsWith (path a ++ [SLASH]) (path b ++ [SLASH]))
  && negb (startsWith (path b ++ [SLASH]) (path a ++ [SLASH])).

Fixpoint disjointPaths (l : list BucketSubdirectory) : bool :=
  match l with
  | [] => true
  | a :: l' => forallb (apart a) l' && disjointPaths l'
  end.

(** Percent-decoding as the standard words it.  [escaped B e]: [e] is
    one escape sequence, ['%'] and two hexadecimal digits of either
    case, for the octet [B]. *)
Definition escaped (B : N) (e : jsstring) : Prop :=
  exists h1 h2, e = [PERCENT; h1; h2] /\ ParseHexOctet h1 h2 = Some B.

(** [decodes s k]: the string [s] decodes to [k].  A code unit other
    than ['%'] stands for itself; one escape sequence of an octet below
    0x80 stands for that code unit; two, three or four escape sequences
    that are the well-formed UTF-8 form of a code point (shortest form,
    no surrogate, at most U+10FFFF) stand for that code point, as one
    code unit, or as a surrogate pair above U+FFFF.  Nothing else
    decodes. *)
Inductive decodes : jsstring -> jsstring -> Prop :=
| decodes_nil : decodes [] []
| decodes_unit (c : N) (s k : jsstring) :
    c <> PERCENT -> decodes s k -> decodes (c :: s) (c :: k)
| decodes_1 (e : jsstring) (B : N) (s k : jsstring) :
    escaped B e -> B < 128 -> decodes s k -> decodes (e ++ s) (B :: k)
| decodes_2 (e0 e1 : jsstring) (q r : N) (s k : jsstring) :
    escaped (192 + q) e0 -> escaped (128 + r) e1 ->
    2 <= q < 32 -> r < 64 ->
    decodes s k ->
    decodes (e0 ++ e1 ++ s) (64 * q + r :: k)
| decodes_3 (e0 e1 e2 : jsstring) (a b r : N) (s k : jsstring) :
    escaped (224 + a) e0 -> escaped (128 + b) e1 -> escaped (128 + r) e2 ->
    a < 16 -> b < 64 -> r < 64 ->
    2048 <= 4096 * a + 64 * b + r ->
    ~ (55296 <= 4096 * a + 64 * b + r <= 57343) ->
    decodes s k ->
    decodes (e0 ++ e1 ++ e2 ++ s) (4096 * a + 64 * b + r :: k)
| decodes_4 (e0 e1 e2 e3 : jsstring) (a b c r : N) (s k : jsstring) :
    escaped (240 + a) e0 -> escaped (128 + b) e1 ->
    escaped (128 + c) e2 -> escaped (128 + r) e3 ->
    a < 8 -> b < 64 -> c < 64 -> r < 64 ->
    65536 <= 262144 * a + 4096 * b + 64 * c + r <= 1114111 ->
    decodes s k ->
    decodes (e0 ++ e1 ++ e2 ++ e3 ++ s)
      ((262144 * a + 4096 * b + 64 * c + r - 65536) / 1024 + 55296
         :: (262144 * a + 4096 * b + 64 * c + r - 65536) mod 1024 + 56320
         :: k).

(** *** The fixtures of [test/S3EventProcessor.test.ts] *)

Module Fixture.

Definition subdir (p arn : string) : BucketSubdirectory :=
  {| path := lit p; objectLifetimeDays := 7;
     errorObjectLifetimeDays := None;
     subscriberLambdaArn := lit arn;
     subscriberLambdaExecutionRoleArn :=
       lit "arn:aws:iam::123456789012:role/subscriber-role" |}.

Definition personFull : BucketSubdirectory :=
  subdir "person-full"
    "arn:aws:lambda:us-east-2:123456789012:function:subscriber-full".

Definition personDelta : BucketSubdirectory :=
  subdir "person-delta"
    "arn:aws:lambda:us-east-2:123456789012:function:subscriber-delta".

Definition bucketConfig : BucketConfig :=
  {| name := lit "test-bucket";
     subdirectories := [personFull; personDelta] |}.

Definition fixedTimestamp : jsstring := lit "2026-02-22T10:30:00.000Z".

(** A bucket over [config] whose clock reads [timestamp], whose rename
    and quarantine answer [renames] and [moves], and whose subscriber
    settles as [settles]. *)
Definition mockBucket (config : BucketConfig) (timestamp : jsstring)
  (renames : bool) (settles : NotifyResult) (moves : bool) : Ports :=
  {| getConfig := config;
     clockFn := fun _ => timestamp;
     renameObject := fun _ _ _ => renames;
     notify := fun _ _ _ => settles;
     moveToErrors := fun _ _ _ _ => moves |}.

Definition createMockRecord (key : string) : S3EventRecord :=
  {| s3_bucket_name := lit "test-bucket"; s3_object_key := lit key |}.

(** The rule that the test "Subdirectory names should not trigger
    recursion detection" adds: its path is shaped like a marked file
    name. *)
Definition timestampSubfolder : BucketSubdirectory :=
  subdir "2026-02-22T10:30:00.000Z-subfolder"
    "arn:aws:lambda:us-east-2:123456789012:function:test".

Definition bucketConfigWithTimestampSubfolder : BucketConfig :=
  {| name := lit "test-bucket";
     subdirectories := [personFull; personDelta; timestampSubfolder] |}.

(** The rules ["a"] and ["a/b"], in that order. *)
Definition ruleA : BucketSubdirectory := subdir "a" "arn:a".
Definition ruleAB : BucketSubdirectory := subdir "a/b" "arn:a/b".

Definition bucketConfigAThenAB : BucketConfig :=
  {| name := lit "test-bucket"; subdirectories := [ruleA; ruleAB] |}.

(** An ISO 8601 timestamp without milliseconds, as a clock that
    truncates to the second gives it. *)
Definition secondsTimestamp : jsstring := lit "2026-02-22T10:30:00Z".

End Fixture.

(* ================================================================== *)
(** ** encodeURIComponent *)

Module JsEncode.

(** The set that [encodeURIComponent] leaves as it is: the letters, the
    decimal digits and [- _ . ! ~ * ' ( )]. *)
Definition isUnescaped (c : N) : bool :=
  ((65 <=? c) && (c <=? 90)) || ((97 <=? c) && (c <=? 122))
  || ((48 <=? c) && (c <=? 57))
  || existsb (N.eqb c) [45; 95; 46; 33; 126; 42; 39; 40; 41].

(** One upper-case hexadecimal digit. *)
Definition hexChar (d : N) : N := if d <? 10 then 48 + d else 55 + d.

(** ["%XY"] for the octet [B]. *)
Definition escapeOctet (B : N) : jsstring :=
  [PERCENT; hexChar (B / 16); hexChar (B mod 16)].

Definition isLeadingSurrogate (c : N) : bool :=
  (55296 <=? c) && (c <=? 56319).

Definition isTrailingSurrogate (c : N) : bool :=
  (56320 <=? c) && (c <=? 57343).

Definition UTF16SurrogatePairToCodePoint (lead trail : N) : N :=
  (lead - 55296) * 1024 + (trail - 56320) + 65536.

(** The UTF-8 octets of a code point. *)
Definition utf8Encode (cp : N) : list N :=
  if cp <? 128 then [cp]
  else if cp <? 2048 then [192 + cp / 64; 128 + cp mod 64]
  else if cp <? 65536 then
    [224 + cp / 4096; 128 + (cp / 64) mod 64; 128 + cp mod 64]
  else
    [240 + cp / 262144; 128 + (cp / 4096) mod 64;
     128 + (cp / 64) mod 64; 128 + cp mod 64].

Definition escapeCodePoint (cp : N) : jsstring :=
  List.concat (map escapeOctet (utf8Encode cp)).

(** Encode of ECMA-262 with the set above: a code unit of the set is
    copied; otherwise the code point at that position is escaped octet
    by octet; an unpaired surrogate is a URIError ([None]). *)
Fixpoint Encode (s : jsstring) : option jsstring :=
  match s with
  | [] => Some []
  | c :: rest =>
      if isUnescaped c then option_map (cons c) (Encode rest)
      else if isTrailingSurrogate c then None
      else if isLeadingSurrogate c then
        match rest with
        | c2 :: rest' =>
            if isTrailingSurrogate c2 then
              option_map
                (app (escapeCodePoint (UTF16SurrogatePairToCodePoint c c2)))
                (Encode rest')
            else None
        | [] => None
        end
      else option_map (app (escapeCodePoint c)) (Encode rest)
  end.

Definition encodeURIComponent (s : jsstring) : option jsstring := Encode s.

(** A string whose elements are code units (16 bits). *)
Definition codeUnits (s : jsstring) : Prop := Forall (fun c => c < 65536) s.

(** The characters that an encoded component is made of. *)
Definition isUriSafe (c : N) : bool :=
  isUnescaped c || (c =? PERCENT).

End JsEncode.

(* ================================================================== *)
(** ** The AWS clients, and the monad of [Bucket] and [Subscriber] *)

Module Sdk.

(** The commands that [Bucket] sends to the S3 client. *)
Inductive S3Command : Type :=
| CopyObjectCommand (Bucket CopySource Key : jsstring)
    (TaggingDirective Tagging : option jsstring)
| DeleteObjectCommand (Bucket Key : jsstring).

(** The payload of the invocation, before [JSON.stringify]. *)
Record InvokePayload : Type := {
  s3Path : jsstring;
  payload_bucket : jsstring;
  payload_key : jsstring;
  processedAt : jsstring;
  processorVersion : jsstring
}.

Record InvokeCommand : Type := {
  FunctionName : jsstring;
  InvocationType : jsstring;
  Payload : InvokePayload
}.

(** What the code asks of the world outside: a command sent to a
    client, or [new Date().toISOString()]. *)
Inductive Request : Type :=
| S3Send (c : S3Command)
| LambdaSend (c : InvokeCommand)
| DateToISOString.

Definition Log : Type := list Request.

(** The clients.  [send] resolves ([None]) or rejects with an error,
    given by the text that [`${error}`] renders; each answer may depend
    on the requests made so far. *)
Record Clients : Type := {
  s3_send : Log -> S3Command -> option jsstring;
  lambda_send : Log -> InvokeCommand -> option jsstring;
  Date_toISOString : Log -> jsstring
}.

(** What a [catch] clause receives. *)
Inductive Thrown : Type :=
| ThrownURIError
| ThrownError (error : jsstring).

(** [`${error}`] *)
Definition errorText (e : Thrown) : jsstring :=
  match e with
  | ThrownURIError => lit "URIError: URI malformed"
  | ThrownError error => error
  end.

Inductive Outcome (A : Type) : Type :=
| Value (a : A)
| Raised (e : Thrown).
Arguments Value {A} a.
Arguments Raised {A} e.

Definition S (A : Type) : Type := Log -> Outcome A * Log.

Definition unit {A} (a : A) : S A := fun st => (Value a, st).

Definition raise {A} (e : Thrown) : S A := fun st => (Raised e, st).

Definition andThen {A B} (m : S A) (f : A -> S B) : S B :=
  fun st =>
    match m st with
    | (Value a, st') => f a st'
    | (Raised e, st') => (Raised e, st')
    end.

(** [try { body } catch (error) { handler }] *)
Definition tryCatch {A} (body : S A) (handler : Thrown -> S A) : S A :=
  fun st =>
    match body st with
    | (Value a, st') => (Value a, st')
    | (Raised e, st') => handler e st'
    end.

(** [await this.s3Client.send(command)] *)
Definition awaitS3 (clients : Clients) (c : S3Command) : S Datatypes.unit :=
  fun st =>
    match s3_send clients st c with
    | None => (Value tt, st ++ [S3Send c])
    | Some error => (Raised (ThrownError error), st ++ [S3Send c])
    end.

(** [await this.lambdaClient.send(command)] *)
Definition awaitLambda (clients : Clients) (c : InvokeCommand)
  : S Datatypes.unit :=
  fun st =>
    match lambda_send clients st c with
    | None => (Value tt, st ++ [LambdaSend c])
    | Some error => (Raised (ThrownError error), st ++ [LambdaSend c])
    end.

(** [new Date().toISOString()] *)
Definition now (clients : Clients) : S jsstring :=
  fun st => (Value (Date_toISOString clients st), st ++ [DateToISOString]).

(** A built-in that may throw URIError. *)
Definition orURIError {A} (o : option A) : S A :=
  match o with
  | Some a => unit a
  | None => raise ThrownURIError
  end.

End Sdk.

Notation "x <~ m ;; k" := (Sdk.andThen m (fun x => k))
  (at level 61, m at next level, right associativity).

(* ================================================================== *)
(** ** Bucket *)

Module Bucket.
Import Sdk JsEncode.

(** [getName()] *)
Definition getName (config : BucketConfig) : jsstring := name config.

(** [renameObject(key, newKey)]: copy, then delete; [false] when either
    command is rejected. *)
Definition renameObject (config : BucketConfig) (clients : Clients)
  (key newKey : jsstring) : S bool :=
  tryCatch
    (let bucketName := getName config in
     _ <~ awaitS3 clients
            (CopyObjectCommand bucketName (bucketName ++ lit "/" ++ key)
               newKey None None) ;;
     _ <~ awaitS3 clients (DeleteObjectCommand bucketName key) ;;
     unit true)
    (fun error => unit false).

(** [key.split('/').pop() || 'unknown'] *)
Definition originalFilenameOf (key : jsstring) : jsstring :=
  match pop_or_empty (split key) with
  | [] => lit "unknown"
  | c :: f => c :: f
  end.

(** [`${subfolderPath}/errors/${timestamp}-${originalFilename}`] *)
Definition errorKeyOf (subfolderPath timestamp key : jsstring) : jsstring :=
  subfolderPath ++ lit "/errors/" ++ timestamp ++ lit "-"
    ++ originalFilenameOf key.

(** [moveToErrors(key, subfolderPath, reason)] *)
Definition moveToErrors (config : BucketConfig) (clients : Clients)
  (key subfolderPath reason : jsstring) : S bool :=
  tryCatch
    (let bucketName := getName config in
     timestamp <~ now clients ;;
     let errorKey := errorKeyOf subfolderPath timestamp key in
     encoded <~ orURIError (encodeURIComponent reason) ;;
     _ <~ awaitS3 clients
            (CopyObjectCommand bucketName (bucketName ++ lit "/" ++ key)
               errorKey (Some (lit "REPLACE"))
               (Some (lit "error-reason=" ++ encoded))) ;;
     _ <~ awaitS3 clients (DeleteObjectCommand bucketName key) ;;
     unit true)
    (fun error => unit false).

End Bucket.

(* ================================================================== *)
(** ** Subscriber *)

Module Subscriber.
Import Sdk.

Definition invokeSubscriberLambda (subscriberLambdaArn : jsstring)
  (clients : Clients) (bucketName key : jsstring) : S Datatypes.unit :=
  let s3Path' := lit "s3://" ++ bucketName ++ lit "/" ++ key in
  tryCatch
    (processedAt' <~ now clients ;;
     let payload :=
       {| s3Path := s3Path'; payload_bucket := bucketName;
          payload_key := key; processedAt := processedAt';
          processorVersion := lit "1.0.0" |} in
     let command :=
       {| FunctionName := subscriberLambdaArn;
          InvocationType := lit "Event";
          Payload := payload |} in
     awaitLambda clients command)
    (fun error => raise error).

(** [notify(bucket, newKey)] of the subscriber made for
    [subscriberLambdaArn]. *)
Definition notify (subscriberLambdaArn : jsstring) (clients : Clients)
  (config : BucketConfig) (newKey : jsstring) : S Datatypes.unit :=
  invokeSubscriberLambda subscriberLambdaArn clients
    (Bucket.getName config) newKey.

End Subscriber.

(* ================================================================== *)
(** ** The handler: the engine over the real bucket and subscriber *)

Module Handler.
Import Sdk.

(** The requests that one call of the engine to a port makes, when the
    port is the [Bucket] over the S3 client, the [Subscriber] over the
    Lambda client, and the default clock
    [() => new Date().toISOString()]. *)
Definition serve (config : BucketConfig) (clients : Clients) (c : Call)
  (st : Log) : Log :=
  match c with
  | CallClock => snd (now clients st)
  | CallRenameObject key newKey' =>
      snd (Bucket.renameObject config clients key newKey' st)
  | CallNotify arn newKey' =>
      snd (Subscriber.notify arn clients config newKey' st)
  | CallMoveToErrors key subfolderPath reason' =>
      snd (Bucket.moveToErrors config clients key subfolderPath reason' st)
  end.

(** The log after the calls of [t], served in order from [st]. *)
Definition logAfter (config : BucketConfig) (clients : Clients)
  (st : Log) (t : Trace) : Log :=
  fold_left (fun st' c => serve config clients c st') t st.

(** What [await] gives for a boolean method of [Bucket]; its [catch]
    clause leaves nothing to raise. *)
Definition awaited (o : Outcome bool * Log) : bool :=
  match fst o with
  | Value b => b
  | Raised _ => false
  end.

(** The ports that the handler gives the engine, for an invocation that
    starts when the log is [st]: [new Bucket(BUCKET_CONFIG)], the
    subscriber that [process] makes, and the default clock. *)
Definition ports (config : BucketConfig) (clients : Clients) (st : Log)
  : Ports :=
  {| getConfig := config;
     clockFn := fun t =>
       Date_toISOString clients (logAfter config clients st t);
     renameObject := fun t key newKey' =>
       awaited (Bucket.renameObject config clients key newKey'
                  (logAfter config clients st t));
     notify := fun t arn newKey' =>
       match fst (Subscriber.notify arn clients config newKey'
                    (logAfter config clients st t)) with
       | Value _ => Resolved
       | Raised e => Rejected (errorText e)
       end;
     moveToErrors := fun t key subfolderPath reason' =>
       awaited (Bucket.moveToErrors config clients key subfolderPath
                  reason' (logAfter config clients st t)) |}.

(** [new S3EventProcessor(record, new Bucket(config)).process()] when
    the log is [st]: the completion, and the log afterwards. *)
Definition processRecord (config : BucketConfig) (clients : Clients)
  (record : S3EventRecord) (st : Log)
  : Completion ProcessingResult * Log :=
  let '(completion, t) :=
    S3EventProcessor.process record (ports config clients st) [] in
  (completion, logAfter config clients st t).

(** [handler(event, context)]: the records in order, each in its own
    [try]; what is returned here is what the handler writes to the
    console for each record (the result, or the error caught). *)
Fixpoint handler (config : BucketConfig) (clients : Clients)
  (records : list S3EventRecord) (st : Log)
  : list (Completion ProcessingResult) * Log :=
  match records with
  | [] => ([], st)
  | record :: others =>
      let '(completion, st') := processRecord config clients record st in
      let '(completions, st'') := handler config clients others st' in
      (completion :: completions, st'')
  end.

(** [JSON.parse('{"subdirectories": []}')], the configuration when the
    variable BUCKET_CONFIG is not set; [name] is then [undefined],
    which a template literal renders as ["undefined"]. *)
Definition DEFAULT_BUCKET_CONFIG : BucketConfig :=
  {| name := lit "undefined"; subdirectories := [] |}.

End Handler.

(** The two copy commands of [Bucket]. *)
Definition copyForRename (config : BucketConfig) (key newKey' : jsstring)
  : Sdk.S3Command :=
  Sdk.CopyObjectCommand (name config) (name config ++ lit "/" ++ key) newKey'
    None None.

Definition copyForQuarantine (config : BucketConfig)
  (key errorKey encodedReason : jsstring) : Sdk.S3Command :=
  Sdk.CopyObjectCommand (name config) (name config ++ lit "/" ++ key)
    errorKey (Some (lit "REPLACE"))
    (Some (lit "error-reason=" ++ encodedReason)).

(** The command that [Subscriber] sends for the new key, when the date
    reads [date]. *)
Definition invokeFor (arn : jsstring) (config : BucketConfig)
  (newKey' date : jsstring) : Sdk.InvokeCommand :=
  {| Sdk.FunctionName := arn;
     Sdk.InvocationType := lit "Event";
     Sdk.Payload :=
       {| Sdk.s3Path := lit "s3://" ++ name config ++ lit "/" ++ newKey';
          Sdk.payload_bucket := name config;
          Sdk.payload_key := newKey';
          Sdk.processedAt := date;
          Sdk.processorVersion := lit "1.0.0" |} |}.

(** Clients for examples: the date is fixed; S3 rejects the copies or
    the deletes when told to; the Lambda client answers [invoked]. *)
Module SdkFixture.

Definition accessDenied : jsstring := lit "AccessDenied: Access Denied".

Definition clients (rejectCopy rejectDelete : bool)
  (invoked : option jsstring) : Sdk.Clients :=
  {| Sdk.s3_send := fun _ c =>
       match c with
       | Sdk.CopyObjectCommand _ _ _ _ _ =>
           if rejectCopy then Some accessDenied else None
       | Sdk.DeleteObjectCommand _ _ =>
           if rejectDelete then Some accessDenied else None
       end;
     Sdk.lambda_send := fun _ _ => invoked;
     Sdk.Date_toISOString := fun _ => Fixture.fixedTimestamp |}.

End SdkFixture.

(* ================================================================== *)
(** ** Facts about the string primitives *)

Section StringFacts.

Lemma startsWith_app (p r : jsstring) : startsWith (p ++ r) p = true.
Proof.
  induction p as [|c p IH]; simpl; [reflexivity|].
  now rewrite N.eqb_refl, IH.
Qed.

Lemma startsWith_inv (s p : jsstring) :
  startsWith s p = true -> exists r, s = p ++ r.
Proof.
  revert s; induction p as [|c p IH]; intros s H.
  - now exists s.
  - destruct s as [|d s]; simpl in H; [discriminate|].
    apply andb_true_iff in H as [Hc Hs].
    apply N.eqb_eq in Hc; subst d.
    destruct (IH _ Hs) as [r ->]. now exists r.
Qed.

Lemma startsWith_iff (s p : jsstring) :
  startsWith s p = true <-> exists r, s = p ++ r.
Proof.
  split; [apply startsWith_inv|].
  intros [r ->]. apply startsWith_app.
Qed.

Lemma split_not_nil (s : jsstring) : split s <> [].
Proof.
  induction s as [|c s IH]; simpl; [discriminate|].
  destruct (c =? SLASH); [discriminate|].
  destruct (split s); [contradiction|discriminate].
Qed.

(** Splitting around a separator splits both sides. *)
Lemma split_app_slash (a b : jsstring) :
  split (a ++ SLASH :: b) = split a ++ split b.
Proof.
  induction a as [|c a IH]; simpl.
  - reflexivity.
  - rewrite IH. destruct (c =? SLASH); [reflexivity|].
    pose proof (split_not_nil a) as Hne.
    destruct (split a) as [|seg segs]; [contradiction|reflexivity].
Qed.

Lemma split_noSlash (f : jsstring) : noSlash f -> split f = [f].
Proof.
  unfold noSlash.
  induction f as [|c f IH]; simpl; intros H; [reflexivity|].
  destruct (N.eqb_spec c SLASH) as [->|Hc].
  - exfalso; apply H; now left.
  - rewrite IH; [reflexivity|]. intros Hin; apply H; now right.
Qed.

Lemma split_segments_noSlash (s : jsstring) : Forall noSlash (split s).
Proof.
  induction s as [|c s IH]; simpl.
  - constructor; [intros []|constructor].
  - destruct (N.eqb_spec c SLASH) as [->|Hc].
    + constructor; [intros []|exact IH].
    + destruct (split s) as [|seg segs]; simpl.
      * constructor; [|constructor]. intros [E|[]]; congruence.
      * inversion IH as [|? ? Hseg Hsegs]; subst.
        constructor; [|exact Hsegs].
        intros [E|Hin]; [congruence|now apply Hseg].
Qed.

Lemma last_split_noSlash (s : jsstring) : noSlash (last (split s) []).
Proof.
  pose proof (split_segments_noSlash s) as H.
  pose proof (split_not_nil s) as Hne.
  destruct (exists_last Hne) as [l [x E]]. rewrite E in *.
  rewrite last_last. apply Forall_app in H as [_ H].
  now inversion H.
Qed.

Lemma last_app_not_nil {A} (l1 l2 : list A) (d : A) :
  l2 <> [] -> last (l1 ++ l2) d = last l2 d.
Proof.
  intros Hne. destruct (exists_last Hne) as [l [x ->]].
  now rewrite app_assoc, !last_last.
Qed.

Lemma removelast_app_not_nil {A} (l1 l2 : list A) :
  l2 <> [] -> removelast (l1 ++ l2) = l1 ++ removelast l2.
Proof. intros H. now apply removelast_app. Qed.

Lemma join_split (s : jsstring) : join (split s) = s.
Proof.
  induction s as [|c s IH]; simpl; [reflexivity|].
  pose proof (split_not_nil s) as Hne.
  destruct (c =? SLASH) eqn:Hc.
  - apply N.eqb_eq in Hc; subst c.
    destruct (split s) as [|seg segs]; [contradiction|].
    simpl in *. now rewrite IH.
  - destruct (split s) as [|seg segs]; [contradiction|].
    destruct segs as [|seg' segs]; simpl in *; now rewrite <- IH.
Qed.

(** The filename of [dir/file] is the filename of [file]. *)
Lemma filename_app_slash (a b : jsstring) :
  pop_or_empty (split (a ++ SLASH :: b)) = pop_or_empty (split b).
Proof.
  unfold pop_or_empty. rewrite split_app_slash.
  apply last_app_not_nil, split_not_nil.
Qed.

(** A non-empty directory part followed by a file name: the parts, the
    file name and the directories as [process] computes them. *)
Lemma split_dir_file (nested f : jsstring) :
  noSlash f ->
  last (split (nested ++ SLASH :: f)) [] = f /\
  join (slice_0_m1 (split (nested ++ SLASH :: f))) = nested.
Proof.
  intros Hf. unfold slice_0_m1.
  rewrite split_app_slash, (split_noSlash f Hf).
  rewrite last_last, removelast_last. split; [reflexivity|apply join_split].
Qed.

Lemma skipn_path_slash (p r : jsstring) :
  substring (p ++ SLASH :: r) (List.length p + 1) = r.
Proof.
  unfold substring. rewrite Nat.add_1_r.
  change (p ++ SLASH :: r) with (p ++ [SLASH] ++ r).
  rewrite app_assoc.
  replace (S (List.length p)) with (List.length (p ++ [SLASH]))
    by (rewrite length_app; simpl; lia).
  now rewrite skipn_app, Nat.sub_diag, skipn_all.
Qed.

End StringFacts.

(* ================================================================== *)
(** ** Facts about the engine *)

Section EngineFacts.

Lemma includesSlash_false (s : jsstring) :
  includesSlash s = false -> noSlash s.
Proof.
  unfold includesSlash, noSlash. intros H Hin.
  assert (existsb (N.eqb SLASH) s = true) as E.
  { apply existsb_exists. exists SLASH. split; [exact Hin|apply N.eqb_refl]. }
  congruence.
Qed.

Lemma underIntakePath_startsWith (p key : jsstring) :
  startsWith key (p ++ [SLASH]) = true <-> underIntakePath p key.
Proof.
  unfold underIntakePath. rewrite startsWith_iff.
  split; intros [r ->]; exists r; now rewrite <- app_assoc.
Qed.

Lemma not_underIntakePath_startsWith (p key : jsstring) :
  startsWith key (p ++ [SLASH]) = false <-> ~ underIntakePath p key.
Proof.
  rewrite <- underIntakePath_startsWith.
  destruct (startsWith key (p ++ [SLASH])); split; intros H;
    try reflexivity; try discriminate; try (intros E; discriminate).
  exfalso; now apply H.
Qed.

(** The loop returns the first subdirectory whose path, followed by a
    slash, starts the key. *)
Lemma findSubfolderConfig_loop_Some (l : list BucketSubdirectory)
  (key : jsstring) (subdir : BucketSubdirectory) :
  findSubfolderConfig_loop l key = Some subdir <->
  exists before after,
    l = before ++ subdir :: after /\
    startsWith key (path subdir ++ [SLASH]) = true /\
    Forall (fun s => startsWith key (path s ++ [SLASH]) = false) before.
Proof.
  induction l as [|s l IH]; simpl.
  - split; [discriminate|].
    intros (before & after & E & _). destruct before; discriminate.
  - destruct (startsWith key (path s ++ [SLASH])) eqn:Hs.
    + split.
      * intros [= ->]. exists [], l. repeat split; auto.
      * intros (before & after & E & Hm & Hb).
        destruct before as [|b before]; simpl in E.
        -- now injection E as -> _.
        -- injection E as -> _. inversion Hb; congruence.
    + rewrite IH. split.
      * intros (before & after & -> & Hm & Hb).
        exists (s :: before), after. repeat split; auto.
      * intros (before & after & E & Hm & Hb).
        destruct before as [|b before]; simpl in E.
        -- injection E as -> _. congruence.
        -- injection E as -> ->. inversion Hb; subst.
           exists before, after. repeat split; auto.
Qed.

Lemma findSubfolderConfig_loop_None (l : list BucketSubdirectory)
  (key : jsstring) :
  findSubfolderConfig_loop l key = None <->
  Forall (fun s => startsWith key (path s ++ [SLASH]) = false) l.
Proof.
  induction l as [|s l IH]; simpl.
  - split; auto.
  - destruct (startsWith key (path s ++ [SLASH])) eqn:Hs.
    + split; [discriminate|]. intros H; inversion H; congruence.
    + rewrite IH. split; [now constructor|]. intros H; now inversion H.
Qed.

Lemma findSubfolderConfig_matches (bucket : Ports) (key : jsstring)
  (subdir : BucketSubdirectory) :
  findSubfolderConfig bucket key = Some subdir ->
  underIntakePath (path subdir) key.
Proof.
  unfold findSubfolderConfig. intros H.
  apply findSubfolderConfig_loop_Some in H as (_ & _ & _ & Hm & _).
  now apply underIntakePath_startsWith.
Qed.

(** A key under some configured path is matched by some rule. *)
Lemma findSubfolderConfig_some_rule (l : list BucketSubdirectory)
  (key : jsstring) (subdir : BucketSubdirectory) :
  In subdir l -> underIntakePath (path subdir) key ->
  exists found, findSubfolderConfig_loop l key = Some found.
Proof.
  intros Hin Hu.
  destruct (findSubfolderConfig_loop l key) as [found|] eqn:E.
  - now exists found.
  - apply findSubfolderConfig_loop_None in E.
    rewrite Forall_forall in E. specialize (E _ Hin).
    apply not_underIntakePath_startsWith in E. contradiction.
Qed.

Lemma generateDateBasedFileName_eq (bucket : Ports)
  (subfolderPath nestedPath originalFilename : jsstring) (t : Trace) :
  generateDateBasedFileName bucket subfolderPath nestedPath
    originalFilename t =
  (Returns (computeNewKey subfolderPath nestedPath originalFilename
              (clockFn bucket t)),
   t ++ [CallClock]).
Proof.
  unfold generateDateBasedFileName, computeNewKey, bind, perform, ret.
  destruct nestedPath as [|c n]; simpl; [reflexivity|].
  now rewrite <- !app_assoc.
Qed.

(** What [processKey] does with a matched key that carries no marker. *)
Lemma processKey_transition (bucket : Ports) (key : jsstring)
  (subdir : BucketSubdirectory) (t : Trace) :
  findSubfolderConfig bucket key = Some subdir ->
  isAlreadyProcessed (filenameOf key) = false ->
  processKey bucket key t =
  let newKey' := newKeyOf subdir key (clockFn bucket t) in
  let arn := subscriberLambdaArn subdir in
  let t1 := t ++ [CallClock] in
  let t2 := t1 ++ [CallRenameObject key newKey'] in
  let t3 := t2 ++ [CallNotify arn newKey'] in
  if renameObject bucket t1 key newKey' then
    match notify bucket t2 arn newKey' with
    | Resolved =>
        (Returns {| success := true; action := renamed; reason := None;
                    originalKey := key; newKey := Some newKey';
                    subscriberInvoked := Some true;
                    movedToErrors := None |}, t3)
    | Rejected error =>
        (Returns {| success := false; action := error_invoke;
                    reason := Some (REASON_INVOKE_FAILED error);
                    originalKey := key; newKey := Some newKey';
                    subscriberInvoked := Some false;
                    movedToErrors :=
                      Some (moveToErrors bucket t3 newKey' (path subdir)
                              (REASON_INVOKE_FAILED error)) |},
         t3 ++ [CallMoveToErrors newKey' (path subdir)
                  (REASON_INVOKE_FAILED error)])
    end
  else
    (Returns {| success := false; action := error_rename;
                reason := Some REASON_RENAME_FAILED;
                originalKey := key; newKey := None;
                subscriberInvoked := None; movedToErrors := None |}, t2).
Proof.
  intros Hfind Hguard. unfold processKey.
  rewrite Hfind, Hguard. unfold bind at 1.
  rewrite generateDateBasedFileName_eq.
  fold (relativePathOf subdir key).
  fold (nestedPathOf subdir key). fold (filenameOnlyOf subdir key).
  fold (newKeyOf subdir key (clockFn bucket t)).
  cbv zeta. unfold bind, perform, ret. simpl.
  destruct (renameObject bucket (t ++ [CallClock]) key
              (newKeyOf subdir key (clockFn bucket t))); simpl;
    [|reflexivity].
  destruct (notify bucket _ _ _); reflexivity.
Qed.

Lemma processKey_no_match (bucket : Ports) (key : jsstring) (t : Trace) :
  findSubfolderConfig bucket key = None ->
  processKey bucket key t =
  (Returns {| success := true; action := skipped_no_match;
              reason := Some REASON_NO_MATCH;
              originalKey := key; newKey := None;
              subscriberInvoked := None; movedToErrors := None |}, t).
Proof. intros H. unfold processKey. now rewrite H. Qed.

Lemma processKey_marked (bucket : Ports) (key : jsstring)
  (subdir : BucketSubdirectory) (t : Trace) :
  findSubfolderConfig bucket key = Some subdir ->
  isAlreadyProcessed (filenameOf key) = true ->
  processKey bucket key t =
  (Returns {| success := true; action := skipped_already_processed;
              reason := Some REASON_ALREADY_PROCESSED;
              originalKey := key; newKey := None;
              subscriberInvoked := None; movedToErrors := None |}, t).
Proof. intros H G. unfold processKey. now rewrite H, G. Qed.

Lemma run_decoded (record : S3EventRecord) (bucket : Ports)
  (key : jsstring) :
  decodeKey (s3_object_key record) = Some key ->
  run record bucket = processKey bucket key [].
Proof. intros H. unfold run, process. now rewrite H. Qed.

End EngineFacts.

(* ================================================================== *)
(** ** The path matcher *)

(** C3.  A decoded key that no configured intake path followed by ['/']
    starts ([key.startsWith(path + '/')] is false for every rule; by
    [not_underIntakePath_startsWith] that is: the key is under no intake
    path) makes [process] return [skipped-no-match] with [success =
    true], and the trace of the invocation is empty: [renameObject],
    [moveToErrors] and the subscriber are not called. *)
Theorem C3_unmatched_key_is_skipped (record : S3EventRecord)
  (bucket : Ports) (key : jsstring) :
  decodeKey (s3_object_key record) = Some key ->
  Forall (fun subdir => startsWith key (path subdir ++ [SLASH]) = false)
    (subdirectories (getConfig bucket)) ->
  exists r,
    run record bucket = (Returns r, []) /\
    action r = skipped_no_match /\
    success r = true /\
    newKey r = None /\ subscriberInvoked r = None /\ movedToErrors r = None.
Proof.
  intros Hdec Hnone.
  apply findSubfolderConfig_loop_None in Hnone.
  rewrite (run_decoded _ _ _ Hdec).
  rewrite (processKey_no_match bucket key [] Hnone).
  eexists; repeat split.
Qed.

Lemma C3_unmatched_key_is_skipped_witness :
  exists r,
    run (Fixture.createMockRecord "unconfigured-folder/test-file.json")
        (Fixture.mockBucket Fixture.bucketConfig Fixture.fixedTimestamp
           true Resolved true)
    = (Returns r, []) /\
    action r = skipped_no_match /\
    success r = true /\
    newKey r = None /\ subscriberInvoked r = None /\ movedToErrors r = None.
Proof.
  apply (C3_unmatched_key_is_skipped
           (Fixture.createMockRecord "unconfigured-folder/test-file.json")
           (Fixture.mockBucket Fixture.bucketConfig Fixture.fixedTimestamp
              true Resolved true)
           (lit "unconfigured-folder/test-file.json")).
  - vm_compute; reflexivity.
  - repeat constructor.
Defined.

(** C4.  [findSubfolderConfig] walks the rules in declaration order and
    returns the first one whose path followed by ['/'] is a literal
    prefix of the key: it returns [subdir] exactly when the rules split
    as [before ++ subdir :: after] with the key under [subdir]'s path
    and under no path of [before]; it returns nothing exactly when the
    key is under no rule's path.  With the rules ["a"] then ["a/b"],
    the key ["a/b/x.json"] selects the rule ["a"]. *)
Theorem C4_first_match_in_declaration_order :
  (forall (bucket : Ports) (key : jsstring) (subdir : BucketSubdirectory),
      findSubfolderConfig bucket key = Some subdir <->
      exists before after,
        subdirectories (getConfig bucket) = before ++ subdir :: after /\
        underIntakePath (path subdir) key /\
        Forall (fun s => ~ underIntakePath (path s) key) before) /\
  (forall (bucket : Ports) (key : jsstring),
      findSubfolderConfig bucket key = None <->
      Forall (fun s => ~ underIntakePath (path s) key)
        (subdirectories (getConfig bucket))) /\
  (findSubfolderConfig
     (Fixture.mockBucket Fixture.bucketConfigAThenAB Fixture.fixedTimestamp
        true Resolved true)
     (lit "a/b/x.json") = Some Fixture.ruleA /\
   underIntakePath (path Fixture.ruleAB) (lit "a/b/x.json")).
Proof.
  split; [|split].
  - intros bucket key subdir. unfold findSubfolderConfig.
    rewrite findSubfolderConfig_loop_Some.
    split; intros (before & after & E & Hm & Hb);
      exists before, after; (split; [exact E|split]).
    + now apply underIntakePath_startsWith.
    + eapply Forall_impl; [|exact Hb].
      intros s. apply not_underIntakePath_startsWith.
    + now apply underIntakePath_startsWith.
    + eapply Forall_impl; [|exact Hb].
      intros s. apply not_underIntakePath_startsWith.
  - intros bucket key. unfold findSubfolderConfig.
    rewrite findSubfolderConfig_loop_None.
    split; intros H; (eapply Forall_impl; [|exact H]);
      intros s; apply not_underIntakePath_startsWith.
  - split.
    + reflexivity.
    + exists (lit "x.json"). reflexivity.
Qed.

(* ================================================================== *)
(** ** Splitting a key that ends in a file name *)

Section SplitLast.

(** Appending slash-free text to a string extends its last segment. *)
Lemma split_app_noSlash (a b : jsstring) :
  noSlash b ->
  split (a ++ b) = removelast (split a) ++ [last (split a) [] ++ b].
Proof.
  intros Hb. induction a as [|c a IH].
  - simpl. now apply split_noSlash.
  - pose proof (split_not_nil a) as Hne.
    simpl. rewrite IH. clear IH.
    destruct (c =? SLASH).
    + destruct (split a) as [|s0 ss]; [contradiction|reflexivity].
    + destruct (split a) as [|s0 ss]; [contradiction|].
      destruct ss as [|s1 ss]; reflexivity.
Qed.

Lemma last_split_app_noSlash (a b : jsstring) :
  noSlash b -> last (split (a ++ b)) [] = last (split a) [] ++ b.
Proof.
  intros Hb. rewrite (split_app_noSlash a b Hb). apply last_last.
Qed.

(** The key that the transition computes is never the key it started
    from: its last segment is longer than the file name. *)
Lemma newKeyOf_differs (bucket : Ports) (key timestamp : jsstring)
  (subdir : BucketSubdirectory) :
  findSubfolderConfig bucket key = Some subdir ->
  newKeyOf subdir key timestamp <> key.
Proof.
  intros Hfind E.
  destruct (findSubfolderConfig_matches _ _ _ Hfind) as [rel Hkey].
  assert (Hns : noSlash (filenameOnlyOf subdir key))
    by apply last_split_noSlash.
  assert (Hrel : relativePathOf subdir key = rel).
  { unfold relativePathOf. rewrite Hkey. apply skipn_path_slash. }
  assert (Hlast : last (split rel) [] = filenameOnlyOf subdir key).
  { unfold filenameOnlyOf. now rewrite Hrel. }
  unfold newKeyOf, computeNewKey in E.
  set (f := filenameOnlyOf subdir key) in *.
  set (n := match nestedPathOf subdir key with
            | [] => []
            | _ :: _ => nestedPathOf subdir key ++ lit "/"
            end) in *.
  rewrite Hkey in E.
  apply app_inv_head in E.
  change (SLASH :: rel) with (lit "/" ++ rel) in E.
  apply app_inv_head in E.
  assert (Hsplit : rel = (n ++ timestamp ++ lit "-") ++ f)
    by (rewrite <- E, <- !app_assoc; reflexivity).
  rewrite Hsplit in Hlast.
  rewrite (last_split_app_noSlash _ f Hns) in Hlast.
  apply (f_equal (@List.length N)) in Hlast.
  rewrite length_app in Hlast.
  assert (last (split (n ++ timestamp ++ lit "-")) [] <> []) as Hne.
  { rewrite app_assoc.
    rewrite (last_split_app_noSlash (n ++ timestamp) (lit "-")).
    - intros H. apply app_eq_nil in H as [_ H]. discriminate.
    - intros [H|[]]. discriminate. }
  destruct (last (split (n ++ timestamp ++ lit "-")) []);
    [congruence|simpl in Hlast; lia].
Qed.

End SplitLast.

(* ================================================================== *)
(** ** Rename and notification failures *)

(** C7.  For a matched key without marker, when the bucket answers
    [false] to the rename, [process] returns [error-rename] with
    [success = false] and the reason "Failed to rename object in S3";
    the invocation read the clock and asked for the rename, and called
    neither the subscriber nor [moveToErrors]. *)
Theorem C7_rename_failure (record : S3EventRecord) (bucket : Ports)
  (key : jsstring) (subdir : BucketSubdirectory) :
  decodeKey (s3_object_key record) = Some key ->
  findSubfolderConfig bucket key = Some subdir ->
  isAlreadyProcessed (filenameOf key) = false ->
  renameObject bucket [CallClock] key
    (newKeyOf subdir key (clockFn bucket [])) = false ->
  exists r,
    run record bucket =
      (Returns r,
       [CallClock;
        CallRenameObject key (newKeyOf subdir key (clockFn bucket []))]) /\
    action r = error_rename /\
    success r = false /\
    reason r = Some (lit "Failed to rename object in S3") /\
    originalKey r = key /\
    subscriberInvoked r = None /\ movedToErrors r = None.
Proof.
  intros Hdec Hfind Hguard Hren.
  rewrite (run_decoded _ _ _ Hdec).
  rewrite (processKey_transition bucket key subdir [] Hfind Hguard).
  cbv zeta. simpl app. rewrite Hren.
  eexists; repeat split.
Qed.

Lemma C7_rename_failure_witness :
  exists r,
    run (Fixture.createMockRecord "person-full/data.json")
        (Fixture.mockBucket Fixture.bucketConfig Fixture.fixedTimestamp
           false Resolved true) =
      (Returns r,
       [CallClock;
        CallRenameObject (lit "person-full/data.json")
          (lit "person-full/2026-02-22T10:30:00.000Z-data.json")]) /\
    action r = error_rename /\
    success r = false /\
    reason r = Some (lit "Failed to rename object in S3") /\
    originalKey r = lit "person-full/data.json" /\
    subscriberInvoked r = None /\ movedToErrors r = None.
Proof.
  apply (C7_rename_failure
           (Fixture.createMockRecord "person-full/data.json")
           (Fixture.mockBucket Fixture.bucketConfig Fixture.fixedTimestamp
              false Resolved true)
           (lit "person-full/data.json") Fixture.personFull);
    vm_compute; reflexivity.
Defined.

(** C8.  For a matched key without marker whose rename succeeds and
    whose notification is rejected, [process] calls [moveToErrors] with
    the new key (which differs from the original key), the path of the
    matched rule and the reason, and returns [error-invoke] with
    [success = false], [subscriberInvoked = false], [movedToErrors]
    equal to what [moveToErrors] answered, and the reason
    "Subscriber Lambda invocation failed: " followed by the text of the
    rejection.  The invocation returns whatever [moveToErrors] answers. *)
Theorem C8_notify_failure_quarantines (record : S3EventRecord)
  (bucket : Ports) (key error : jsstring) (subdir : BucketSubdirectory) :
  let newKey' := newKeyOf subdir key (clockFn bucket []) in
  let arn := subscriberLambdaArn subdir in
  let why := lit "Subscriber Lambda invocation failed: " ++ error in
  decodeKey (s3_object_key record) = Some key ->
  findSubfolderConfig bucket key = Some subdir ->
  isAlreadyProcessed (filenameOf key) = false ->
  renameObject bucket [CallClock] key newKey' = true ->
  notify bucket [CallClock; CallRenameObject key newKey'] arn newKey'
    = Rejected error ->
  exists r,
    run record bucket =
      (Returns r,
       [CallClock; CallRenameObject key newKey'; CallNotify arn newKey';
        CallMoveToErrors newKey' (path subdir) why]) /\
    newKey' <> key /\
    action r = error_invoke /\
    success r = false /\
    subscriberInvoked r = Some false /\
    movedToErrors r =
      Some (moveToErrors bucket
              [CallClock; CallRenameObject key newKey';
               CallNotify arn newKey']
              newKey' (path subdir) why) /\
    reason r = Some why /\
    originalKey r = key /\
    newKey r = Some newKey'.
Proof.
  intros newKey' arn why Hdec Hfind Hguard Hren Hnot.
  rewrite (run_decoded _ _ _ Hdec).
  rewrite (processKey_transition bucket key subdir [] Hfind Hguard).
  cbv zeta. simpl app. fold newKey' arn. rewrite Hren, Hnot.
  eexists; split; [reflexivity|].
  split; [now apply (newKeyOf_differs bucket)|].
  repeat split.
Qed.

Lemma C8_notify_failure_quarantines_witness :
  exists r,
    run (Fixture.createMockRecord "person-full/data.json")
        (Fixture.mockBucket Fixture.bucketConfig Fixture.fixedTimestamp
           true (Rejected (lit "Error: Lambda invocation failed")) false) =
      (Returns r,
       [CallClock;
        CallRenameObject (lit "person-full/data.json")
          (lit "person-full/2026-02-22T10:30:00.000Z-data.json");
        CallNotify (subscriberLambdaArn Fixture.personFull)
          (lit "person-full/2026-02-22T10:30:00.000Z-data.json");
        CallMoveToErrors
          (lit "person-full/2026-02-22T10:30:00.000Z-data.json")
          (lit "person-full")
          (lit "Subscriber Lambda invocation failed: Error: Lambda invocation failed")]) /\
    action r = error_invoke /\
    success r = false /\
    subscriberInvoked r = Some false /\
    movedToErrors r = Some false.
Proof.
  destruct (C8_notify_failure_quarantines
              (Fixture.createMockRecord "person-full/data.json")
              (Fixture.mockBucket Fixture.bucketConfig
                 Fixture.fixedTimestamp true
                 (Rejected (lit "Error: Lambda invocation failed")) false)
              (lit "person-full/data.json")
              (lit "Error: Lambda invocation failed")
              Fixture.personFull)
    as (r & Hrun & _ & Ha & Hs & Hi & Hm & _);
    try (vm_compute; reflexivity).
  exists r. repeat split; assumption.
Defined.

(* ================================================================== *)
(** ** The recursion guard *)

Section Guard.

Lemma isDigit_iff (c : N) : Regex.isDigit c = true <-> 48 <= c <= 57.
Proof.
  unfold Regex.isDigit. rewrite andb_true_iff, !N.leb_le. reflexivity.
Qed.

Lemma test_cons (a : Regex.atom) (pattern : list Regex.atom)
  (c : N) (s : jsstring) :
  Regex.test (a :: pattern) (c :: s) =
  Regex.matchAtom a c && Regex.test pattern s.
Proof. reflexivity. Qed.

Lemma test_Digit_inv (pattern : list Regex.atom) (s : jsstring) :
  Regex.test (Regex.Digit :: pattern) s = true ->
  exists c s', s = c :: s' /\ 48 <= c <= 57 /\ Regex.test pattern s' = true.
Proof.
  destruct s as [|c s']; [discriminate|].
  rewrite test_cons. intros H. apply andb_true_iff in H as [Hc Hs].
  exists c, s'. repeat split; try assumption; now apply isDigit_iff.
Qed.

Lemma test_Char_inv (d : N) (pattern : list Regex.atom) (s : jsstring) :
  Regex.test (Regex.Char d :: pattern) s = true ->
  exists s', s = d :: s' /\ Regex.test pattern s' = true.
Proof.
  destruct s as [|c s']; [discriminate|].
  rewrite test_cons. intros H. apply andb_true_iff in H as [Hc Hs].
  apply N.eqb_eq in Hc. subst c. now exists s'.
Qed.

Lemma test_Digit_intro (pattern : list Regex.atom) (c : N) (s : jsstring) :
  48 <= c <= 57 -> Regex.test pattern s = true ->
  Regex.test (Regex.Digit :: pattern) (c :: s) = true.
Proof.
  intros Hc Hs. rewrite test_cons, Hs.
  simpl. now rewrite (proj2 (isDigit_iff c) Hc).
Qed.

Lemma test_Char_intro (d : N) (pattern : list Regex.atom) (s : jsstring) :
  Regex.test pattern s = true ->
  Regex.test (Regex.Char d :: pattern) (d :: s) = true.
Proof.
  intros Hs. rewrite test_cons, Hs. simpl. now rewrite N.eqb_refl.
Qed.

Lemma digits_2 (s : jsstring) :
  digits 2 s <-> exists a b, s = [a; b] /\ 48 <= a <= 57 /\ 48 <= b <= 57.
Proof.
  unfold digits. split.
  - intros [Hl Hd].
    destruct s as [|a [|b [|? ?]]]; try discriminate.
    inversion Hd as [|? ? Ha Hd']; subst.
    inversion Hd' as [|? ? Hb _]; subst.
    now exists a, b.
  - intros (a & b & -> & Ha & Hb). split; [reflexivity|].
    repeat constructor; lia.
Qed.

Lemma digits_3 (s : jsstring) :
  digits 3 s <->
  exists a b c, s = [a; b; c] /\
                48 <= a <= 57 /\ 48 <= b <= 57 /\ 48 <= c <= 57.
Proof.
  unfold digits. split.
  - intros [Hl Hd].
    destruct s as [|a [|b [|c [|? ?]]]]; try discriminate.
    inversion Hd as [|? ? Ha Hd']; subst.
    inversion Hd' as [|? ? Hb Hd'']; subst.
    inversion Hd'' as [|? ? Hc _]; subst.
    now exists a, b, c.
  - intros (a & b & c & -> & Ha & Hb & Hc). split; [reflexivity|].
    repeat constructor; lia.
Qed.

Lemma digits_4 (s : jsstring) :
  digits 4 s <->
  exists a b c d, s = [a; b; c; d] /\
    48 <= a <= 57 /\ 48 <= b <= 57 /\ 48 <= c <= 57 /\ 48 <= d <= 57.
Proof.
  unfold digits. split.
  - intros [Hl Hd].
    destruct s as [|a [|b [|c [|d [|? ?]]]]]; try discriminate.
    inversion Hd as [|? ? Ha Hd1]; subst.
    inversion Hd1 as [|? ? Hb Hd2]; subst.
    inversion Hd2 as [|? ? Hc Hd3]; subst.
    inversion Hd3 as [|? ? Hd4 _]; subst.
    now exists a, b, c, d.
  - intros (a & b & c & d & -> & Ha & Hb & Hc & Hd). split; [reflexivity|].
    repeat constructor; lia.
Qed.

(** The regular expression accepts exactly the file names that the
    specification calls marked. *)
Lemma isAlreadyProcessed_markedSpec (filename : jsstring) :
  isAlreadyProcessed filename = true <-> markedSpec filename.
Proof.
  unfold isAlreadyProcessed, TIMESTAMP_PREFIX_PATTERN, markedSpec. split.
  - intros H.
    repeat match type of H with
    | Regex.test (Regex.Digit :: _) _ = true =>
        let c := fresh "c" in let s := fresh "s" in
        let Hc := fresh "Hc" in
        apply test_Digit_inv in H as (c & s & -> & Hc & H)
    | Regex.test (Regex.Char _ :: _) _ = true =>
        let s := fresh "s" in
        apply test_Char_inv in H as (s & -> & H)
    end.
    match goal with
    | |- exists _ _ _ _ _ _ _ _, _ /\ _ /\ _ /\ _ /\ _ /\ _ /\ _ /\
           (?y1 :: ?y2 :: ?y3 :: ?y4 :: _ :: ?m1 :: ?m2 :: _ :: ?d1 :: ?d2
            :: _ :: ?h1 :: ?h2 :: _ :: ?i1 :: ?i2 :: _ :: ?s1 :: ?s2 :: _
            :: ?l1 :: ?l2 :: ?l3 :: _ :: _ :: ?rest) = _ =>
        exists [y1; y2; y3; y4], [m1; m2], [d1; d2], [h1; h2], [i1; i2],
               [s1; s2], [l1; l2; l3], rest
    end.
    rewrite digits_4, !digits_2, digits_3.
    repeat split; eauto 10.
  - intros (year & month & day & hour & minute & second & millis & rest
            & Hy & Hmo & Hd & Hh & Hmi & Hs & Hms & ->).
    apply digits_4 in Hy as (y1 & y2 & y3 & y4 & -> & ? & ? & ? & ?).
    apply digits_2 in Hmo as (m1 & m2 & -> & ? & ?).
    apply digits_2 in Hd as (d1 & d2 & -> & ? & ?).
    apply digits_2 in Hh as (h1 & h2 & -> & ? & ?).
    apply digits_2 in Hmi as (i1 & i2 & -> & ? & ?).
    apply digits_2 in Hs as (s1 & s2 & -> & ? & ?).
    apply digits_3 in Hms as (l1 & l2 & l3 & -> & ? & ? & ?).
    cbn [app lit map list_ascii_of_string N_of_ascii].
    repeat first [ apply test_Digit_intro; [assumption|]
                 | apply test_Char_intro ].
    reflexivity.
Qed.

End Guard.

Section GuardInProcess.

(** The guard looks at the text after the last slash of the key. *)
Lemma filenameOf_dir_file (dir filename : jsstring) :
  noSlash filename -> filenameOf (dir ++ SLASH :: filename) = filename.
Proof.
  intros H. unfold filenameOf. rewrite filename_app_slash.
  now rewrite (split_noSlash filename H).
Qed.

(** For a matched key, the file name of the transition is the file
    name of the guard. *)
Lemma filenameOnlyOf_filenameOf (bucket : Ports) (key : jsstring)
  (subdir : BucketSubdirectory) :
  findSubfolderConfig bucket key = Some subdir ->
  filenameOnlyOf subdir key = filenameOf key.
Proof.
  intros Hfind.
  destruct (findSubfolderConfig_matches _ _ _ Hfind) as [rel Hkey].
  unfold filenameOnlyOf, relativePathOf, filenameOf.
  rewrite Hkey. rewrite skipn_path_slash.
  symmetry. apply filename_app_slash.
Qed.

End GuardInProcess.

(** C5, as the code has it.  The guard accepts a file name exactly
    when it begins, at
    position 0, with four digits, [-], two digits, [-], two digits,
    [T], two digits, [:], two digits, [:], two digits, [.], three
    digits, [Z], [-]; every other file name is not marked.  For a
    matched key [dir/filename] the guard looks at [filename] alone,
    whatever [dir] is: when [filename] is not marked the object is
    processed (the clock is read and the rename is requested), and when
    it is marked [process] returns [skipped-already-processed] with
    [success = true] and an empty trace (no rename, no quarantine, no
    notification). *)
Theorem C5_recursion_guard (record : S3EventRecord) (bucket : Ports)
  (key dir filename : jsstring) (subdir : BucketSubdirectory) :
  decodeKey (s3_object_key record) = Some key ->
  findSubfolderConfig bucket key = Some subdir ->
  key = dir ++ lit "/" ++ filename ->
  includesSlash filename = false ->
  (forall f, isAlreadyProcessed f = true <-> markedSpec f) /\
  (forall f, isAlreadyProcessed f = false <-> ~ markedSpec f) /\
  filenameOf key = filename /\
  (~ markedSpec filename ->
   exists r tr,
     run record bucket =
       (Returns r,
        CallClock
          :: CallRenameObject key (newKeyOf subdir key (clockFn bucket []))
          :: tr) /\
     action r <> skipped_already_processed) /\
  (markedSpec filename ->
   exists r,
     run record bucket = (Returns r, []) /\
     action r = skipped_already_processed /\
     success r = true /\
     newKey r = None /\ subscriberInvoked r = None /\ movedToErrors r = None).
Proof.
  intros Hdec Hfind Hkey Hns.
  apply includesSlash_false in Hns.
  assert (Hfile : filenameOf key = filename)
    by (rewrite Hkey; now apply filenameOf_dir_file).
  assert (Hnot : forall f, isAlreadyProcessed f = false <-> ~ markedSpec f).
  { intros f. rewrite <- isAlreadyProcessed_markedSpec.
    destruct (isAlreadyProcessed f); split; congruence. }
  split; [exact isAlreadyProcessed_markedSpec|].
  split; [exact Hnot|]. split; [exact Hfile|]. split.
  - intros Hun. apply Hnot in Hun. rewrite <- Hfile in Hun.
    rewrite (run_decoded _ _ _ Hdec).
    rewrite (processKey_transition bucket key subdir [] Hfind Hun).
    cbv zeta. simpl app.
    destruct (renameObject bucket _ _ _);
      [destruct (notify bucket _ _ _)|];
      eexists; eexists; (split; [reflexivity|discriminate]).
  - intros Hm. apply isAlreadyProcessed_markedSpec in Hm.
    rewrite <- Hfile in Hm.
    rewrite (run_decoded _ _ _ Hdec).
    rewrite (processKey_marked bucket key subdir [] Hfind Hm).
    eexists; repeat split.
Qed.

(** The directory of the test "Subdirectory names should not trigger
    recursion detection" is itself shaped like a marked file name. *)
Lemma C5_recursion_guard_witness :
  isAlreadyProcessed (path Fixture.timestampSubfolder) = true /\
  exists r tr,
    run (Fixture.createMockRecord
           "2026-02-22T10:30:00.000Z-subfolder/newfile.json")
        (Fixture.mockBucket Fixture.bucketConfigWithTimestampSubfolder
           Fixture.fixedTimestamp true Resolved true) =
      (Returns r,
       CallClock
         :: CallRenameObject
              (lit "2026-02-22T10:30:00.000Z-subfolder/newfile.json")
              (lit "2026-02-22T10:30:00.000Z-subfolder/2026-02-22T10:30:00.000Z-newfile.json")
         :: tr) /\
    action r <> skipped_already_processed.
Proof.
  split; [reflexivity|].
  destruct (C5_recursion_guard
              (Fixture.createMockRecord
                 "2026-02-22T10:30:00.000Z-subfolder/newfile.json")
              (Fixture.mockBucket Fixture.bucketConfigWithTimestampSubfolder
                 Fixture.fixedTimestamp true Resolved true)
              (lit "2026-02-22T10:30:00.000Z-subfolder/newfile.json")
              (lit "2026-02-22T10:30:00.000Z-subfolder")
              (lit "newfile.json")
              Fixture.timestampSubfolder)
    as (_ & Hnot & _ & Hprocessed & _);
    try (vm_compute; reflexivity).
  apply Hprocessed. apply Hnot. vm_compute; reflexivity.
Defined.

(** C5, as stated, fails in its last clause for a key that no rule
    matches: the file name of ["unconfigured-folder/2026-02-22T10:30:00.000Z-data.json"]
    is marked, yet [process] returns [skipped-no-match], because the
    path matcher runs before the guard. *)
Lemma C5_counterexample :
  isAlreadyProcessed
    (filenameOf (lit "unconfigured-folder/2026-02-22T10:30:00.000Z-data.json"))
    = true /\
  findSubfolderConfig
    (Fixture.mockBucket Fixture.bucketConfig Fixture.fixedTimestamp
       true Resolved true)
    (lit "unconfigured-folder/2026-02-22T10:30:00.000Z-data.json") = None /\
  run (Fixture.createMockRecord
         "unconfigured-folder/2026-02-22T10:30:00.000Z-data.json")
      (Fixture.mockBucket Fixture.bucketConfig Fixture.fixedTimestamp
         true Resolved true)
    = (Returns
         {| success := true; action := skipped_no_match;
            reason := Some REASON_NO_MATCH;
            originalKey :=
              lit "unconfigured-folder/2026-02-22T10:30:00.000Z-data.json";
            newKey := None; subscriberInvoked := None;
            movedToErrors := None |},
       []).
Proof. repeat split; vm_compute; reflexivity. Qed.

(* ================================================================== *)
(** ** Termination of the feedback loop *)

Section OneHop.

Lemma test_app (p1 p2 : list Regex.atom) (s1 s2 : jsstring) :
  List.length s1 = List.length p1 ->
  Regex.test (p1 ++ p2) (s1 ++ s2) = Regex.test p1 s1 && Regex.test p2 s2.
Proof.
  revert s1; induction p1 as [|a p1 IH]; intros s1 Hl.
  - destruct s1; [reflexivity|discriminate].
  - destruct s1 as [|c s1]; [discriminate|].
    injection Hl as Hl. simpl. rewrite (IH s1 Hl). apply andb_assoc.
Qed.

Lemma test_noSlash (pattern : list Regex.atom) (s : jsstring) :
  Forall (fun a => Regex.matchAtom a SLASH = false) pattern ->
  List.length s = List.length pattern ->
  Regex.test pattern s = true -> noSlash s.
Proof.
  unfold noSlash. intros Hp. revert s.
  induction Hp as [|a pattern Ha Hp IH]; intros s Hl Ht.
  - destruct s; [intros []|discriminate].
  - destruct s as [|c s]; [discriminate|].
    injection Hl as Hl. simpl in Ht.
    apply andb_true_iff in Ht as [Hc Hs].
    intros [E|Hin].
    + subst c. congruence.
    + exact (IH s Hl Hs Hin).
Qed.

(** A timestamp in the format of [toISOString] holds no slash, and
    followed by a hyphen it is a marker, whatever comes after. *)
Lemma isISOTimestamp_marks (timestamp : jsstring) :
  isISOTimestamp timestamp = true ->
  noSlash timestamp /\
  forall f, isAlreadyProcessed (timestamp ++ lit "-" ++ f) = true.
Proof.
  unfold isISOTimestamp. intros H.
  apply andb_true_iff in H as [Hl Ht]. apply Nat.eqb_eq in Hl.
  split.
  - apply (test_noSlash ISO_TIMESTAMP_FORMAT); auto.
    repeat constructor.
  - intros f. unfold isAlreadyProcessed.
    change TIMESTAMP_PREFIX_PATTERN
      with (ISO_TIMESTAMP_FORMAT ++ [Regex.Char 45]).
    rewrite test_app by exact Hl. rewrite Ht. reflexivity.
Qed.

(** The last segment of the key that the transition computes. *)
Lemma filenameOf_newKeyOf (bucket : Ports) (key timestamp : jsstring)
  (subdir : BucketSubdirectory) :
  findSubfolderConfig bucket key = Some subdir ->
  noSlash timestamp ->
  filenameOf (newKeyOf subdir key timestamp) =
  timestamp ++ lit "-" ++ filenameOf key.
Proof.
  intros Hfind Hts.
  rewrite <- (filenameOnlyOf_filenameOf bucket key subdir Hfind).
  assert (Hf : noSlash (filenameOnlyOf subdir key))
    by apply last_split_noSlash.
  assert (Hns : noSlash (timestamp ++ lit "-" ++ filenameOnlyOf subdir key)).
  { unfold noSlash in *. rewrite !in_app_iff.
    intros [H|[[H|[]]|H]]; [auto|discriminate|auto]. }
  unfold newKeyOf, computeNewKey.
  destruct (nestedPathOf subdir key) as [|c n].
  - simpl app at 2. now apply filenameOf_dir_file.
  - set (x := timestamp ++ lit "-" ++ filenameOnlyOf subdir key) in *.
    replace (path subdir ++ lit "/" ++ ((c :: n) ++ lit "/") ++ x)
      with ((path subdir ++ SLASH :: c :: n) ++ SLASH :: x)
      by (simpl; now rewrite <- !app_assoc).
    now apply filenameOf_dir_file.
Qed.

(** The new key stays under the intake path of the rule that matched. *)
Lemma newKeyOf_under (subdir : BucketSubdirectory)
  (key timestamp : jsstring) :
  underIntakePath (path subdir) (newKeyOf subdir key timestamp).
Proof.
  unfold underIntakePath, newKeyOf, computeNewKey.
  eexists. reflexivity.
Qed.

End OneHop.

(** C1, as the code has it.  For a decoded key that matches a rule and
    whose file name is not marked, and a clock that reads a timestamp
    in the format of [toISOString] (the format of the default clock),
    the first invocation asks to rename the object to the key
    [newKeyOf subdir key timestamp]; the file name of that key is
    [timestamp-filename], the guard accepts it, and an invocation of
    [process] for a record whose key decodes to the new key, over the
    same configuration, returns [skipped-already-processed] with
    [success = true] and an empty trace: no rename, no notification, no
    [moveToErrors]. *)
Theorem C1_reentrant_invocation_is_skipped
  (record record2 : S3EventRecord) (bucket bucket2 : Ports)
  (key : jsstring) (subdir : BucketSubdirectory) :
  decodeKey (s3_object_key record) = Some key ->
  findSubfolderConfig bucket key = Some subdir ->
  isAlreadyProcessed (filenameOf key) = false ->
  isISOTimestamp (clockFn bucket []) = true ->
  getConfig bucket2 = getConfig bucket ->
  decodeKey (s3_object_key record2)
    = Some (newKeyOf subdir key (clockFn bucket [])) ->
  (exists r tr,
     run record bucket =
       (Returns r,
        CallClock
          :: CallRenameObject key (newKeyOf subdir key (clockFn bucket []))
          :: tr)) /\
  filenameOf (newKeyOf subdir key (clockFn bucket []))
    = clockFn bucket [] ++ lit "-" ++ filenameOf key /\
  isAlreadyProcessed (filenameOf (newKeyOf subdir key (clockFn bucket [])))
    = true /\
  exists r2,
    run record2 bucket2 = (Returns r2, []) /\
    action r2 = skipped_already_processed /\
    success r2 = true.
Proof.
  intros Hdec Hfind Hguard Hiso Hcfg Hdec2.
  destruct (isISOTimestamp_marks _ Hiso) as [Hns Hmark].
  pose proof (filenameOf_newKeyOf bucket key _ subdir Hfind Hns) as Hfile.
  assert (Hmarked :
            isAlreadyProcessed
              (filenameOf (newKeyOf subdir key (clockFn bucket []))) = true)
    by (rewrite Hfile; apply Hmark).
  split; [|split; [exact Hfile|split; [exact Hmarked|]]].
  - rewrite (run_decoded _ _ _ Hdec).
    rewrite (processKey_transition bucket key subdir [] Hfind Hguard).
    cbv zeta. simpl app.
    destruct (renameObject bucket _ _ _);
      [destruct (notify bucket _ _ _)|];
      eexists; eexists; reflexivity.
  - assert (In subdir (subdirectories (getConfig bucket))) as Hin.
    { unfold findSubfolderConfig in Hfind.
      apply findSubfolderConfig_loop_Some in Hfind
        as (before & after & E & _).
      rewrite E. apply in_elt. }
    destruct (findSubfolderConfig_some_rule _ _ _ Hin
                (newKeyOf_under subdir key (clockFn bucket [])))
      as [found Hfound].
    assert (Hfind2 : findSubfolderConfig bucket2
                       (newKeyOf subdir key (clockFn bucket [])) = Some found)
      by (unfold findSubfolderConfig; now rewrite Hcfg).
    rewrite (run_decoded _ _ _ Hdec2).
    rewrite (processKey_marked bucket2 _ found [] Hfind2 Hmarked).
    eexists; repeat split.
Qed.

Lemma C1_reentrant_invocation_is_skipped_witness :
  exists r2,
    run (Fixture.createMockRecord
           "person-full/sub/2026-02-22T10%3A30%3A00.000Z-a%2Bb.json")
        (Fixture.mockBucket Fixture.bucketConfig Fixture.fixedTimestamp
           true Resolved true)
    = (Returns r2, []) /\
    action r2 = skipped_already_processed /\
    success r2 = true.
Proof.
  destruct (C1_reentrant_invocation_is_skipped
              (Fixture.createMockRecord "person-full/sub/a%2Bb.json")
              (Fixture.createMockRecord
                 "person-full/sub/2026-02-22T10%3A30%3A00.000Z-a%2Bb.json")
              (Fixture.mockBucket Fixture.bucketConfig
                 Fixture.fixedTimestamp true Resolved true)
              (Fixture.mockBucket Fixture.bucketConfig
                 Fixture.fixedTimestamp true Resolved true)
              (lit "person-full/sub/a+b.json") Fixture.personFull)
    as (_ & _ & _ & H);
    try (vm_compute; reflexivity).
  exact H.
Defined.

(** C1, as stated, fails when the clock reads something the guard does
    not recognise.  With the rules of the test fixture and a clock that
    reads ["2026-02-22T10:30:00Z"] (ISO 8601 to the second), the key
    ["person-full/data.json"] matches and is not marked; it is renamed
    to ["person-full/2026-02-22T10:30:00Z-data.json"], whose file name the
    guard rejects, and the invocation for that new key renames once
    more instead of returning [skipped-already-processed]. *)
Lemma C1_counterexample :
  findSubfolderConfig
    (Fixture.mockBucket Fixture.bucketConfig Fixture.secondsTimestamp
       true Resolved true)
    (lit "person-full/data.json") = Some Fixture.personFull /\
  isAlreadyProcessed (filenameOf (lit "person-full/data.json")) = false /\
  newKeyOf Fixture.personFull (lit "person-full/data.json")
    Fixture.secondsTimestamp
    = lit "person-full/2026-02-22T10:30:00Z-data.json" /\
  fst (run (Fixture.createMockRecord "person-full/data.json")
         (Fixture.mockBucket Fixture.bucketConfig Fixture.secondsTimestamp
            true Resolved true))
    = Returns
        {| success := true; action := renamed; reason := None;
           originalKey := lit "person-full/data.json";
           newKey := Some (lit "person-full/2026-02-22T10:30:00Z-data.json");
           subscriberInvoked := Some true; movedToErrors := None |} /\
  isAlreadyProcessed
    (filenameOf (lit "person-full/2026-02-22T10:30:00Z-data.json")) = false /\
  run (Fixture.createMockRecord "person-full/2026-02-22T10:30:00Z-data.json")
      (Fixture.mockBucket Fixture.bucketConfig Fixture.secondsTimestamp
         true Resolved true)
    = (Returns
         {| success := true; action := renamed; reason := None;
            originalKey := lit "person-full/2026-02-22T10:30:00Z-data.json";
            newKey :=
              Some (lit "person-full/2026-02-22T10:30:00Z-2026-02-22T10:30:00Z-data.json");
            subscriberInvoked := Some true; movedToErrors := None |},
       [CallClock;
        CallRenameObject
          (lit "person-full/2026-02-22T10:30:00Z-data.json")
          (lit "person-full/2026-02-22T10:30:00Z-2026-02-22T10:30:00Z-data.json");
        CallNotify (subscriberLambdaArn Fixture.personFull)
          (lit "person-full/2026-02-22T10:30:00Z-2026-02-22T10:30:00Z-data.json")]).
Proof. repeat split; vm_compute; reflexivity. Qed.

(* ================================================================== *)
(** ** The key transition *)

Section Transition.

(** The parts of a key that was put together from an intake path, a
    nested sub-path and a file name. *)
Lemma parts_of_composed_key (subdir : BucketSubdirectory)
  (nested filename : jsstring) :
  noSlash filename ->
  let key :=
    path subdir ++ lit "/"
      ++ match nested with
         | [] => []
         | _ :: _ => nested ++ lit "/"
         end
      ++ filename in
  nestedPathOf subdir key = nested /\
  filenameOnlyOf subdir key = filename /\
  filenameOf key = filename.
Proof.
  intros Hf key.
  assert (Hrel : relativePathOf subdir key =
                 match nested with
                 | [] => []
                 | _ :: _ => nested ++ lit "/"
                 end ++ filename).
  { unfold relativePathOf, key. apply skipn_path_slash. }
  unfold nestedPathOf, filenameOnlyOf. rewrite Hrel.
  destruct nested as [|c n].
  - simpl app. rewrite (split_noSlash filename Hf).
    repeat split. now apply (filenameOf_dir_file (path subdir)).
  - replace (((c :: n) ++ lit "/") ++ filename)
      with ((c :: n) ++ SLASH :: filename)
      by (now rewrite <- app_assoc).
    destruct (split_dir_file (c :: n) filename Hf) as [Hl Hj].
    split; [exact Hj|split; [exact Hl|]].
    unfold key.
    replace (path subdir ++ lit "/" ++ ((c :: n) ++ lit "/") ++ filename)
      with ((path subdir ++ SLASH :: c :: n) ++ SLASH :: filename)
      by (simpl; now rewrite <- !app_assoc).
    now apply filenameOf_dir_file.
Qed.

(** No invocation reads the clock twice. *)
Lemma clock_read_at_most_once (record : S3EventRecord) (bucket : Ports) :
  (clockReads (snd (run record bucket)) <= 1)%nat.
Proof.
  unfold run, process.
  destruct (decodeKey (s3_object_key record)) as [key|]; [|unfold clockReads; simpl; lia].
  destruct (findSubfolderConfig bucket key) as [subdir|] eqn:Hfind.
  - destruct (isAlreadyProcessed (filenameOf key)) eqn:Hguard.
    + rewrite (processKey_marked _ _ _ _ Hfind Hguard). unfold clockReads; simpl; lia.
    + rewrite (processKey_transition _ _ _ _ Hfind Hguard).
      cbv zeta. simpl app.
      destruct (renameObject bucket _ _ _);
        [destruct (notify bucket _ _ _)|]; unfold clockReads; simpl; lia.
  - rewrite (processKey_no_match _ _ _ Hfind). unfold clockReads; simpl; lia.
Qed.

End Transition.

(** C6.  For a key made of the matched intake path, a nested sub-path
    (possibly empty) and a file name that is not marked, the key that
    [process] asks the bucket to rename the object to is
    [intakePath + '/' + (nestedSubPath + '/' when non-empty) +
    clock() + '-' + filename]; the file name is its suffix, unchanged;
    the invocation reads the clock once, and no invocation of
    [process], whatever the record and the bucket, reads it more than
    once. *)
Theorem C6_new_key_format (record : S3EventRecord) (bucket : Ports)
  (key nested filename : jsstring) (subdir : BucketSubdirectory) :
  decodeKey (s3_object_key record) = Some key ->
  findSubfolderConfig bucket key = Some subdir ->
  includesSlash filename = false ->
  isAlreadyProcessed filename = false ->
  key = path subdir ++ lit "/"
          ++ match nested with
             | [] => []
             | _ :: _ => nested ++ lit "/"
             end
          ++ filename ->
  exists r tr newKey',
    run record bucket =
      (Returns r, CallClock :: CallRenameObject key newKey' :: tr) /\
    newKey' = path subdir ++ lit "/"
                ++ match nested with
                   | [] => []
                   | _ :: _ => nested ++ lit "/"
                   end
                ++ clockFn bucket [] ++ lit "-" ++ filename /\
    (exists front, newKey' = front ++ filename) /\
    (action r = renamed \/ action r = error_invoke ->
     newKey r = Some newKey') /\
    clockReads (CallClock :: CallRenameObject key newKey' :: tr) = 1%nat /\
    forall (record' : S3EventRecord) (bucket' : Ports),
      (clockReads (snd (run record' bucket')) <= 1)%nat.
Proof.
  intros Hdec Hfind Hns Hguard Hkey.
  apply includesSlash_false in Hns.
  destruct (parts_of_composed_key subdir nested filename Hns)
    as (Hnested & Hfile & Hlast).
  rewrite <- Hkey in Hnested, Hfile, Hlast.
  rewrite <- Hlast in Hguard.
  pose proof (clock_read_at_most_once record bucket) as Honce.
  rewrite (run_decoded _ _ _ Hdec) in *.
  rewrite (processKey_transition bucket key subdir [] Hfind Hguard) in *.
  cbv zeta in *. simpl app in *.
  assert (Hnew : newKeyOf subdir key (clockFn bucket []) =
                 path subdir ++ lit "/"
                   ++ match nested with
                      | [] => []
                      | _ :: _ => nested ++ lit "/"
                      end
                   ++ clockFn bucket [] ++ lit "-" ++ filename).
  { unfold newKeyOf, computeNewKey. now rewrite Hnested, Hfile. }
  assert (Hsuffix : exists front,
             newKeyOf subdir key (clockFn bucket []) = front ++ filename).
  { rewrite Hnew. eexists. rewrite !app_assoc. reflexivity. }
  destruct (renameObject bucket _ _ _);
    [destruct (notify bucket _ _ _)|];
    eexists; eexists; eexists;
    (split; [reflexivity|]);
    (split; [exact Hnew|]);
    (split; [exact Hsuffix|]);
    (split; [simpl; intros [H|H]; first [reflexivity|discriminate H]|]);
    (split; [reflexivity|exact clock_read_at_most_once]).
Qed.

Lemma C6_new_key_format_witness :
  exists r tr newKey',
    run (Fixture.createMockRecord "person-full/sub/dir/file%20with.two+dots.json")
        (Fixture.mockBucket Fixture.bucketConfig Fixture.fixedTimestamp
           true Resolved true) =
      (Returns r,
       CallClock
         :: CallRenameObject (lit "person-full/sub/dir/file with.two dots.json")
              newKey'
         :: tr) /\
    newKey' =
      lit "person-full/sub/dir/2026-02-22T10:30:00.000Z-file with.two dots.json".
Proof.
  destruct (C6_new_key_format
              (Fixture.createMockRecord
                 "person-full/sub/dir/file%20with.two+dots.json")
              (Fixture.mockBucket Fixture.bucketConfig
                 Fixture.fixedTimestamp true Resolved true)
              (lit "person-full/sub/dir/file with.two dots.json")
              (lit "sub/dir") (lit "file with.two dots.json")
              Fixture.personFull)
    as (r & tr & newKey' & Hrun & Hnew & _);
    try (vm_compute; reflexivity).
  exists r, tr, newKey'. split; [exact Hrun|exact Hnew].
Defined.

(* ================================================================== *)
(** ** Key decoding *)

Section Decoding.

Lemma leadingOnes_ascii (B : N) : B < 128 -> leadingOnes B = 0%nat.
Proof.
  intros H. unfold leadingOnes.
  assert (N.testbit B 7 = false) as ->; [|reflexivity].
  apply N.testbit_false. change (2 ^ 7) with 128.
  now rewrite N.div_small.
Qed.

(** A code unit other than ['%'] is copied. *)
Lemma decodeURIComponent_literal (c : N) (rest : jsstring) :
  c <> PERCENT ->
  decodeURIComponent (c :: rest) =
  option_map (cons c) (decodeURIComponent rest).
Proof.
  intros Hc. unfold decodeURIComponent. simpl.
  destruct (N.eqb_spec c PERCENT); [contradiction|reflexivity].
Qed.

(** An escape sequence of an octet below 0x80 gives that code unit. *)
Lemma decodeURIComponent_escape (h1 h2 B : N) (rest : jsstring) :
  ParseHexOctet h1 h2 = Some B -> B < 128 ->
  decodeURIComponent (PERCENT :: h1 :: h2 :: rest) =
  option_map (cons B) (decodeURIComponent rest).
Proof.
  intros Hp HB. unfold decodeURIComponent. simpl.
  now rewrite Hp, (leadingOnes_ascii B HB).
Qed.

(** A ['%'] that two hexadecimal digits do not follow is a URIError. *)
Lemma decodeURIComponent_truncated (rest : jsstring) :
  (List.length rest < 2)%nat ->
  decodeURIComponent (PERCENT :: rest) = None.
Proof.
  intros H. unfold decodeURIComponent. simpl.
  destruct rest as [|h1 [|h2 rest]]; try reflexivity.
  simpl in H; lia.
Qed.

Lemma decodeURIComponent_no_percent (s : jsstring) :
  ~ In PERCENT s -> decodeURIComponent s = Some s.
Proof.
  induction s as [|c s IH]; intros H; [reflexivity|].
  rewrite decodeURIComponent_literal by (intros ->; apply H; now left).
  rewrite IH; [reflexivity|]. intros Hin; apply H; now right.
Qed.

Lemma replace_plus_no_percent (s : jsstring) :
  ~ In PERCENT s -> ~ In PERCENT (replace_plus s).
Proof.
  unfold replace_plus. intros H Hin.
  apply in_map_iff in Hin as (c & Hc & Hin).
  destruct (N.eqb_spec c PLUS); [discriminate|]. subst c. contradiction.
Qed.

Lemma replace_plus_no_plus (s : jsstring) : ~ In PLUS (replace_plus s).
Proof.
  unfold replace_plus. intros Hin.
  apply in_map_iff in Hin as (c & Hc & _).
  destruct (N.eqb_spec c PLUS); [discriminate|contradiction].
Qed.

End Decoding.

(* ================================================================== *)
(** ** Keys that end in a slash *)

(** C10.  A decoded key that matches a rule and ends with ['/'] has the
    empty string as file name; the guard does not accept the empty
    string; and [process] goes on to ask for the rename to
    [matchedPath + '/' + (nested sub-path + '/' when there is one) +
    clock() + '-'], with nothing after the hyphen.  The nested sub-path
    is what stands between the intake path and the final slash. *)
Theorem C10_trailing_slash_is_renamed (record : S3EventRecord)
  (bucket : Ports) (key front : jsstring) (subdir : BucketSubdirectory) :
  decodeKey (s3_object_key record) = Some key ->
  findSubfolderConfig bucket key = Some subdir ->
  key = front ++ lit "/" ->
  filenameOf key = [] /\
  isAlreadyProcessed (filenameOf key) = false /\
  (exists r tr,
     run record bucket =
       (Returns r,
        CallClock
          :: CallRenameObject key
               (path subdir ++ lit "/"
                  ++ match nestedPathOf subdir key with
                     | [] => []
                     | _ :: _ => nestedPathOf subdir key ++ lit "/"
                     end
                  ++ clockFn bucket [] ++ lit "-")
          :: tr) /\
     action r <> skipped_no_match /\
     action r <> skipped_already_processed) /\
  (key = path subdir ++ lit "/" -> nestedPathOf subdir key = []) /\
  (forall nested, key = path subdir ++ lit "/" ++ nested ++ lit "/" ->
     nestedPathOf subdir key = nested).
Proof.
  intros Hdec Hfind Hkey.
  assert (Hfile : filenameOf key = []).
  { rewrite Hkey. apply (filenameOf_dir_file front []). intros []. }
  assert (Hguard : isAlreadyProcessed (filenameOf key) = false)
    by (now rewrite Hfile).
  split; [exact Hfile|]. split; [exact Hguard|]. split; [|split].
  - assert (Hnew : newKeyOf subdir key (clockFn bucket []) =
                   path subdir ++ lit "/"
                     ++ match nestedPathOf subdir key with
                        | [] => []
                        | _ :: _ => nestedPathOf subdir key ++ lit "/"
                        end
                     ++ clockFn bucket [] ++ lit "-").
    { unfold newKeyOf, computeNewKey.
      rewrite (filenameOnlyOf_filenameOf bucket key subdir Hfind), Hfile.
      now rewrite app_nil_r. }
    rewrite <- Hnew.
    rewrite (run_decoded _ _ _ Hdec).
    rewrite (processKey_transition bucket key subdir [] Hfind Hguard).
    cbv zeta. simpl app.
    destruct (renameObject bucket _ _ _);
      [destruct (notify bucket _ _ _)|];
      eexists; eexists;
      (split; [reflexivity|split; discriminate]).
  - intros E. unfold nestedPathOf, relativePathOf. rewrite E.
    change (path subdir ++ lit "/") with (path subdir ++ SLASH :: []).
    now rewrite skipn_path_slash.
  - intros nested E. unfold nestedPathOf, relativePathOf. rewrite E.
    change (path subdir ++ lit "/" ++ nested ++ lit "/")
      with (path subdir ++ SLASH :: (nested ++ SLASH :: [])).
    rewrite skipn_path_slash.
    apply (split_dir_file nested []). intros [].
Qed.

Lemma C10_trailing_slash_is_renamed_witness :
  exists r tr,
    run (Fixture.createMockRecord "person-full/sub/")
        (Fixture.mockBucket Fixture.bucketConfig Fixture.fixedTimestamp
           true Resolved true) =
      (Returns r,
       CallClock
         :: CallRenameObject (lit "person-full/sub/")
              (lit "person-full/sub/2026-02-22T10:30:00.000Z-")
         :: tr) /\
    action r <> skipped_no_match /\
    action r <> skipped_already_processed.
Proof.
  destruct (C10_trailing_slash_is_renamed
              (Fixture.createMockRecord "person-full/sub/")
              (Fixture.mockBucket Fixture.bucketConfig
                 Fixture.fixedTimestamp true Resolved true)
              (lit "person-full/sub/") (lit "person-full/sub")
              Fixture.personFull)
    as (_ & _ & H & _);
    try (vm_compute; reflexivity).
  exact H.
Defined.

(* ================================================================== *)
(** ** Failures as outcomes *)

(** C2, as the code has it.  When [decodeURIComponent] accepts the key
    of the record, with ['+'] turned into space (that is, when the key
    decodes), [process] does not throw: it returns an outcome for the
    decoded key, and no match, already processed, rename failure,
    notify failure and quarantine failure are each told by that
    outcome.  A key that does not decode makes [process] throw the
    URIError of [decodeURIComponent], before any call to a port. *)
Theorem C2_failures_are_outcomes (record : S3EventRecord) (bucket : Ports)
  (key : jsstring) :
  decodeKey (s3_object_key record) = Some key ->
  (exists r tr,
     run record bucket = (Returns r, tr) /\
     originalKey r = key /\
     match action r with
     | skipped_no_match =>
         success r = true /\ tr = [] /\
         findSubfolderConfig bucket key = None
     | skipped_already_processed =>
         success r = true /\ tr = [] /\
         isAlreadyProcessed (filenameOf key) = true
     | renamed =>
         success r = true /\ subscriberInvoked r = Some true /\
         exists newKey', newKey r = Some newKey' /\
           In (CallRenameObject key newKey') tr
     | error_rename =>
         success r = false /\ reason r = Some REASON_RENAME_FAILED /\
         exists newKey',
           tr = [CallClock; CallRenameObject key newKey'] /\
           renameObject bucket [CallClock] key newKey' = false
     | error_invoke =>
         success r = false /\ subscriberInvoked r = Some false /\
         exists error newKey' subdir,
           reason r = Some (REASON_INVOKE_FAILED error) /\
           notify bucket [CallClock; CallRenameObject key newKey']
             (subscriberLambdaArn subdir) newKey' = Rejected error /\
           movedToErrors r =
             Some (moveToErrors bucket
                     [CallClock; CallRenameObject key newKey';
                      CallNotify (subscriberLambdaArn subdir) newKey']
                     newKey' (path subdir) (REASON_INVOKE_FAILED error))
     end) /\
  (forall record' : S3EventRecord,
     decodeKey (s3_object_key record') = None ->
     run record' bucket = (Throws URIError, [])).
Proof.
  intros Hdec. split.
  - rewrite (run_decoded _ _ _ Hdec).
    destruct (findSubfolderConfig bucket key) as [subdir|] eqn:Hfind.
    + destruct (isAlreadyProcessed (filenameOf key)) eqn:Hguard.
      * rewrite (processKey_marked _ _ _ _ Hfind Hguard).
        eexists; eexists. repeat split.
      * rewrite (processKey_transition _ _ _ _ Hfind Hguard).
        cbv zeta. simpl app.
        destruct (renameObject bucket _ _ _) eqn:Hren;
          [destruct (notify bucket _ _ _) eqn:Hnot|];
          eexists; eexists;
          (split; [reflexivity|]); (split; [reflexivity|]); simpl.
        -- repeat split. eexists. split; [reflexivity|]. right; now left.
        -- repeat split. exists error. eexists. exists subdir.
           repeat split. exact Hnot.
        -- repeat split. eexists. split; [reflexivity|exact Hren].
    + rewrite (processKey_no_match _ _ _ Hfind).
      eexists; eexists. repeat split.
  - intros record' Hnone. unfold run, process. now rewrite Hnone.
Qed.

Lemma C2_failures_are_outcomes_witness :
  exists r tr,
    run (Fixture.createMockRecord "person-full/100%25.json")
        (Fixture.mockBucket Fixture.bucketConfig Fixture.fixedTimestamp
           true (Rejected (lit "Error: X failed")) false)
      = (Returns r, tr) /\
    originalKey r = lit "person-full/100%.json".
Proof.
  destruct (C2_failures_are_outcomes
              (Fixture.createMockRecord "person-full/100%25.json")
              (Fixture.mockBucket Fixture.bucketConfig
                 Fixture.fixedTimestamp true
                 (Rejected (lit "Error: X failed")) false)
              (lit "person-full/100%.json"))
    as ((r & tr & Hrun & Hkey & _) & _);
    try (vm_compute; reflexivity).
  exists r, tr. split; assumption.
Defined.

(** C2, as stated, fails on a key that is malformed percent-encoding:
    for the record with key ["person-full/100%.json"] the call of
    [decodeURIComponent] throws URIError, and so does [process]; no
    outcome is returned. *)
Lemma C2_counterexample :
  decodeURIComponent (lit "person-full/100%.json") = None /\
  run (Fixture.createMockRecord "person-full/100%.json")
      (Fixture.mockBucket Fixture.bucketConfig Fixture.fixedTimestamp
         true Resolved true)
    = (Throws URIError, []).
Proof. split; vm_compute; reflexivity. Qed.

(* ================================================================== *)
(** ** More about the engine: the calls of one invocation *)

(** X1.  Whatever the record and the ports, the calls of one invocation
    of [process] are fixed by the action of its outcome: none for the
    two skips; the clock and one rename for [error-rename]; then one
    notification of the new key for [renamed]; then one [moveToErrors]
    of the new key, under the path of the matched rule and with the
    reason of the outcome, for [error-invoke].  [success] is true
    exactly for the skips and for [renamed], and [newKey] is set
    exactly when the rename succeeded. *)
Theorem X1_calls_follow_the_action (record : S3EventRecord)
  (bucket : Ports) (r : ProcessingResult) (tr : Trace) :
  run record bucket = (Returns r, tr) ->
  (success r = true <->
     action r = skipped_no_match \/ action r = skipped_already_processed
     \/ action r = renamed) /\
  (newKey r <> None <-> action r = renamed \/ action r = error_invoke) /\
  (subscriberInvoked r = Some true <-> action r = renamed) /\
  (movedToErrors r <> None <-> action r = error_invoke) /\
  ((action r = skipped_no_match \/ action r = skipped_already_processed) ->
   tr = []) /\
  ((action r = error_rename \/ action r = renamed \/ action r = error_invoke) ->
   exists subdir,
     findSubfolderConfig bucket (originalKey r) = Some subdir /\
     tr = callsOf r (originalKey r)
            (newKeyOf subdir (originalKey r) (clockFn bucket []))
            (subscriberLambdaArn subdir) (path subdir) /\
     (action r <> error_rename ->
      newKey r = Some (newKeyOf subdir (originalKey r) (clockFn bucket [])))).
Proof.
  unfold run, process.
  destruct (decodeKey (s3_object_key record)) as [key|]; [|discriminate].
  destruct (findSubfolderConfig bucket key) as [subdir|] eqn:Hfind.
  - destruct (isAlreadyProcessed (filenameOf key)) eqn:Hguard.
    + rewrite (processKey_marked _ _ _ _ Hfind Hguard).
      intros [= <- <-]. simpl.
      repeat split; try tauto; try congruence;
        try (intros [H|[H|H]]; discriminate H);
        try (intros [H|H]; discriminate H); intuition discriminate.
    + rewrite (processKey_transition _ _ _ _ Hfind Hguard).
      cbv zeta. simpl app.
      destruct (renameObject bucket _ _ _);
        [destruct (notify bucket _ _ _)|];
        intros [= <- <-]; unfold callsOf; simpl;
        (split; [intuition discriminate|]);
        (split; [intuition discriminate|]);
        (split; [intuition discriminate|]);
        (split; [intuition discriminate|]);
        (split; [intuition discriminate|]);
        intros _; exists subdir; rewrite Hfind;
        repeat split; intuition congruence.
  - rewrite (processKey_no_match _ _ _ Hfind).
    intros [= <- <-]. simpl.
    repeat split; try tauto; try congruence;
      try (intros [H|[H|H]]; discriminate H);
      try (intros [H|H]; discriminate H); intuition discriminate.
Qed.

Lemma X1_calls_follow_the_action_witness :
  newKey
    {| success := false; action := error_invoke;
       reason := Some (REASON_INVOKE_FAILED (lit "Error: X failed"));
       originalKey := lit "person-full/data.json";
       newKey := Some (lit "person-full/2026-02-22T10:30:00.000Z-data.json");
       subscriberInvoked := Some false; movedToErrors := Some false |}
    <> None <->
  error_invoke = renamed \/ error_invoke = error_invoke.
Proof.
  apply (X1_calls_follow_the_action
           (Fixture.createMockRecord "person-full/data.json")
           (Fixture.mockBucket Fixture.bucketConfig Fixture.fixedTimestamp
              true (Rejected (lit "Error: X failed")) false)
           {| success := false; action := error_invoke;
              reason := Some (REASON_INVOKE_FAILED (lit "Error: X failed"));
              originalKey := lit "person-full/data.json";
              newKey :=
                Some (lit "person-full/2026-02-22T10:30:00.000Z-data.json");
              subscriberInvoked := Some false; movedToErrors := Some false |}
           [CallClock;
            CallRenameObject (lit "person-full/data.json")
              (lit "person-full/2026-02-22T10:30:00.000Z-data.json");
            CallNotify (subscriberLambdaArn Fixture.personFull)
              (lit "person-full/2026-02-22T10:30:00.000Z-data.json");
            CallMoveToErrors
              (lit "person-full/2026-02-22T10:30:00.000Z-data.json")
              (lit "person-full")
              (REASON_INVOKE_FAILED (lit "Error: X failed"))]).
  vm_compute; reflexivity.
Defined.

(** X2.  No invocation asks the bucket to rename an object onto its own
    key, whatever the clock reads: the new key always differs from the
    key it replaces (so the copy-then-delete of [renameObject] never
    deletes what it has just written), and both keys lie under the
    intake path of one configured rule. *)
Theorem X2_rename_never_onto_itself (record : S3EventRecord)
  (bucket : Ports) (key newKey' : jsstring) :
  In (CallRenameObject key newKey') (snd (run record bucket)) ->
  newKey' <> key /\
  exists subdir,
    In subdir (subdirectories (getConfig bucket)) /\
    underIntakePath (path subdir) key /\
    underIntakePath (path subdir) newKey'.
Proof.
  unfold run, process.
  destruct (decodeKey (s3_object_key record)) as [k|]; [|intros []].
  destruct (findSubfolderConfig bucket k) as [subdir|] eqn:Hfind.
  - destruct (isAlreadyProcessed (filenameOf k)) eqn:Hguard.
    + rewrite (processKey_marked _ _ _ _ Hfind Hguard). intros [].
    + rewrite (processKey_transition _ _ _ _ Hfind Hguard).
      cbv zeta. simpl app.
      assert (Hin : In subdir (subdirectories (getConfig bucket))).
      { unfold findSubfolderConfig in Hfind.
        apply findSubfolderConfig_loop_Some in Hfind
          as (before & after & E & _).
        rewrite E. apply in_elt. }
      intros H.
      assert (E : CallRenameObject key newKey' =
                  CallRenameObject k (newKeyOf subdir k (clockFn bucket []))).
      { destruct (renameObject bucket _ _ _);
          [destruct (notify bucket _ _ _)|]; simpl in H;
          repeat (destruct H as [H|H]; [congruence|]); contradiction. }
      injection E as -> ->. split.
      * now apply (newKeyOf_differs bucket).
      * exists subdir. split; [exact Hin|]. split.
        -- now apply (findSubfolderConfig_matches bucket).
        -- apply newKeyOf_under.
  - rewrite (processKey_no_match _ _ _ Hfind). intros [].
Qed.

Lemma X2_rename_never_onto_itself_witness :
  lit "person-full/-" <> lit "person-full/".
Proof.
  apply (X2_rename_never_onto_itself
           (Fixture.createMockRecord "person-full/")
           (Fixture.mockBucket Fixture.bucketConfig [] true Resolved true)
           (lit "person-full/") (lit "person-full/-")).
  vm_compute. right. left. reflexivity.
Defined.

(* ================================================================== *)
(** ** Where the renamed object lands *)

Section Directory.

Lemma newKeyOf_of_relative (subdir : BucketSubdirectory)
  (nested f timestamp : jsstring) :
  noSlash f ->
  newKeyOf subdir (path subdir ++ SLASH :: nested ++ SLASH :: f) timestamp
  = computeNewKey (path subdir) nested f timestamp.
Proof.
  intros Hf. unfold newKeyOf, nestedPathOf, filenameOnlyOf, relativePathOf.
  rewrite skipn_path_slash.
  destruct (split_dir_file nested f Hf) as [-> ->]. reflexivity.
Qed.

Lemma newKeyOf_of_file (subdir : BucketSubdirectory)
  (f timestamp : jsstring) :
  noSlash f ->
  newKeyOf subdir (path subdir ++ SLASH :: f) timestamp
  = computeNewKey (path subdir) [] f timestamp.
Proof.
  intros Hf. unfold newKeyOf, nestedPathOf, filenameOnlyOf, relativePathOf.
  rewrite skipn_path_slash, (split_noSlash f Hf). reflexivity.
Qed.

(** A matched key [dir/file] has its directory at or below the intake
    path. *)
Lemma directory_of_matched_key (p dir f rel : jsstring) :
  noSlash f ->
  p ++ SLASH :: rel = dir ++ SLASH :: f ->
  (dir = p /\ rel = f) \/
  (exists nested, dir = p ++ SLASH :: nested /\ rel = nested ++ SLASH :: f).
Proof.
  intros Hf E. apply app_eq_app in E as [l [[Hp Hr]|[Hd Hr]]].
  - destruct l as [|c l].
    + rewrite app_nil_r in Hp. injection Hr as Hr. left. now subst.
    + injection Hr as <- Hr. exfalso. apply Hf. rewrite Hr.
      apply in_elt.
  - destruct l as [|c l].
    + rewrite app_nil_r in Hd. injection Hr as Hr. left. now subst.
    + injection Hr as <- Hr. right. exists l. now subst.
Qed.

End Directory.

(** X3.  The renamed object stays in the directory of the original,
    with one exception.  For a matched key [dir/file]: when [dir] is
    the intake path followed by a slash (the key is [path//file], with
    an empty directory name right under the intake path), the new key
    is [path/timestamp-file], one level up; in every other case it is
    [dir/timestamp-file]. *)
Theorem X3_directory_is_kept_except_empty_segment (bucket : Ports)
  (key dir file timestamp : jsstring) (subdir : BucketSubdirectory) :
  findSubfolderConfig bucket key = Some subdir ->
  key = dir ++ lit "/" ++ file ->
  includesSlash file = false ->
  (dir = path subdir ++ lit "/" ->
   newKeyOf subdir key timestamp
   = path subdir ++ lit "/" ++ timestamp ++ lit "-" ++ file) /\
  (dir <> path subdir ++ lit "/" ->
   newKeyOf subdir key timestamp
   = dir ++ lit "/" ++ timestamp ++ lit "-" ++ file).
Proof.
  intros Hfind Hkey Hf. apply includesSlash_false in Hf.
  destruct (findSubfolderConfig_matches _ _ _ Hfind) as [rel Hrel].
  assert (E : path subdir ++ SLASH :: rel = dir ++ SLASH :: file)
    by (rewrite <- Hrel; exact Hkey).
  destruct (directory_of_matched_key _ _ _ _ Hf E)
    as [[-> ->]|(nested & -> & ->)].
  - split.
    + intros Habs. exfalso.
      apply (f_equal (@List.length N)) in Habs.
      rewrite length_app in Habs. simpl in Habs. lia.
    + intros _. rewrite Hrel. now rewrite newKeyOf_of_file.
  - rewrite Hrel, (newKeyOf_of_relative _ _ _ _ Hf).
    unfold computeNewKey. split.
    + intros Habs.
      assert (nested = []) as ->.
      { change (lit "/") with [SLASH] in Habs.
        apply app_inv_head in Habs. now injection Habs. }
      reflexivity.
    + intros Hne. destruct nested as [|c n].
      * exfalso. apply Hne. reflexivity.
      * simpl. now rewrite <- !app_assoc.
Qed.

Lemma X3_directory_is_kept_except_empty_segment_witness :
  newKeyOf Fixture.personFull (lit "person-full//data.json")
    Fixture.fixedTimestamp
  = lit "person-full/2026-02-22T10:30:00.000Z-data.json".
Proof.
  refine (proj1 (X3_directory_is_kept_except_empty_segment
                   (Fixture.mockBucket Fixture.bucketConfig
                      Fixture.fixedTimestamp true Resolved true)
                   (lit "person-full//data.json") (lit "person-full/")
                   (lit "data.json") Fixture.fixedTimestamp
                   Fixture.personFull _ _ _) _);
    vm_compute; reflexivity.
Defined.

(* ================================================================== *)
(** ** Rule order when the intake paths do not overlap *)

Section RuleOrder.

(** Two prefixes of one string: one is a prefix of the other. *)
Lemma startsWith_comparable (k p q : jsstring) :
  startsWith k p = true -> startsWith k q = true ->
  startsWith p q = true \/ startsWith q p = true.
Proof.
  revert k q; induction p as [|c p IH]; intros k q Hp Hq.
  - right. reflexivity.
  - destruct q as [|d q]; [left; reflexivity|].
    destruct k as [|e k]; [discriminate|].
    simpl in Hp, Hq.
    apply andb_true_iff in Hp as [Hc Hp].
    apply andb_true_iff in Hq as [Hd Hq].
    apply N.eqb_eq in Hc, Hd. subst c d.
    simpl. rewrite N.eqb_refl. simpl. now apply (IH k).
Qed.

Lemma apart_sym (a b : BucketSubdirectory) : apart a b = apart b a.
Proof. unfold apart. apply andb_comm. Qed.

Lemma disjointPaths_In (l : list BucketSubdirectory) :
  disjointPaths l = true ->
  forall a b, In a l -> In b l -> a = b \/ apart a b = true.
Proof.
  induction l as [|x l IH]; intros H a b Ha Hb; [destruct Ha|].
  simpl in H. apply andb_true_iff in H as [Hx Hl].
  rewrite forallb_forall in Hx.
  destruct Ha as [<-|Ha], Hb as [<-|Hb].
  - now left.
  - right. now apply Hx.
  - right. rewrite apart_sym. now apply Hx.
  - now apply IH.
Qed.

(** With paths that do not overlap, at most one rule matches a key. *)
Lemma disjointPaths_unique_match (l : list BucketSubdirectory)
  (key : jsstring) (a b : BucketSubdirectory) :
  disjointPaths l = true -> In a l -> In b l ->
  startsWith key (path a ++ [SLASH]) = true ->
  startsWith key (path b ++ [SLASH]) = true ->
  a = b.
Proof.
  intros Hd Ha Hb Hma Hmb.
  destruct (disjointPaths_In l Hd a b Ha Hb) as [E|Hap]; [exact E|].
  exfalso. unfold apart in Hap.
  apply andb_true_iff in Hap as [H1 H2].
  apply negb_true_iff in H1, H2.
  destruct (startsWith_comparable key _ _ Hma Hmb); congruence.
Qed.

End RuleOrder.

(** X4.  When the configured intake paths do not overlap, the order of
    the rules does not matter: a configuration with the same rules in
    another order selects the same rule for every key (and none when
    the first selects none). *)
Theorem X4_rule_order_is_irrelevant_without_overlap
  (bucket bucket' : Ports) (key : jsstring) :
  disjointPaths (subdirectories (getConfig bucket)) = true ->
  Permutation (subdirectories (getConfig bucket))
              (subdirectories (getConfig bucket')) ->
  findSubfolderConfig bucket' key = findSubfolderConfig bucket key.
Proof.
  unfold findSubfolderConfig.
  set (l := subdirectories (getConfig bucket)).
  set (l' := subdirectories (getConfig bucket')).
  intros Hd Hperm.
  destruct (findSubfolderConfig_loop l key) as [s|] eqn:E.
  - apply findSubfolderConfig_loop_Some in E
      as (before & after & El & Hm & _).
    assert (Hin : In s l) by (rewrite El; apply in_elt).
    assert (Hin' : In s l') by (eapply Permutation_in; eauto).
    destruct (findSubfolderConfig_some_rule l' key s Hin'
                (proj1 (underIntakePath_startsWith _ _) Hm))
      as [s' Hs'].
    rewrite Hs'. f_equal.
    apply findSubfolderConfig_loop_Some in Hs'
      as (before' & after' & El' & Hm' & _).
    assert (In s' l).
    { apply (Permutation_in s' (Permutation_sym Hperm)).
      rewrite El'. apply in_elt. }
    now apply (disjointPaths_unique_match l key s' s).
  - apply findSubfolderConfig_loop_None in E.
    apply findSubfolderConfig_loop_None.
    rewrite Forall_forall in *. intros x Hx. apply E.
    now apply (Permutation_in x (Permutation_sym Hperm)).
Qed.

Lemma X4_rule_order_is_irrelevant_without_overlap_witness :
  findSubfolderConfig
    (Fixture.mockBucket
       {| name := lit "test-bucket";
          subdirectories := [Fixture.personDelta; Fixture.personFull] |}
       Fixture.fixedTimestamp true Resolved true)
    (lit "person-full/data.json")
  = findSubfolderConfig
      (Fixture.mockBucket Fixture.bucketConfig Fixture.fixedTimestamp
         true Resolved true)
      (lit "person-full/data.json").
Proof.
  apply (X4_rule_order_is_irrelevant_without_overlap
           (Fixture.mockBucket Fixture.bucketConfig Fixture.fixedTimestamp
              true Resolved true)
           (Fixture.mockBucket
              {| name := lit "test-bucket";
                 subdirectories := [Fixture.personDelta; Fixture.personFull] |}
              Fixture.fixedTimestamp true Resolved true)
           (lit "person-full/data.json")).
  - vm_compute; reflexivity.
  - simpl. apply perm_swap.
Defined.

(* ================================================================== *)
(** ** encodeURIComponent and decodeURIComponent *)

Section UriRoundTrip.
Import JsEncode.

Local Ltac by_cases_on_leb :=
  repeat match goal with
         | |- context [?a <=? ?b] => destruct (N.leb_spec a b)
         | |- context [?a <? ?b] => destruct (N.ltb_spec a b)
         end;
  cbn [andb orb negb]; first [reflexivity | exfalso; lia].

(** A property of octets that holds of each of the 256. *)
Lemma octet_forall (P : N -> bool) :
  forallb P (map N.of_nat (seq 0 256)) = true ->
  forall B, B < 256 -> P B = true.
Proof.
  intros H B HB. rewrite forallb_forall in H. apply H.
  apply in_map_iff. exists (N.to_nat B). split.
  - apply N2Nat.id.
  - apply in_seq. lia.
Qed.

Lemma ParseHexOctet_escapeOctet (B : N) :
  B < 256 -> ParseHexOctet (hexChar (B / 16)) (hexChar (B mod 16)) = Some B.
Proof.
  intros HB.
  pose proof (octet_forall
                (fun B => match ParseHexOctet (hexChar (B / 16))
                                  (hexChar (B mod 16)) with
                          | Some B' => B' =? B
                          | None => false
                          end)) as H.
  specialize (H ltac:(vm_compute; reflexivity) B HB). simpl in H.
  destruct (ParseHexOctet _ _) as [B'|]; [|discriminate].
  apply N.eqb_eq in H. now subst.
Qed.

Lemma leadingOnes_table (B : N) :
  B < 256 ->
  leadingOnes B =
  if B <? 128 then 0%nat else if B <? 192 then 1%nat
  else if B <? 224 then 2%nat else if B <? 240 then 3%nat
  else if B <? 248 then 4%nat else 5%nat.
Proof.
  intros HB.
  pose proof (octet_forall
                (fun B => Nat.eqb (leadingOnes B)
                  (if B <? 128 then 0%nat else if B <? 192 then 1%nat
                   else if B <? 224 then 2%nat else if B <? 240 then 3%nat
                   else if B <? 248 then 4%nat else 5%nat))) as H.
  specialize (H ltac:(vm_compute; reflexivity) B HB).
  now apply Nat.eqb_eq in H.
Qed.

(** Reading one escape sequence, at the start of a character... *)
Lemma Decode_first_octet (B : N) (r : jsstring) :
  B < 256 ->
  Decode 0 [] (escapeOctet B ++ r) =
  match leadingOnes B with
  | 0%nat => option_map (cons B) (Decode 0 [] r)
  | 2%nat => Decode 1 [B] r
  | 3%nat => Decode 2 [B] r
  | 4%nat => Decode 3 [B] r
  | _ => None
  end.
Proof.
  intros HB. unfold escapeOctet. simpl.
  now rewrite (ParseHexOctet_escapeOctet B HB).
Qed.

(** ... and inside one. *)
Lemma Decode_next_octet (p : nat) (octets : list N) (B : N) (r : jsstring) :
  B < 256 ->
  Decode (S p) octets (escapeOctet B ++ r) =
  match p with
  | O =>
      match utf8CodePoint (octets ++ [B]) with
      | None => None
      | Some v => option_map (app (UTF16EncodeCodePoint v)) (Decode 0 [] r)
      end
  | S _ => Decode p (octets ++ [B]) r
  end.
Proof.
  intros HB. unfold escapeOctet. simpl.
  now rewrite (ParseHexOctet_escapeOctet B HB).
Qed.

(** The three multi-octet forms, in quotient and remainder. *)
Lemma decode_two_octets (q r : N) (rest : jsstring) :
  2 <= q < 32 -> r < 64 ->
  Decode 0 [] (escapeOctet (192 + q) ++ escapeOctet (128 + r) ++ rest) =
  option_map (app (UTF16EncodeCodePoint (64 * q + r))) (Decode 0 [] rest).
Proof.
  intros Hq Hr.
  rewrite Decode_first_octet by lia.
  rewrite leadingOnes_table by lia.
  replace (192 + q <? 128) with false by (symmetry; apply N.ltb_ge; lia).
  replace (192 + q <? 192) with false by (symmetry; apply N.ltb_ge; lia).
  replace (192 + q <? 224) with true by (symmetry; apply N.ltb_lt; lia).
  rewrite Decode_next_octet by lia.
  assert (utf8CodePoint ([192 + q] ++ [128 + r]) = Some (64 * q + r)) as ->;
    [|reflexivity].
  change ([192 + q] ++ [128 + r]) with [192 + q; 128 + r].
  cbv beta iota zeta delta [utf8CodePoint isContinuation].
  replace ((192 + q - 192) * 64 + (128 + r - 128)) with (64 * q + r) by lia.
  by_cases_on_leb.
Qed.

Lemma decode_three_octets (a b r : N) (rest : jsstring) :
  a < 16 -> b < 64 -> r < 64 ->
  2048 <= 4096 * a + 64 * b + r ->
  ~ (55296 <= 4096 * a + 64 * b + r <= 57343) ->
  Decode 0 []
    (escapeOctet (224 + a) ++ escapeOctet (128 + b) ++ escapeOctet (128 + r)
       ++ rest) =
  option_map (app (UTF16EncodeCodePoint (4096 * a + 64 * b + r)))
             (Decode 0 [] rest).
Proof.
  intros Ha Hb Hr Hlow Hsur.
  rewrite Decode_first_octet by lia.
  rewrite leadingOnes_table by lia.
  replace (224 + a <? 128) with false by (symmetry; apply N.ltb_ge; lia).
  replace (224 + a <? 192) with false by (symmetry; apply N.ltb_ge; lia).
  replace (224 + a <? 224) with false by (symmetry; apply N.ltb_ge; lia).
  replace (224 + a <? 240) with true by (symmetry; apply N.ltb_lt; lia).
  rewrite !Decode_next_octet by lia.
  assert (utf8CodePoint (([224 + a] ++ [128 + b]) ++ [128 + r])
          = Some (4096 * a + 64 * b + r)) as ->; [|reflexivity].
  change (([224 + a] ++ [128 + b]) ++ [128 + r])
    with [224 + a; 128 + b; 128 + r].
  cbv beta iota zeta delta [utf8CodePoint isContinuation].
  replace ((224 + a - 224) * 4096 + (128 + b - 128) * 64 + (128 + r - 128))
    with (4096 * a + 64 * b + r) by lia.
  by_cases_on_leb.
Qed.

Lemma decode_four_octets (a b c r : N) (rest : jsstring) :
  a < 8 -> b < 64 -> c < 64 -> r < 64 ->
  65536 <= 262144 * a + 4096 * b + 64 * c + r <= 1114111 ->
  Decode 0 []
    (escapeOctet (240 + a) ++ escapeOctet (128 + b) ++ escapeOctet (128 + c)
       ++ escapeOctet (128 + r) ++ rest) =
  option_map
    (app (UTF16EncodeCodePoint (262144 * a + 4096 * b + 64 * c + r)))
    (Decode 0 [] rest).
Proof.
  intros Ha Hb Hc Hr Hv.
  rewrite Decode_first_octet by lia.
  rewrite leadingOnes_table by lia.
  replace (240 + a <? 128) with false by (symmetry; apply N.ltb_ge; lia).
  replace (240 + a <? 192) with false by (symmetry; apply N.ltb_ge; lia).
  replace (240 + a <? 224) with false by (symmetry; apply N.ltb_ge; lia).
  replace (240 + a <? 240) with false by (symmetry; apply N.ltb_ge; lia).
  replace (240 + a <? 248) with true by (symmetry; apply N.ltb_lt; lia).
  rewrite !Decode_next_octet by lia.
  assert (utf8CodePoint ((([240 + a] ++ [128 + b]) ++ [128 + c]) ++ [128 + r])
          = Some (262144 * a + 4096 * b + 64 * c + r)) as ->; [|reflexivity].
  change ((([240 + a] ++ [128 + b]) ++ [128 + c]) ++ [128 + r])
    with [240 + a; 128 + b; 128 + c; 128 + r].
  cbv beta iota zeta delta [utf8CodePoint isContinuation].
  replace ((240 + a - 240) * 262144 + (128 + b - 128) * 4096
           + (128 + c - 128) * 64 + (128 + r - 128))
    with (262144 * a + 4096 * b + 64 * c + r) by lia.
  by_cases_on_leb.
Qed.

End UriRoundTrip.

Section UriRoundTripCodePoints.
Import JsEncode.

(** The escape sequences of one code point decode to its UTF-16 form. *)
Lemma decode_escapeCodePoint (cp : N) (rest : jsstring) :
  cp <= 1114111 -> ~ (55296 <= cp <= 57343) ->
  Decode 0 [] (escapeCodePoint cp ++ rest) =
  option_map (app (UTF16EncodeCodePoint cp)) (Decode 0 [] rest).
Proof.
  intros Hmax Hsur. unfold escapeCodePoint, utf8Encode.
  pose proof (N.div_mod cp 64 ltac:(lia)) as E0.
  pose proof (N.mod_lt cp 64 ltac:(lia)) as R0.
  pose proof (N.div_mod (cp / 64) 64 ltac:(lia)) as E1.
  pose proof (N.mod_lt (cp / 64) 64 ltac:(lia)) as R1.
  pose proof (N.div_mod (cp / 4096) 64 ltac:(lia)) as E2.
  pose proof (N.mod_lt (cp / 4096) 64 ltac:(lia)) as R2.
  assert (D1 : cp / 64 / 64 = cp / 4096) by (now rewrite N.Div0.div_div).
  assert (D2 : cp / 4096 / 64 = cp / 262144) by (now rewrite N.Div0.div_div).
  rewrite D1 in E1. rewrite D2 in E2. clear D1 D2.
  remember (cp / 64) as q0 eqn:Q0. remember (cp / 4096) as q1 eqn:Q1.
  remember (cp / 262144) as q2 eqn:Q2. remember (cp mod 64) as r0 eqn:M0.
  remember (q0 mod 64) as r1 eqn:M1. remember (q1 mod 64) as r2 eqn:M2.
  clear Q0 Q1 Q2 M0 M1 M2.
  destruct (N.ltb_spec cp 128) as [H1|H1];
    [|destruct (N.ltb_spec cp 2048) as [H2|H2];
      [|destruct (N.ltb_spec cp 65536) as [H3|H3]]];
    cbn [map List.concat]; rewrite app_nil_r, <- ?app_assoc.
  - rewrite Decode_first_octet by lia.
    rewrite leadingOnes_table by lia.
    replace (cp <? 128) with true by (symmetry; apply N.ltb_lt; lia).
    unfold UTF16EncodeCodePoint.
    replace (cp <=? 65535) with true by (symmetry; apply N.leb_le; lia).
    reflexivity.
  - rewrite decode_two_octets by lia.
    now replace (64 * q0 + r0) with cp by lia.
  - rewrite decode_three_octets by lia.
    now replace (4096 * q1 + 64 * r1 + r0) with cp by lia.
  - rewrite decode_four_octets by lia.
    now replace (262144 * q2 + 4096 * r2 + 64 * r1 + r0) with cp by lia.
Qed.

Lemma UTF16EncodeCodePoint_unit (c : N) :
  c < 65536 -> UTF16EncodeCodePoint c = [c].
Proof.
  intros H. unfold UTF16EncodeCodePoint.
  now replace (c <=? 65535) with true by (symmetry; apply N.leb_le; lia).
Qed.

Lemma UTF16EncodeCodePoint_pair (lead trail : N) :
  isLeadingSurrogate lead = true -> isTrailingSurrogate trail = true ->
  UTF16EncodeCodePoint (UTF16SurrogatePairToCodePoint lead trail)
  = [lead; trail] /\
  UTF16SurrogatePairToCodePoint lead trail <= 1114111 /\
  65536 <= UTF16SurrogatePairToCodePoint lead trail.
Proof.
  unfold isLeadingSurrogate, isTrailingSurrogate.
  rewrite !andb_true_iff, !N.leb_le. intros [Hl1 Hl2] [Ht1 Ht2].
  unfold UTF16EncodeCodePoint, UTF16SurrogatePairToCodePoint.
  replace ((lead - 55296) * 1024 + (trail - 56320) + 65536 <=? 65535)
    with false by (symmetry; apply N.leb_gt; lia).
  replace ((lead - 55296) * 1024 + (trail - 56320) + 65536 - 65536)
    with ((lead - 55296) * 1024 + (trail - 56320)) by lia.
  set (x := (lead - 55296) * 1024 + (trail - 56320)).
  assert (Hq : x / 1024 = lead - 55296).
  { symmetry.
    apply (N.div_unique x 1024 (lead - 55296) (trail - 56320)); unfold x; lia. }
  assert (Hr : x mod 1024 = trail - 56320).
  { symmetry.
    apply (N.mod_unique x 1024 (lead - 55296) (trail - 56320)); unfold x; lia. }
  rewrite Hq, Hr.
  split; [|unfold x; lia]. f_equal; [lia|f_equal; lia].
Qed.

Lemma isUnescaped_not_percent (c : N) :
  isUnescaped c = true -> c <> PERCENT.
Proof. intros H ->. discriminate H. Qed.

(** Round trip: what [encodeURIComponent] gives, [decodeURIComponent]
    gives back. *)
Lemma decode_encode (s e : jsstring) :
  codeUnits s -> encodeURIComponent s = Some e ->
  decodeURIComponent e = Some s.
Proof.
  unfold encodeURIComponent, decodeURIComponent.
  remember (List.length s) as n eqn:Hn.
  revert s e Hn.
  induction n as [n IH] using (well_founded_induction lt_wf).
  intros s e Hn Hcu Henc. destruct s as [|c rest].
  - injection Henc as <-. reflexivity.
  - inversion Hcu as [|? ? Hc Hrest]; subst.
    simpl in Henc.
    destruct (isUnescaped c) eqn:Hun.
    + destruct (Encode rest) as [e'|] eqn:He; [|discriminate].
      injection Henc as <-.
      change (Decode 0 [] (c :: e')) with (decodeURIComponent (c :: e')).
      rewrite decodeURIComponent_literal
        by (now apply isUnescaped_not_percent).
      unfold decodeURIComponent.
      rewrite (IH (List.length rest) ltac:(simpl; lia) rest e' eq_refl
                 Hrest He).
      reflexivity.
    + destruct (isTrailingSurrogate c) eqn:Htr; [discriminate|].
      destruct (isLeadingSurrogate c) eqn:Hld.
      * destruct rest as [|c2 rest']; [discriminate|].
        destruct (isTrailingSurrogate c2) eqn:Htr2; [|discriminate].
        destruct (Encode rest') as [e'|] eqn:He; [|discriminate].
        injection Henc as <-.
        destruct (UTF16EncodeCodePoint_pair c c2 Hld Htr2) as (Hp & Hmax & Hmin).
        rewrite decode_escapeCodePoint by lia.
        inversion Hrest as [|? ? Hc2 Hrest']; subst.
        rewrite (IH (List.length rest') ltac:(simpl; lia) rest' e' eq_refl
                   Hrest' He).
        simpl. now rewrite Hp.
      * destruct (Encode rest) as [e'|] eqn:He; [|discriminate].
        injection Henc as <-.
        assert (~ (55296 <= c <= 57343)) as Hns.
        { unfold isTrailingSurrogate, isLeadingSurrogate in Htr, Hld.
          apply andb_false_iff in Htr, Hld.
          rewrite !N.leb_gt in Htr, Hld. lia. }
        rewrite decode_escapeCodePoint by lia.
        rewrite (IH (List.length rest) ltac:(simpl; lia) rest e' eq_refl
                   Hrest He).
        simpl. now rewrite UTF16EncodeCodePoint_unit.
Qed.

(** The result of [encodeURIComponent] is made of the characters of
    the unescaped set and of ['%']. *)
Lemma hexChar_unescaped (d : N) : d < 16 -> isUnescaped (hexChar d) = true.
Proof.
  intros H.
  assert (forallb (fun d => isUnescaped (hexChar d))
            (map N.of_nat (seq 0 16)) = true) as Hall
    by (vm_compute; reflexivity).
  rewrite forallb_forall in Hall. apply Hall.
  apply in_map_iff. exists (N.to_nat d). split; [apply N2Nat.id|].
  apply in_seq. lia.
Qed.

Lemma escapeOctet_safe (B : N) :
  B < 256 -> Forall (fun c => isUriSafe c = true) (escapeOctet B).
Proof.
  intros H. unfold escapeOctet, isUriSafe.
  assert (B / 16 < 16) by (apply N.Div0.div_lt_upper_bound; lia).
  assert (B mod 16 < 16) by (apply N.mod_lt; lia).
  repeat constructor; try reflexivity;
    rewrite hexChar_unescaped by assumption; reflexivity.
Qed.

Lemma escapeCodePoint_safe (cp : N) :
  cp <= 1114111 -> Forall (fun c => isUriSafe c = true) (escapeCodePoint cp).
Proof.
  intros Hmax. unfold escapeCodePoint, utf8Encode.
  pose proof (N.mod_lt cp 64 ltac:(lia)).
  pose proof (N.mod_lt (cp / 64) 64 ltac:(lia)).
  pose proof (N.mod_lt (cp / 4096) 64 ltac:(lia)).
  assert (cp / 64 <= 17407) by
    (apply N.lt_succ_r, N.Div0.div_lt_upper_bound; lia).
  assert (cp / 4096 <= 271) by
    (apply N.lt_succ_r, N.Div0.div_lt_upper_bound; lia).
  assert (cp / 262144 <= 4) by
    (apply N.lt_succ_r, N.Div0.div_lt_upper_bound; lia).
  destruct (N.ltb_spec cp 128) as [L1|L1];
    [|destruct (N.ltb_spec cp 2048) as [L2|L2];
      [|destruct (N.ltb_spec cp 65536) as [L3|L3]]];
    cbn [map List.concat]; rewrite app_nil_r;
    repeat (apply Forall_app; split); apply escapeOctet_safe; try lia.
  - assert (cp / 64 < 32) by (apply N.Div0.div_lt_upper_bound; lia). lia.
  - assert (cp / 4096 < 16) by (apply N.Div0.div_lt_upper_bound; lia). lia.
Qed.

Lemma encode_safe (s e : jsstring) :
  codeUnits s -> encodeURIComponent s = Some e ->
  Forall (fun c => isUriSafe c = true) e.
Proof.
  unfold encodeURIComponent.
  remember (List.length s) as n eqn:Hn.
  revert s e Hn.
  induction n as [n IH] using (well_founded_induction lt_wf).
  intros s e Hn Hcu Henc. destruct s as [|c rest].
  - injection Henc as <-. constructor.
  - inversion Hcu as [|? ? Hc Hrest]; subst.
    simpl in Henc.
    destruct (isUnescaped c) eqn:Hun.
    + destruct (Encode rest) as [e'|] eqn:He; [|discriminate].
      injection Henc as <-. constructor.
      * unfold isUriSafe. now rewrite Hun.
      * exact (IH (List.length rest) ltac:(simpl; lia) rest e' eq_refl
                 Hrest He).
    + destruct (isTrailingSurrogate c) eqn:Htr; [discriminate|].
      destruct (isLeadingSurrogate c) eqn:Hld.
      * destruct rest as [|c2 rest']; [discriminate|].
        destruct (isTrailingSurrogate c2) eqn:Htr2; [|discriminate].
        destruct (Encode rest') as [e'|] eqn:He; [|discriminate].
        injection Henc as <-.
        destruct (UTF16EncodeCodePoint_pair c c2 Hld Htr2) as (_ & Hmax & _).
        inversion Hrest as [|? ? Hc2 Hrest']; subst.
        apply Forall_app. split; [now apply escapeCodePoint_safe|].
        exact (IH (List.length rest') ltac:(simpl; lia) rest' e' eq_refl
                 Hrest' He).
      * destruct (Encode rest) as [e'|] eqn:He; [|discriminate].
        injection Henc as <-.
        apply Forall_app. split; [apply escapeCodePoint_safe; lia|].
        exact (IH (List.length rest) ltac:(simpl; lia) rest e' eq_refl
                 Hrest He).
Qed.

(** Without surrogates there is nothing to throw. *)
Lemma encode_total_without_surrogates (s : jsstring) :
  Forall (fun c => ~ (55296 <= c <= 57343)) s ->
  exists e, encodeURIComponent s = Some e.
Proof.
  unfold encodeURIComponent. induction 1 as [|c rest Hc Hrest [e IH]].
  - now exists [].
  - simpl. rewrite IH.
    destruct (isUnescaped c); [eexists; reflexivity|].
    replace (isTrailingSurrogate c) with false.
    2:{ symmetry. unfold isTrailingSurrogate.
        apply andb_false_iff. rewrite !N.leb_gt. lia. }
    replace (isLeadingSurrogate c) with false.
    2:{ symmetry. unfold isLeadingSurrogate.
        apply andb_false_iff. rewrite !N.leb_gt. lia. }
    eexists; reflexivity.
Qed.

End UriRoundTripCodePoints.

(* ================================================================== *)
(** ** decodeURIComponent against the wording of the standard *)

Section PercentDecoding.

Local Ltac cases_on_leb :=
  repeat match goal with
         | |- context [?a <=? ?b] => destruct (N.leb_spec a b)
         | |- context [?a <? ?b] => destruct (N.ltb_spec a b)
         end;
  cbn [andb orb negb]; first [reflexivity | exfalso; lia].

Lemma hexDigit_lt (c d : N) : hexDigit c = Some d -> d < 16.
Proof.
  unfold hexDigit.
  destruct (N.leb_spec 48 c), (N.leb_spec c 57); cbn [andb];
    try (intros [= <-]; lia);
    destruct (N.leb_spec 65 c), (N.leb_spec c 70); cbn [andb];
    try (intros [= <-]; lia);
    destruct (N.leb_spec 97 c), (N.leb_spec c 102); cbn [andb];
    try (intros [= <-]; lia); discriminate.
Qed.

Lemma ParseHexOctet_lt (h1 h2 B : N) :
  ParseHexOctet h1 h2 = Some B -> B < 256.
Proof.
  unfold ParseHexOctet.
  destruct (hexDigit h1) as [a|] eqn:Ha; [|discriminate].
  destruct (hexDigit h2) as [b|] eqn:Hb; [|discriminate].
  apply hexDigit_lt in Ha, Hb. intros E.
  assert (B = 16 * a + b) by congruence. lia.
Qed.

(** The hexadecimal digits, of either case. *)
Lemma hexDigit_values (d : N) :
  (d < 10 -> hexDigit (48 + d) = Some d) /\
  (d < 6 -> hexDigit (65 + d) = Some (10 + d) /\
            hexDigit (97 + d) = Some (10 + d)).
Proof.
  unfold hexDigit. split; [intros H|intros H; split].
  - replace ((48 <=? 48 + d) && (48 + d <=? 57)) with true
      by (symmetry; apply andb_true_iff; rewrite !N.leb_le; lia).
    f_equal; lia.
  - replace ((48 <=? 65 + d) && (65 + d <=? 57)) with false
      by (symmetry; apply andb_false_iff; rewrite !N.leb_gt; lia).
    replace ((65 <=? 65 + d) && (65 + d <=? 70)) with true
      by (symmetry; apply andb_true_iff; rewrite !N.leb_le; lia).
    f_equal; lia.
  - replace ((48 <=? 97 + d) && (97 + d <=? 57)) with false
      by (symmetry; apply andb_false_iff; rewrite !N.leb_gt; lia).
    replace ((65 <=? 97 + d) && (97 + d <=? 70)) with false
      by (symmetry; apply andb_false_iff; rewrite !N.leb_gt; lia).
    replace ((97 <=? 97 + d) && (97 + d <=? 102)) with true
      by (symmetry; apply andb_true_iff; rewrite !N.leb_le; lia).
    f_equal; lia.
Qed.

Lemma Decode_first_hex (h1 h2 B : N) (r : jsstring) :
  ParseHexOctet h1 h2 = Some B ->
  Decode 0 [] (PERCENT :: h1 :: h2 :: r) =
  match leadingOnes B with
  | 0%nat => option_map (cons B) (Decode 0 [] r)
  | 2%nat => Decode 1 [B] r
  | 3%nat => Decode 2 [B] r
  | 4%nat => Decode 3 [B] r
  | _ => None
  end.
Proof. intros H. simpl. now rewrite H. Qed.

Lemma Decode_next_hex (p : nat) (octets : list N) (h1 h2 B : N)
  (r : jsstring) :
  ParseHexOctet h1 h2 = Some B ->
  Decode (S p) octets (PERCENT :: h1 :: h2 :: r) =
  match p with
  | O =>
      match utf8CodePoint (octets ++ [B]) with
      | None => None
      | Some v => option_map (app (UTF16EncodeCodePoint v)) (Decode 0 [] r)
      end
  | S _ => Decode p (octets ++ [B]) r
  end.
Proof. intros H. simpl. now rewrite H. Qed.

Lemma Decode_first_inv (s k : jsstring) :
  Decode 0 [] (PERCENT :: s) = Some k ->
  exists h1 h2 B r,
    s = h1 :: h2 :: r /\ ParseHexOctet h1 h2 = Some B /\
    Decode 0 [] (PERCENT :: s) =
    match leadingOnes B with
    | 0%nat => option_map (cons B) (Decode 0 [] r)
    | 2%nat => Decode 1 [B] r
    | 3%nat => Decode 2 [B] r
    | 4%nat => Decode 3 [B] r
    | _ => None
    end.
Proof.
  intros H. destruct s as [|h1 [|h2 r]]; try discriminate H.
  destruct (ParseHexOctet h1 h2) as [B|] eqn:HB.
  - exists h1, h2, B, r. repeat split; [exact HB|].
    now apply Decode_first_hex.
  - simpl in H. rewrite HB in H. discriminate H.
Qed.

Lemma Decode_next_inv (p : nat) (octets : list N) (s k : jsstring) :
  Decode (S p) octets s = Some k ->
  exists h1 h2 B r,
    s = PERCENT :: h1 :: h2 :: r /\ ParseHexOctet h1 h2 = Some B /\
    Decode (S p) octets s =
    match p with
    | O =>
        match utf8CodePoint (octets ++ [B]) with
        | None => None
        | Some v => option_map (app (UTF16EncodeCodePoint v)) (Decode 0 [] r)
        end
    | S _ => Decode p (octets ++ [B]) r
    end.
Proof.
  intros H. destruct s as [|c [|h1 [|h2 r]]]; try discriminate H.
  destruct (N.eqb_spec c PERCENT) as [->|Hc].
  - destruct (ParseHexOctet h1 h2) as [B|] eqn:HB.
    + exists h1, h2, B, r. repeat split; [exact HB|].
      now apply Decode_next_hex.
    + simpl in H. rewrite HB in H. discriminate H.
  - simpl in H. apply N.eqb_neq in Hc. rewrite Hc in H. discriminate H.
Qed.

(** Well-formed UTF-8, in both directions. *)
Lemma utf8CodePoint_2 (B0 B1 v : N) :
  192 <= B0 < 224 ->
  (utf8CodePoint [B0; B1] = Some v <->
   exists q r, B0 = 192 + q /\ B1 = 128 + r /\ 2 <= q < 32 /\ r < 64 /\
               v = 64 * q + r).
Proof.
  intros HB. cbv beta iota zeta delta [utf8CodePoint isContinuation]. split.
  - destruct (N.leb_spec 128 B1), (N.leb_spec B1 191); cbn [andb];
      try discriminate.
    destruct (N.leb_spec 128 ((B0 - 192) * 64 + (B1 - 128)));
      [|discriminate].
    intros [= <-]. exists (B0 - 192), (B1 - 128). lia.
  - intros (q & r & -> & -> & Hq & Hr & ->).
    replace ((192 + q - 192) * 64 + (128 + r - 128)) with (64 * q + r)
      by lia.
    cases_on_leb.
Qed.

Lemma utf8CodePoint_3 (B0 B1 B2 v : N) :
  224 <= B0 < 240 ->
  (utf8CodePoint [B0; B1; B2] = Some v <->
   exists a b r, B0 = 224 + a /\ B1 = 128 + b /\ B2 = 128 + r /\
                 a < 16 /\ b < 64 /\ r < 64 /\
                 2048 <= 4096 * a + 64 * b + r /\
                 ~ (55296 <= 4096 * a + 64 * b + r <= 57343) /\
                 v = 4096 * a + 64 * b + r).
Proof.
  intros HB. cbv beta iota zeta delta [utf8CodePoint isContinuation]. split.
  - destruct (N.leb_spec 128 B1), (N.leb_spec B1 191); cbn [andb];
      try discriminate.
    destruct (N.leb_spec 128 B2), (N.leb_spec B2 191); cbn [andb];
      try discriminate.
    set (x := (B0 - 224) * 4096 + (B1 - 128) * 64 + (B2 - 128)).
    destruct (N.leb_spec 2048 x); cbn [andb]; [|discriminate].
    destruct (N.leb_spec 55296 x), (N.leb_spec x 57343); cbn [andb negb];
      try discriminate;
      intros [= <-]; exists (B0 - 224), (B1 - 128), (B2 - 128);
      unfold x in *; lia.
  - intros (a & b & r & -> & -> & -> & Ha & Hb & Hr & Hlow & Hsur & ->).
    replace ((224 + a - 224) * 4096 + (128 + b - 128) * 64 + (128 + r - 128))
      with (4096 * a + 64 * b + r) by lia.
    cases_on_leb.
Qed.

Lemma utf8CodePoint_4 (B0 B1 B2 B3 v : N) :
  240 <= B0 < 248 ->
  (utf8CodePoint [B0; B1; B2; B3] = Some v <->
   exists a b c r, B0 = 240 + a /\ B1 = 128 + b /\ B2 = 128 + c /\
                   B3 = 128 + r /\
                   a < 8 /\ b < 64 /\ c < 64 /\ r < 64 /\
                   65536 <= 262144 * a + 4096 * b + 64 * c + r <= 1114111 /\
                   v = 262144 * a + 4096 * b + 64 * c + r).
Proof.
  intros HB. cbv beta iota zeta delta [utf8CodePoint isContinuation]. split.
  - destruct (N.leb_spec 128 B1), (N.leb_spec B1 191); cbn [andb];
      try discriminate.
    destruct (N.leb_spec 128 B2), (N.leb_spec B2 191); cbn [andb];
      try discriminate.
    destruct (N.leb_spec 128 B3), (N.leb_spec B3 191); cbn [andb];
      try discriminate.
    set (x := (B0 - 240) * 262144 + (B1 - 128) * 4096 + (B2 - 128) * 64
              + (B3 - 128)).
    destruct (N.leb_spec 65536 x), (N.leb_spec x 1114111); cbn [andb];
      try discriminate.
    intros [= <-].
    exists (B0 - 240), (B1 - 128), (B2 - 128), (B3 - 128).
    unfold x in *; lia.
  - intros (a & b & c & r & -> & -> & -> & -> & Ha & Hb & Hc & Hr & Hv & ->).
    replace ((240 + a - 240) * 262144 + (128 + b - 128) * 4096
             + (128 + c - 128) * 64 + (128 + r - 128))
      with (262144 * a + 4096 * b + 64 * c + r) by lia.
    cases_on_leb.
Qed.

Lemma UTF16EncodeCodePoint_two (v : N) :
  65536 <= v ->
  UTF16EncodeCodePoint v =
  [(v - 65536) / 1024 + 55296; (v - 65536) mod 1024 + 56320].
Proof.
  intros H. unfold UTF16EncodeCodePoint.
  now replace (v <=? 65535) with false by (symmetry; apply N.leb_gt; lia).
Qed.

Lemma leadingOnes_cases (B : N) :
  B < 256 ->
  (B < 128 /\ leadingOnes B = 0%nat) \/
  (192 <= B < 224 /\ leadingOnes B = 2%nat) \/
  (224 <= B < 240 /\ leadingOnes B = 3%nat) \/
  (240 <= B < 248 /\ leadingOnes B = 4%nat) \/
  ((128 <= B < 192 \/ 248 <= B) /\
   (leadingOnes B = 1%nat \/ leadingOnes B = 5%nat)).
Proof.
  intros HB. rewrite (leadingOnes_table B HB).
  destruct (N.ltb_spec B 128); [left; split; [lia|reflexivity]|].
  destruct (N.ltb_spec B 192);
    [right; right; right; right; split; [lia|now left]|].
  destruct (N.ltb_spec B 224); [right; left; split; [lia|reflexivity]|].
  destruct (N.ltb_spec B 240);
    [right; right; left; split; [lia|reflexivity]|].
  destruct (N.ltb_spec B 248);
    [right; right; right; left; split; [lia|reflexivity]|].
  right; right; right; right. split; [lia|now right].
Qed.

(** What the standard says decodes, [Decode] decodes. *)
Lemma decodes_sound (s k : jsstring) :
  decodes s k -> decodeURIComponent s = Some k.
Proof.
  unfold decodeURIComponent.
  induction 1 as [ | c s k Hc _ IH
                 | e B s k (h1 & h2 & -> & P) HB _ IH
                 | e0 e1 q r s k (h1 & h2 & -> & P0) (h3 & h4 & -> & P1)
                     Hq Hr _ IH
                 | e0 e1 e2 a b r s k (h1 & h2 & -> & P0)
                     (h3 & h4 & -> & P1) (h5 & h6 & -> & P2)
                     Ha Hb Hr Hlow Hsur _ IH
                 | e0 e1 e2 e3 a b c r s k (h1 & h2 & -> & P0)
                     (h3 & h4 & -> & P1) (h5 & h6 & -> & P2)
                     (h7 & h8 & -> & P3) Ha Hb Hc Hr Hv _ IH ].
  - reflexivity.
  - change (Decode 0 [] (c :: s)) with (decodeURIComponent (c :: s)).
    rewrite decodeURIComponent_literal by exact Hc.
    unfold decodeURIComponent. now rewrite IH.
  - cbn [app].
    change (Decode 0 [] (PERCENT :: h1 :: h2 :: s))
      with (decodeURIComponent (PERCENT :: h1 :: h2 :: s)).
    rewrite (decodeURIComponent_escape h1 h2 B s P HB).
    unfold decodeURIComponent. now rewrite IH.
  - cbn [app]. rewrite (Decode_first_hex _ _ _ _ P0).
    destruct (leadingOnes_cases (192 + q) ltac:(lia))
      as [[? _]|[[_ ->]|[[? _]|[[? _]|[[?|?] _]]]]]; try lia.
    rewrite (Decode_next_hex _ _ _ _ _ _ P1). cbn [app].
    rewrite (proj2 (utf8CodePoint_2 (192 + q) (128 + r) (64 * q + r)
                      ltac:(lia)))
      by (exists q, r; repeat split; lia).
    rewrite IH, UTF16EncodeCodePoint_unit by lia. reflexivity.
  - cbn [app]. rewrite (Decode_first_hex _ _ _ _ P0).
    destruct (leadingOnes_cases (224 + a) ltac:(lia))
      as [[? _]|[[? _]|[[_ ->]|[[? _]|[[?|?] _]]]]]; try lia.
    rewrite (Decode_next_hex _ _ _ _ _ _ P1).
    rewrite (Decode_next_hex _ _ _ _ _ _ P2). cbn [app].
    rewrite (proj2 (utf8CodePoint_3 (224 + a) (128 + b) (128 + r)
                      (4096 * a + 64 * b + r) ltac:(lia)))
      by (exists a, b, r; repeat split; lia).
    rewrite IH, UTF16EncodeCodePoint_unit by lia. reflexivity.
  - cbn [app]. rewrite (Decode_first_hex _ _ _ _ P0).
    destruct (leadingOnes_cases (240 + a) ltac:(lia))
      as [[? _]|[[? _]|[[? _]|[[_ ->]|[[?|?] _]]]]]; try lia.
    rewrite (Decode_next_hex _ _ _ _ _ _ P1).
    rewrite (Decode_next_hex _ _ _ _ _ _ P2).
    rewrite (Decode_next_hex _ _ _ _ _ _ P3). cbn [app].
    rewrite (proj2 (utf8CodePoint_4 (240 + a) (128 + b) (128 + c) (128 + r)
                      (262144 * a + 4096 * b + 64 * c + r) ltac:(lia)))
      by (exists a, b, c, r; repeat split; lia).
    rewrite IH, UTF16EncodeCodePoint_two by lia. reflexivity.
Qed.

Lemma option_map_Some_inv {A B} (f : A -> B) (o : option A) (b : B) :
  option_map f o = Some b -> exists a, o = Some a /\ b = f a.
Proof.
  destruct o as [a|]; [|discriminate]. intros [= <-]. now exists a.
Qed.

(** What [Decode] decodes, the standard says decodes. *)
Lemma decodes_complete (s k : jsstring) :
  decodeURIComponent s = Some k -> decodes s k.
Proof.
  unfold decodeURIComponent.
  remember (List.length s) as n eqn:Hn. revert s k Hn.
  induction n as [n IH] using (well_founded_induction lt_wf).
  intros s k Hn H. destruct s as [|c s].
  - injection H as <-. constructor.
  - destruct (N.eqb_spec c PERCENT) as [->|Hc].
    + destruct (Decode_first_inv s k H) as (h1 & h2 & B & r & -> & P & E).
      rewrite E in H. clear E.
      pose proof (ParseHexOctet_lt _ _ _ P) as HB.
      assert (E0 : escaped B [PERCENT; h1; h2]) by (now exists h1, h2).
      simpl in Hn.
      destruct (leadingOnes_cases B HB)
        as [[H1 L]|[[H2 L]|[[H3 L]|[[H4 L]|[_ [L|L]]]]]];
        rewrite L in H; try discriminate H.
      * apply option_map_Some_inv in H as (k' & Hk' & ->).
        apply (decodes_1 [PERCENT; h1; h2] B r k' E0 H1).
        apply (IH (List.length r)); [lia|reflexivity|exact Hk'].
      * destruct (Decode_next_inv _ _ _ _ H)
          as (h3 & h4 & B1 & r1 & -> & P1 & E).
        rewrite E in H. clear E. cbn [app] in H.
        destruct (utf8CodePoint [B; B1]) as [v|] eqn:Hv; [|discriminate H].
        apply option_map_Some_inv in H as (k' & Hk' & ->).
        apply (utf8CodePoint_2 B B1 v H2) in Hv
          as (q & x & -> & -> & Hq & Hx & ->).
        rewrite UTF16EncodeCodePoint_unit by lia.
        apply (decodes_2 [PERCENT; h1; h2] [PERCENT; h3; h4] q x r1 k');
          try assumption; [now exists h3, h4|].
        apply (IH (List.length r1)); [simpl in Hn; lia|reflexivity|exact Hk'].
      * destruct (Decode_next_inv _ _ _ _ H)
          as (h3 & h4 & B1 & r1 & -> & P1 & E).
        rewrite E in H. clear E.
        destruct (Decode_next_inv _ _ _ _ H)
          as (h5 & h6 & B2 & r2 & -> & P2 & E).
        rewrite E in H. clear E. cbn [app] in H.
        destruct (utf8CodePoint [B; B1; B2]) as [v|] eqn:Hv;
          [|discriminate H].
        apply option_map_Some_inv in H as (k' & Hk' & ->).
        apply (utf8CodePoint_3 B B1 B2 v H3) in Hv
          as (a & b & x & -> & -> & -> & Ha & Hb & Hx & Hlow & Hsur & ->).
        rewrite UTF16EncodeCodePoint_unit by lia.
        apply (decodes_3 [PERCENT; h1; h2] [PERCENT; h3; h4]
                 [PERCENT; h5; h6] a b x r2 k');
          try assumption; [now exists h3, h4|now exists h5, h6|].
        apply (IH (List.length r2)); [simpl in Hn; lia|reflexivity|exact Hk'].
      * destruct (Decode_next_inv _ _ _ _ H)
          as (h3 & h4 & B1 & r1 & -> & P1 & E).
        rewrite E in H. clear E.
        destruct (Decode_next_inv _ _ _ _ H)
          as (h5 & h6 & B2 & r2 & -> & P2 & E).
        rewrite E in H. clear E.
        destruct (Decode_next_inv _ _ _ _ H)
          as (h7 & h8 & B3 & r3 & -> & P3 & E).
        rewrite E in H. clear E. cbn [app] in H.
        destruct (utf8CodePoint [B; B1; B2; B3]) as [v|] eqn:Hv;
          [|discriminate H].
        apply option_map_Some_inv in H as (k' & Hk' & ->).
        apply (utf8CodePoint_4 B B1 B2 B3 v H4) in Hv
          as (a & b & c & x & -> & -> & -> & -> & Ha & Hb & Hc' & Hx & Hr
              & ->).
        rewrite UTF16EncodeCodePoint_two by lia.
        apply (decodes_4 [PERCENT; h1; h2] [PERCENT; h3; h4]
                 [PERCENT; h5; h6] [PERCENT; h7; h8] a b c x r3 k');
          try assumption;
          [now exists h3, h4|now exists h5, h6|now exists h7, h8|].
        apply (IH (List.length r3)); [simpl in Hn; lia|reflexivity|exact Hk'].
    + change (Decode 0 [] (c :: s)) with (decodeURIComponent (c :: s)) in H.
      rewrite decodeURIComponent_literal in H by exact Hc.
      apply option_map_Some_inv in H as (k' & Hk' & ->).
      apply decodes_unit; [exact Hc|].
      apply (IH (List.length s)); [simpl in Hn; lia|reflexivity|exact Hk'].
Qed.

End PercentDecoding.

Section PercentDecodingOfKeys.

Lemma hexDigit_iff (c d : N) :
  hexDigit c = Some d <->
  (48 <= c <= 57 /\ d = c - 48) \/ (65 <= c <= 70 /\ d = c - 55)
  \/ (97 <= c <= 102 /\ d = c - 87).
Proof.
  unfold hexDigit.
  destruct (N.leb_spec 48 c), (N.leb_spec c 57); cbn [andb];
    try (split; [intros [= <-]; lia|intros [[_ ->]|[[? _]|[? _]]];
                                    first [reflexivity|lia]]);
    destruct (N.leb_spec 65 c), (N.leb_spec c 70); cbn [andb];
    try (split; [intros [= <-]; lia|intros [[? _]|[[_ ->]|[? _]]];
                                    first [reflexivity|lia]]);
    destruct (N.leb_spec 97 c), (N.leb_spec c 102); cbn [andb];
    try (split; [intros [= <-]; lia|intros [[? _]|[[? _]|[_ ->]]];
                                    first [reflexivity|lia]]);
    (split; [discriminate|intros [[? _]|[[? _]|[? _]]]; lia]).
Qed.

Lemma decodeKey_decodes (raw k : jsstring) :
  decodeKey raw = Some k <->
  decodes (map (fun c => if c =? 43 then 32 else c) raw) k.
Proof.
  unfold decodeKey. split; [apply decodes_complete|apply decodes_sound].
Qed.

End PercentDecodingOfKeys.

(** C9.  The key of the record is decoded before anything else: every
    ['+'] becomes a space, then the percent escapes are decoded.  The
    decoding is the one the standard words: a raw key decodes to [k]
    exactly when, after the replacement, it is made of code units
    other than ['%'], which stand for themselves, and of escape
    sequences ['%'] + two hexadecimal digits of either case that are
    one octet below 0x80 or the well-formed UTF-8 octets of one code
    point (which becomes one code unit, or a surrogate pair); it does
    not decode otherwise.  Whenever the key of the record decodes to
    [key], [process] returns an outcome whose [originalKey] is [key];
    matching and guarding are decided on [key]; every rename that is
    requested is a rename of [key]; and a record whose key decodes to
    the same [key] gets the same outcome and the same calls. *)
Theorem C9_decoded_key_everywhere (record record' : S3EventRecord)
  (bucket : Ports) (key : jsstring) :
  decodeKey (s3_object_key record) = Some key ->
  decodeKey (s3_object_key record') = Some key ->
  decodeKey (s3_object_key record)
    = decodeURIComponent
        (map (fun c => if c =? PLUS then SPACE else c)
           (s3_object_key record)) /\
  (forall raw k,
     decodeKey raw = Some k <->
     decodes (map (fun c => if c =? 43 then 32 else c) raw) k) /\
  (forall raw,
     decodeKey raw = None <->
     forall k, ~ decodes (map (fun c => if c =? 43 then 32 else c) raw) k) /\
  (forall c d,
     hexDigit c = Some d <->
     (48 <= c <= 57 /\ d = c - 48) \/ (65 <= c <= 70 /\ d = c - 55)
     \/ (97 <= c <= 102 /\ d = c - 87)) /\
  (forall h1 h2 B,
     ParseHexOctet h1 h2 = Some B <->
     exists a b, hexDigit h1 = Some a /\ hexDigit h2 = Some b /\
                 B = 16 * a + b) /\
  (forall raw, ~ In PERCENT raw ->
     decodeKey raw = Some (replace_plus raw) /\ ~ In PLUS (replace_plus raw)) /\
  (forall h1 h2 B rest, ParseHexOctet h1 h2 = Some B -> B < 128 ->
     decodeURIComponent (PERCENT :: h1 :: h2 :: rest)
       = option_map (cons B) (decodeURIComponent rest)) /\
  decodeKey (lit "caf%C3%A9+%e2%82%ac%F0%9F%98%80%2B.json")
    = Some (lit "caf" ++ [233; 32; 8364; 55357; 56832; 43] ++ lit ".json") /\
  decodeKey (lit "%C0%80") = None /\
  decodeKey (lit "%ED%A0%80") = None /\
  decodeKey (lit "%FF") = None /\
  decodeKey (lit "100%") = None /\
  exists r tr,
    run record bucket = (Returns r, tr) /\
    originalKey r = key /\
    run record' bucket = (Returns r, tr) /\
    (action r = skipped_no_match <-> findSubfolderConfig bucket key = None) /\
    (action r = skipped_already_processed <->
       findSubfolderConfig bucket key <> None /\
       isAlreadyProcessed (filenameOf key) = true) /\
    (forall k newKey', In (CallRenameObject k newKey') tr -> k = key).
Proof.
  intros Hdec Hdec'.
  split; [reflexivity|].
  split; [exact decodeKey_decodes|].
  split.
  { intros raw. split.
    - intros Hnone k Hk. apply decodeKey_decodes in Hk. congruence.
    - intros Hno. destruct (decodeKey raw) as [k|] eqn:E; [|reflexivity].
      exfalso. apply (Hno k). now apply decodeKey_decodes. }
  split; [exact hexDigit_iff|].
  split.
  { intros h1 h2 B. unfold ParseHexOctet. split.
    - destruct (hexDigit h1) as [a|]; [|discriminate].
      destruct (hexDigit h2) as [b|]; [|discriminate].
      intros E. exists a, b. repeat split. congruence.
    - intros (a & b & -> & -> & ->). reflexivity. }
  split.
  { intros raw Hraw. split; [|apply replace_plus_no_plus].
    unfold decodeKey. apply decodeURIComponent_no_percent.
    now apply replace_plus_no_percent. }
  split; [exact decodeURIComponent_escape|].
  split; [vm_compute; reflexivity|].
  split; [vm_compute; reflexivity|].
  split; [vm_compute; reflexivity|].
  split; [vm_compute; reflexivity|].
  split; [vm_compute; reflexivity|].
  rewrite (run_decoded _ _ _ Hdec), (run_decoded _ _ _ Hdec').
  destruct (findSubfolderConfig bucket key) as [subdir|] eqn:Hfind.
  - destruct (isAlreadyProcessed (filenameOf key)) eqn:Hguard.
    + rewrite (processKey_marked _ _ _ _ Hfind Hguard).
      eexists; eexists. repeat split; simpl;
        try discriminate; try tauto; try reflexivity; congruence.
    + rewrite (processKey_transition _ _ _ _ Hfind Hguard).
      cbv zeta. simpl app.
      destruct (renameObject bucket _ _ _);
        [destruct (notify bucket _ _ _)|];
        eexists; eexists;
        (split; [reflexivity|]); (split; [reflexivity|]);
        (split; [reflexivity|]);
        (split; [split; simpl; intros H; discriminate H|]);
        (split; [split; simpl;
                 [intros H; discriminate H
                 |intros [_ H]; discriminate H]|]);
        simpl; intros k nk Hin;
        repeat (destruct Hin as [Hin|Hin]; [congruence|]);
        contradiction.
  - rewrite (processKey_no_match _ _ _ Hfind).
    eexists; eexists. repeat split; simpl;
      try discriminate; try tauto; try reflexivity;
      try (intros [H _]; congruence); try contradiction.
Qed.

Lemma C9_decoded_key_everywhere_witness :
  exists r tr,
    run (Fixture.createMockRecord "person-full/caf%C3%A9+with%20spaces%2B.json")
        (Fixture.mockBucket Fixture.bucketConfig Fixture.fixedTimestamp
           true Resolved true)
      = (Returns r, tr) /\
    originalKey r
      = lit "person-full/caf" ++ [233] ++ lit " with spaces+.json" /\
    run (Fixture.createMockRecord "person-full/caf%c3%a9%20with+spaces%2b.json")
        (Fixture.mockBucket Fixture.bucketConfig Fixture.fixedTimestamp
           true Resolved true)
      = (Returns r, tr).
Proof.
  destruct (C9_decoded_key_everywhere
              (Fixture.createMockRecord
                 "person-full/caf%C3%A9+with%20spaces%2B.json")
              (Fixture.createMockRecord
                 "person-full/caf%c3%a9%20with+spaces%2b.json")
              (Fixture.mockBucket Fixture.bucketConfig
                 Fixture.fixedTimestamp true Resolved true)
              (lit "person-full/caf" ++ [233] ++ lit " with spaces+.json"))
    as (_ & _ & _ & _ & _ & _ & _ & _ & _ & _ & _ & _ & r & tr & H1 & H2
        & H3 & _);
    try (vm_compute; reflexivity).
  exists r, tr. repeat split; assumption.
Defined.

(* ================================================================== *)
(** ** Bucket: rename and quarantine over the S3 client *)

Section BucketFacts.
Import Sdk JsEncode.

Lemma renameObject_run (config : BucketConfig) (clients : Clients)
  (key newKey' : jsstring) (st : Log) :
  Bucket.renameObject config clients key newKey' st =
  let copy := copyForRename config key newKey' in
  let delete := DeleteObjectCommand (name config) key in
  match s3_send clients st copy with
  | Some _ => (Value false, st ++ [S3Send copy])
  | None =>
      match s3_send clients (st ++ [S3Send copy]) delete with
      | Some _ => (Value false, st ++ [S3Send copy; S3Send delete])
      | None => (Value true, st ++ [S3Send copy; S3Send delete])
      end
  end.
Proof.
  unfold Bucket.renameObject, tryCatch, andThen, awaitS3, unit,
    Bucket.getName, copyForRename.
  cbv zeta.
  destruct (s3_send clients st _); [reflexivity|].
  destruct (s3_send clients (st ++ _) _);
    now rewrite <- app_assoc.
Qed.

Lemma moveToErrors_run (config : BucketConfig) (clients : Clients)
  (key subfolderPath reason' : jsstring) (st : Log) :
  Bucket.moveToErrors config clients key subfolderPath reason' st =
  let st1 := st ++ [DateToISOString] in
  match encodeURIComponent reason' with
  | None => (Value false, st1)
  | Some encoded =>
      let copy :=
        copyForQuarantine config key
          (Bucket.errorKeyOf subfolderPath (Date_toISOString clients st) key)
          encoded in
      let delete := DeleteObjectCommand (name config) key in
      match s3_send clients st1 copy with
      | Some _ => (Value false, st1 ++ [S3Send copy])
      | None =>
          match s3_send clients (st1 ++ [S3Send copy]) delete with
          | Some _ => (Value false, st1 ++ [S3Send copy; S3Send delete])
          | None => (Value true, st1 ++ [S3Send copy; S3Send delete])
          end
      end
  end.
Proof.
  unfold Bucket.moveToErrors, tryCatch, andThen, awaitS3, unit, now,
    orURIError, raise, Bucket.getName, copyForQuarantine.
  cbv zeta.
  destruct (encodeURIComponent reason') as [encoded|]; [|reflexivity].
  unfold unit.
  destruct (s3_send clients (st ++ [DateToISOString]) _); [reflexivity|].
  destruct (s3_send clients ((st ++ [DateToISOString]) ++ _) _);
    now rewrite <- !app_assoc.
Qed.

End BucketFacts.

(** X5.  [Bucket.renameObject] never throws.  It sends the copy first;
    when the copy is rejected it sends nothing else (the original is
    not deleted) and returns [false]; when the copy is accepted it
    sends the delete, and returns [true] exactly when the delete is
    accepted too: a rejected delete gives [false] although the copy has
    been made. *)
Theorem X5_renameObject_copy_then_delete (config : BucketConfig)
  (clients : Sdk.Clients) (key newKey' : jsstring) (st : Sdk.Log) :
  exists b st',
    Bucket.renameObject config clients key newKey' st = (Sdk.Value b, st') /\
    (b = true <->
       Sdk.s3_send clients st (copyForRename config key newKey') = None /\
       Sdk.s3_send clients
         (st ++ [Sdk.S3Send (copyForRename config key newKey')])
         (Sdk.DeleteObjectCommand (name config) key) = None) /\
    (Sdk.s3_send clients st (copyForRename config key newKey') <> None ->
     st' = st ++ [Sdk.S3Send (copyForRename config key newKey')]) /\
    (Sdk.s3_send clients st (copyForRename config key newKey') = None ->
     st' = st ++ [Sdk.S3Send (copyForRename config key newKey');
                  Sdk.S3Send (Sdk.DeleteObjectCommand (name config) key)]).
Proof.
  rewrite renameObject_run. cbv zeta.
  destruct (Sdk.s3_send clients st _) as [e|] eqn:Hcopy.
  - eexists; eexists. split; [reflexivity|]. repeat split;
      try discriminate; try congruence. intros [H _]; discriminate H.
  - destruct (Sdk.s3_send clients (st ++ _) _) as [e|] eqn:Hdel;
      eexists; eexists; (split; [reflexivity|]); repeat split;
      try discriminate; try congruence; try tauto.
    intros [_ H]; discriminate H.
Qed.

Section QuarantineFacts.
Import JsEncode.

Lemma originalFilenameOf_noSlash (key : jsstring) :
  noSlash (Bucket.originalFilenameOf key) /\
  Bucket.originalFilenameOf key <> [].
Proof.
  unfold Bucket.originalFilenameOf, pop_or_empty.
  pose proof (last_split_noSlash key) as H.
  destruct (last (split key) []) as [|c f].
  - split; [|discriminate]. intros Hin. vm_compute in Hin.
    repeat (destruct Hin as [Hin|Hin]; [discriminate|]). exact Hin.
  - split; [exact H|discriminate].
Qed.

Lemma filenameOf_errorKeyOf (subfolderPath timestamp key : jsstring) :
  noSlash timestamp ->
  filenameOf (Bucket.errorKeyOf subfolderPath timestamp key)
  = timestamp ++ lit "-" ++ Bucket.originalFilenameOf key.
Proof.
  intros Hts. unfold Bucket.errorKeyOf.
  destruct (originalFilenameOf_noSlash key) as [Hf _].
  set (f := Bucket.originalFilenameOf key) in *.
  replace (subfolderPath ++ lit "/errors/" ++ timestamp ++ lit "-" ++ f)
    with ((subfolderPath ++ lit "/errors")
            ++ SLASH :: (timestamp ++ lit "-" ++ f))
    by (now rewrite <- app_assoc).
  apply filenameOf_dir_file.
  unfold noSlash in *. rewrite !in_app_iff.
  intros [H|[[H|[]]|H]]; [auto|discriminate|auto].
Qed.

Lemma safe_has_no_plus (e : jsstring) :
  Forall (fun c => isUriSafe c = true) e -> replace_plus e = e.
Proof.
  unfold replace_plus. induction 1 as [|c e Hc He IH]; [reflexivity|].
  simpl. rewrite IH.
  destruct (N.eqb_spec c PLUS) as [->|]; [discriminate Hc|reflexivity].
Qed.

End QuarantineFacts.

(** X6.  When the reason holds an unpaired surrogate, so that
    [encodeURIComponent(reason)] throws, [Bucket.moveToErrors] catches
    the URIError: it has read the date, sends no command to S3 (the
    object is neither copied nor deleted) and returns [false].  A
    reason without surrogate code units never does this. *)
Theorem X6_moveToErrors_unencodable_reason (config : BucketConfig)
  (clients : Sdk.Clients) (key subfolderPath reason' : jsstring)
  (st : Sdk.Log) :
  JsEncode.encodeURIComponent reason' = None ->
  Bucket.moveToErrors config clients key subfolderPath reason' st
    = (Sdk.Value false, st ++ [Sdk.DateToISOString]) /\
  ~ Forall (fun c => ~ (55296 <= c <= 57343)) reason'.
Proof.
  intros Henc. split.
  - rewrite moveToErrors_run. cbv zeta. now rewrite Henc.
  - intros Hno.
    destruct (encode_total_without_surrogates reason' Hno) as [e He].
    congruence.
Qed.

Lemma X6_moveToErrors_unencodable_reason_witness :
  Bucket.moveToErrors Fixture.bucketConfig
    {| Sdk.s3_send := fun _ _ => None;
       Sdk.lambda_send := fun _ _ => None;
       Sdk.Date_toISOString := fun _ => Fixture.fixedTimestamp |}
    (lit "person-full/2026-02-22T10:30:00.000Z-data.json")
    (lit "person-full") (lit "failed: " ++ [55357]) []
  = (Sdk.Value false, [Sdk.DateToISOString]).
Proof.
  refine (proj1 (X6_moveToErrors_unencodable_reason Fixture.bucketConfig _
                   _ (lit "person-full") (lit "failed: " ++ [55357]) [] _)).
  vm_compute; reflexivity.
Defined.

(** X7.  When the reason can be encoded, the first command of
    [Bucket.moveToErrors] is a copy of the object to
    [subfolderPath/errors/<date>-<file name>] whose tag is
    ["error-reason="] followed by text that [decodeURIComponent] turns
    back into the reason, and that text is made of letters, digits,
    [- _ . ! ~ * ' ( )] and ['%'] only: it holds no ['&'] and no ['=']
    that would break the tag. *)
Theorem X7_quarantine_tag_round_trip (config : BucketConfig)
  (clients : Sdk.Clients) (key subfolderPath reason' encoded : jsstring)
  (st : Sdk.Log) :
  JsEncode.codeUnits reason' ->
  JsEncode.encodeURIComponent reason' = Some encoded ->
  (exists b rest,
     Bucket.moveToErrors config clients key subfolderPath reason' st =
       (Sdk.Value b,
        st ++ Sdk.DateToISOString
           :: Sdk.S3Send
                (copyForQuarantine config key
                   (subfolderPath ++ lit "/errors/"
                      ++ Sdk.Date_toISOString clients st ++ lit "-"
                      ++ Bucket.originalFilenameOf key)
                   encoded)
           :: rest)) /\
  decodeURIComponent encoded = Some reason' /\
  Forall (fun c => JsEncode.isUriSafe c = true) encoded /\
  ~ In 38 encoded /\ ~ In 61 encoded.
Proof.
  intros Hcu Henc.
  pose proof (encode_safe _ _ Hcu Henc) as Hsafe.
  split; [|split; [now apply decode_encode|split; [exact Hsafe|]]].
  - rewrite moveToErrors_run. cbv zeta. rewrite Henc.
    fold (Bucket.errorKeyOf subfolderPath (Sdk.Date_toISOString clients st)
            key).
    destruct (Sdk.s3_send clients (st ++ _) _);
      [|destruct (Sdk.s3_send clients ((st ++ _) ++ _) _)];
      eexists; eexists; rewrite <- !app_assoc; reflexivity.
  - rewrite Forall_forall in Hsafe.
    split; intros Hin; apply Hsafe in Hin; discriminate Hin.
Qed.

Lemma X7_quarantine_tag_round_trip_witness :
  decodeURIComponent
    (lit "Subscriber%20Lambda%20invocation%20failed%3A%20a%26b%3Dc")
  = Some (lit "Subscriber Lambda invocation failed: a&b=c").
Proof.
  refine (proj1 (proj2 (X7_quarantine_tag_round_trip Fixture.bucketConfig
                          {| Sdk.s3_send := fun _ _ => None;
                             Sdk.lambda_send := fun _ _ => None;
                             Sdk.Date_toISOString :=
                               fun _ => Fixture.fixedTimestamp |}
                          (lit "person-full/x") (lit "person-full")
                          (lit "Subscriber Lambda invocation failed: a&b=c")
                          _ [] _ _))).
  - repeat constructor.
  - vm_compute; reflexivity.
Defined.

(** X8.  The object that [Bucket.moveToErrors] writes is not processed
    again.  For the path of a configured rule, any key, and a date in
    the format of [toISOString], [process] on a record whose key
    decodes to [path/errors/<date>-<file name>] returns
    [skipped-already-processed] with [success = true] and calls no
    port; the file name is that of the key, or ["unknown"] when the key
    ends in a slash or is empty. *)
Theorem X8_quarantined_object_is_skipped (record : S3EventRecord)
  (bucket : Ports) (subdir : BucketSubdirectory)
  (key timestamp : jsstring) :
  In subdir (subdirectories (getConfig bucket)) ->
  isISOTimestamp timestamp = true ->
  decodeKey (s3_object_key record)
    = Some (Bucket.errorKeyOf (path subdir) timestamp key) ->
  (exists r,
     run record bucket = (Returns r, []) /\
     action r = skipped_already_processed /\
     success r = true) /\
  filenameOf (Bucket.errorKeyOf (path subdir) timestamp key)
    = timestamp ++ lit "-" ++ Bucket.originalFilenameOf key /\
  (filenameOf key <> [] -> Bucket.originalFilenameOf key = filenameOf key) /\
  (filenameOf key = [] -> Bucket.originalFilenameOf key = lit "unknown").
Proof.
  intros Hin Hiso Hdec.
  destruct (isISOTimestamp_marks _ Hiso) as [Hns Hmark].
  pose proof (filenameOf_errorKeyOf (path subdir) timestamp key Hns) as Hfile.
  split; [|split; [exact Hfile|split]].
  - assert (underIntakePath (path subdir)
              (Bucket.errorKeyOf (path subdir) timestamp key)) as Hunder
      by (eexists; reflexivity).
    destruct (findSubfolderConfig_some_rule _ _ _ Hin Hunder)
      as [found Hfound].
    rewrite (run_decoded _ _ _ Hdec).
    rewrite (processKey_marked bucket _ found [] Hfound).
    + eexists; repeat split.
    + rewrite Hfile. apply Hmark.
  - unfold Bucket.originalFilenameOf, filenameOf.
    destruct (pop_or_empty (split key)); [congruence|reflexivity].
  - unfold Bucket.originalFilenameOf, filenameOf. now intros ->.
Qed.

Lemma X8_quarantined_object_is_skipped_witness :
  exists r,
    run (Fixture.createMockRecord
           "person-full/errors/2026-02-22T10%3A30%3A00.000Z-unknown")
        (Fixture.mockBucket Fixture.bucketConfig Fixture.fixedTimestamp
           true Resolved true)
      = (Returns r, []) /\
    action r = skipped_already_processed /\
    success r = true.
Proof.
  refine (proj1 (X8_quarantined_object_is_skipped
                   (Fixture.createMockRecord
                      "person-full/errors/2026-02-22T10%3A30%3A00.000Z-unknown")
                   (Fixture.mockBucket Fixture.bucketConfig
                      Fixture.fixedTimestamp true Resolved true)
                   Fixture.personFull (lit "person-full/sub/")
                   Fixture.fixedTimestamp _ _ _)).
  - left. reflexivity.
  - vm_compute; reflexivity.
  - vm_compute; reflexivity.
Defined.

(** Whenever the key decodes, [process] returns an outcome for it. *)
Lemma run_returns (record : S3EventRecord) (bucket : Ports)
  (key : jsstring) :
  decodeKey (s3_object_key record) = Some key ->
  exists r tr, run record bucket = (Returns r, tr) /\ originalKey r = key.
Proof.
  intros Hdec. rewrite (run_decoded _ _ _ Hdec).
  destruct (findSubfolderConfig bucket key) as [subdir|] eqn:Hfind.
  - destruct (isAlreadyProcessed (filenameOf key)) eqn:Hguard.
    + rewrite (processKey_marked _ _ _ _ Hfind Hguard).
      eexists; eexists; split; reflexivity.
    + rewrite (processKey_transition _ _ _ _ Hfind Hguard).
      cbv zeta.
      destruct (renameObject bucket _ _ _);
        [destruct (notify bucket _ _ _)|];
        eexists; eexists; split; reflexivity.
  - rewrite (processKey_no_match _ _ _ Hfind).
    eexists; eexists; split; reflexivity.
Qed.

(** X9.  A key that arrives encoded by [encodeURIComponent] is decoded
    by [process] to the key it stands for, whatever it holds (spaces,
    ['+'], ['%'], ['/'], characters outside ASCII): [process] returns,
    and the [originalKey] of its outcome is that key. *)
Theorem X9_encoded_key_is_read_back (record : S3EventRecord)
  (bucket : Ports) (key : jsstring) :
  JsEncode.codeUnits key ->
  JsEncode.encodeURIComponent key = Some (s3_object_key record) ->
  decodeKey (s3_object_key record) = Some key /\
  exists r tr,
    run record bucket = (Returns r, tr) /\ originalKey r = key.
Proof.
  intros Hcu Henc.
  assert (Hdec : decodeKey (s3_object_key record) = Some key).
  { unfold decodeKey.
    rewrite (safe_has_no_plus _ (encode_safe _ _ Hcu Henc)).
    now apply decode_encode. }
  split; [exact Hdec|]. now apply run_returns.
Qed.

Lemma X9_encoded_key_is_read_back_witness :
  exists r tr,
    run (Fixture.createMockRecord "person-full%2Fa%20b%2Bc%25.json")
        (Fixture.mockBucket Fixture.bucketConfig Fixture.fixedTimestamp
           true Resolved true)
      = (Returns r, tr) /\
    originalKey r = lit "person-full/a b+c%.json".
Proof.
  refine (proj2 (X9_encoded_key_is_read_back
                   (Fixture.createMockRecord
                      "person-full%2Fa%20b%2Bc%25.json")
                   (Fixture.mockBucket Fixture.bucketConfig
                      Fixture.fixedTimestamp true Resolved true)
                   (lit "person-full/a b+c%.json") _ _)).
  - repeat constructor.
  - vm_compute; reflexivity.
Defined.

(* ================================================================== *)
(** ** The engine over the real bucket and subscriber *)

Section SystemFacts.
Import Sdk.

Lemma notify_run (arn : jsstring) (clients : Clients)
  (config : BucketConfig) (newKey' : jsstring) (st : Log) :
  Subscriber.notify arn clients config newKey' st =
  let command := invokeFor arn config newKey'
                   (Date_toISOString clients st) in
  let st2 := st ++ [DateToISOString; LambdaSend command] in
  match lambda_send clients (st ++ [DateToISOString]) command with
  | None => (Value tt, st2)
  | Some error => (Raised (ThrownError error), st2)
  end.
Proof.
  unfold Subscriber.notify, Subscriber.invokeSubscriberLambda, tryCatch,
    andThen, awaitLambda, now, raise, invokeFor, Bucket.getName.
  cbv zeta.
  destruct (lambda_send clients (st ++ [DateToISOString]) _);
    now rewrite <- app_assoc.
Qed.

Lemma logAfter_nil (config : BucketConfig) (clients : Clients) (st : Log) :
  Handler.logAfter config clients st [] = st.
Proof. reflexivity. Qed.

Lemma logAfter_snoc (config : BucketConfig) (clients : Clients) (st : Log)
  (t : Trace) (c : Call) :
  Handler.logAfter config clients st (t ++ [c]) =
  Handler.serve config clients c (Handler.logAfter config clients st t).
Proof. unfold Handler.logAfter. now rewrite fold_left_app. Qed.

(** One record whose key decodes, matches and is not marked, over the
    real bucket and subscriber. *)
Lemma processRecord_transition (config : BucketConfig) (clients : Clients)
  (record : S3EventRecord) (key : jsstring) (subdir : BucketSubdirectory)
  (st : Log) :
  decodeKey (s3_object_key record) = Some key ->
  findSubfolderConfig_loop (subdirectories config) key = Some subdir ->
  isAlreadyProcessed (filenameOf key) = false ->
  Handler.processRecord config clients record st =
  let newKey' := newKeyOf subdir key (Date_toISOString clients st) in
  let arn := subscriberLambdaArn subdir in
  let renaming :=
    Bucket.renameObject config clients key newKey'
      (st ++ [DateToISOString]) in
  if Handler.awaited renaming then
    let notifying :=
      Subscriber.notify arn clients config newKey' (snd renaming) in
    match fst notifying with
    | Value _ =>
        (Returns {| success := true; action := renamed; reason := None;
                    originalKey := key; newKey := Some newKey';
                    subscriberInvoked := Some true;
                    movedToErrors := None |},
         snd notifying)
    | Raised e =>
        let moving :=
          Bucket.moveToErrors config clients newKey' (path subdir)
            (REASON_INVOKE_FAILED (errorText e)) (snd notifying) in
        (Returns {| success := false; action := error_invoke;
                    reason := Some (REASON_INVOKE_FAILED (errorText e));
                    originalKey := key; newKey := Some newKey';
                    subscriberInvoked := Some false;
                    movedToErrors := Some (Handler.awaited moving) |},
         snd moving)
    end
  else
    (Returns {| success := false; action := error_rename;
                reason := Some REASON_RENAME_FAILED;
                originalKey := key; newKey := None;
                subscriberInvoked := None; movedToErrors := None |},
     snd renaming).
Proof.
  intros Hdec Hfind Hguard.
  unfold Handler.processRecord, process. rewrite Hdec.
  rewrite (processKey_transition (Handler.ports config clients st) key
             subdir [] Hfind Hguard).
  cbv zeta. simpl app.
  cbn [Handler.ports clockFn renameObject notify moveToErrors].
  rewrite !logAfter_nil.
  set (newKey' := newKeyOf subdir key (Date_toISOString clients st)).
  set (arn := subscriberLambdaArn subdir).
  assert (L1 : Handler.logAfter config clients st [CallClock]
               = st ++ [DateToISOString]) by reflexivity.
  assert (L2 : Handler.logAfter config clients st
                 [CallClock; CallRenameObject key newKey']
               = snd (Bucket.renameObject config clients key newKey'
                        (st ++ [DateToISOString]))) by reflexivity.
  assert (L3 : Handler.logAfter config clients st
                 [CallClock; CallRenameObject key newKey';
                  CallNotify arn newKey']
               = snd (Subscriber.notify arn clients config newKey'
                        (snd (Bucket.renameObject config clients key newKey'
                                (st ++ [DateToISOString])))))
    by reflexivity.
  rewrite L1.
  destruct (Handler.awaited _) eqn:Hren.
  - rewrite L2.
    destruct (fst (Subscriber.notify _ _ _ _ _)) as [u|e] eqn:Hnot.
    + now rewrite L3.
    + rewrite L3. reflexivity.
  - now rewrite L2.
Qed.

End SystemFacts.

Section SystemFacts2.
Import Sdk.

(** The new key never ends in a slash: its file name holds at least the
    hyphen. *)
Lemma filenameOf_newKeyOf_not_empty (subdir : BucketSubdirectory)
  (key timestamp : jsstring) :
  filenameOf (newKeyOf subdir key timestamp) <> [].
Proof.
  unfold filenameOf, pop_or_empty, newKeyOf, computeNewKey.
  set (f := filenameOnlyOf subdir key).
  assert (Hf : noSlash f) by apply last_split_noSlash.
  set (n := match nestedPathOf subdir key with
            | [] => []
            | _ :: _ => nestedPathOf subdir key ++ lit "/"
            end).
  replace (path subdir ++ lit "/" ++ n ++ timestamp ++ lit "-" ++ f)
    with (((path subdir ++ lit "/" ++ n ++ timestamp) ++ lit "-") ++ f)
    by (now rewrite <- !app_assoc).
  rewrite (last_split_app_noSlash _ f Hf).
  rewrite (last_split_app_noSlash _ (lit "-")).
  - intros H. apply app_eq_nil in H as [H _].
    apply app_eq_nil in H as [_ H]. discriminate H.
  - intros [H|[]]. discriminate H.
Qed.

Lemma originalFilenameOf_newKeyOf (subdir : BucketSubdirectory)
  (key timestamp : jsstring) :
  Bucket.originalFilenameOf (newKeyOf subdir key timestamp)
  = filenameOf (newKeyOf subdir key timestamp).
Proof.
  pose proof (filenameOf_newKeyOf_not_empty subdir key timestamp) as H.
  unfold Bucket.originalFilenameOf, filenameOf in *.
  destruct (pop_or_empty _); [contradiction|reflexivity].
Qed.

End SystemFacts2.

(** X10.  Over the real bucket, for a record whose key decodes, matches
    a rule and is not marked: when S3 rejects the copy, the only
    requests are the date and that copy (nothing is deleted, the Lambda
    is not invoked) and the outcome is [error-rename]; when S3 accepts
    the copy and rejects the delete, the requests end with that delete,
    the Lambda is still not invoked and the outcome is [error-rename]
    although the object now exists under the new key too. *)
Theorem X10_failed_rename_stops_the_record (config : BucketConfig)
  (clients : Sdk.Clients) (record : S3EventRecord) (key : jsstring)
  (subdir : BucketSubdirectory) (st : Sdk.Log) :
  decodeKey (s3_object_key record) = Some key ->
  findSubfolderConfig_loop (subdirectories config) key = Some subdir ->
  isAlreadyProcessed (filenameOf key) = false ->
  (Sdk.s3_send clients (st ++ [Sdk.DateToISOString])
     (copyForRename config key
        (newKeyOf subdir key (Sdk.Date_toISOString clients st))) <> None ->
   exists r,
     Handler.processRecord config clients record st =
       (Returns r,
        st ++ [Sdk.DateToISOString;
               Sdk.S3Send
                 (copyForRename config key
                    (newKeyOf subdir key (Sdk.Date_toISOString clients st)))])
     /\ action r = error_rename /\ success r = false) /\
  (Sdk.s3_send clients (st ++ [Sdk.DateToISOString])
     (copyForRename config key
        (newKeyOf subdir key (Sdk.Date_toISOString clients st))) = None ->
   Sdk.s3_send clients
     (st ++ [Sdk.DateToISOString;
             Sdk.S3Send
               (copyForRename config key
                  (newKeyOf subdir key (Sdk.Date_toISOString clients st)))])
     (Sdk.DeleteObjectCommand (name config) key) <> None ->
   exists r,
     Handler.processRecord config clients record st =
       (Returns r,
        st ++ [Sdk.DateToISOString;
               Sdk.S3Send
                 (copyForRename config key
                    (newKeyOf subdir key (Sdk.Date_toISOString clients st)));
               Sdk.S3Send (Sdk.DeleteObjectCommand (name config) key)])
     /\ action r = error_rename /\ success r = false).
Proof.
  intros Hdec Hfind Hguard.
  rewrite (processRecord_transition _ _ _ _ _ _ Hdec Hfind Hguard).
  cbv zeta. rewrite renameObject_run. cbv zeta.
  split.
  - intros Hcopy.
    destruct (Sdk.s3_send clients (st ++ [Sdk.DateToISOString]) _)
      as [e|]; [|contradiction].
    cbn [Handler.awaited fst snd]. rewrite <- app_assoc.
    eexists; repeat split.
  - intros Hcopy Hdel. rewrite Hcopy.
    rewrite <- !app_assoc. simpl app.
    destruct (Sdk.s3_send clients _ (Sdk.DeleteObjectCommand _ _))
      as [e|]; [|contradiction].
    cbn [Handler.awaited fst snd].
    eexists; repeat split.
Qed.

Lemma X10_failed_rename_stops_the_record_witness :
  exists r,
    Handler.processRecord Fixture.bucketConfig
      (SdkFixture.clients false true None)
      (Fixture.createMockRecord "person-full/data.json") [] =
      (Returns r,
       [Sdk.DateToISOString;
        Sdk.S3Send
          (copyForRename Fixture.bucketConfig (lit "person-full/data.json")
             (lit "person-full/2026-02-22T10:30:00.000Z-data.json"));
        Sdk.S3Send
          (Sdk.DeleteObjectCommand (lit "test-bucket")
             (lit "person-full/data.json"))])
    /\ action r = error_rename /\ success r = false.
Proof.
  refine (proj2 (X10_failed_rename_stops_the_record Fixture.bucketConfig
                   (SdkFixture.clients false true None)
                   (Fixture.createMockRecord "person-full/data.json")
                   (lit "person-full/data.json") Fixture.personFull []
                   _ _ _) _ _);
    vm_compute; first [reflexivity | discriminate].
Defined.

(** X11.  Over the real bucket and subscriber, for a record whose key
    decodes, matches a rule and is not marked, when S3 accepts the copy
    and the delete and the Lambda client accepts the invocation: the
    requests are, in this order, the date, the copy of the object to
    the new key, the delete of the original, the date, and one
    asynchronous invocation of the rule's function whose payload names
    the bucket and the new key (never the original key); the outcome is
    [renamed]. *)
Theorem X11_accepted_record_end_to_end (config : BucketConfig)
  (clients : Sdk.Clients) (record : S3EventRecord) (key : jsstring)
  (subdir : BucketSubdirectory) (st : Sdk.Log) :
  let newKey' := newKeyOf subdir key (Sdk.Date_toISOString clients st) in
  let copy := copyForRename config key newKey' in
  let delete := Sdk.DeleteObjectCommand (name config) key in
  let st3 := st ++ [Sdk.DateToISOString; Sdk.S3Send copy; Sdk.S3Send delete] in
  let invoke :=
    invokeFor (subscriberLambdaArn subdir) config newKey'
      (Sdk.Date_toISOString clients st3) in
  decodeKey (s3_object_key record) = Some key ->
  findSubfolderConfig_loop (subdirectories config) key = Some subdir ->
  isAlreadyProcessed (filenameOf key) = false ->
  Sdk.s3_send clients (st ++ [Sdk.DateToISOString]) copy = None ->
  Sdk.s3_send clients (st ++ [Sdk.DateToISOString; Sdk.S3Send copy]) delete
    = None ->
  Sdk.lambda_send clients (st3 ++ [Sdk.DateToISOString]) invoke = None ->
  Handler.processRecord config clients record st =
    (Returns {| success := true; action := renamed; reason := None;
                originalKey := key; newKey := Some newKey';
                subscriberInvoked := Some true; movedToErrors := None |},
     st3 ++ [Sdk.DateToISOString; Sdk.LambdaSend invoke]) /\
  Sdk.payload_key (Sdk.Payload invoke) = newKey' /\
  Sdk.s3Path (Sdk.Payload invoke)
    = lit "s3://" ++ name config ++ lit "/" ++ newKey' /\
  Sdk.InvocationType invoke = lit "Event" /\
  newKey' <> key.
Proof.
  intros newKey' copy delete st3 invoke Hdec Hfind Hguard Hcopy Hdel Hinv.
  split; [|repeat split].
  - rewrite (processRecord_transition _ _ _ _ _ _ Hdec Hfind Hguard).
    cbv zeta. rewrite renameObject_run. cbv zeta.
    fold newKey' copy delete. rewrite Hcopy.
    rewrite <- !app_assoc. simpl app. rewrite Hdel.
    cbn [Handler.awaited fst snd].
    rewrite notify_run. cbv zeta. fold st3 invoke. rewrite Hinv.
    cbn [fst snd]. reflexivity.
  - apply (newKeyOf_differs (Handler.ports config clients st)). exact Hfind.
Qed.

Lemma X11_accepted_record_end_to_end_witness :
  Handler.processRecord Fixture.bucketConfig
    (SdkFixture.clients false false None)
    (Fixture.createMockRecord "person-full/sub/data+1.json") [] =
    (Returns {| success := true; action := renamed; reason := None;
                originalKey := lit "person-full/sub/data 1.json";
                newKey :=
                  Some (lit "person-full/sub/2026-02-22T10:30:00.000Z-data 1.json");
                subscriberInvoked := Some true; movedToErrors := None |},
     [Sdk.DateToISOString;
      Sdk.S3Send
        (copyForRename Fixture.bucketConfig
           (lit "person-full/sub/data 1.json")
           (lit "person-full/sub/2026-02-22T10:30:00.000Z-data 1.json"));
      Sdk.S3Send
        (Sdk.DeleteObjectCommand (lit "test-bucket")
           (lit "person-full/sub/data 1.json"));
      Sdk.DateToISOString;
      Sdk.LambdaSend
        (invokeFor (subscriberLambdaArn Fixture.personFull)
           Fixture.bucketConfig
           (lit "person-full/sub/2026-02-22T10:30:00.000Z-data 1.json")
           Fixture.fixedTimestamp)]).
Proof.
  refine (proj1 (X11_accepted_record_end_to_end Fixture.bucketConfig
                   (SdkFixture.clients false false None)
                   (Fixture.createMockRecord "person-full/sub/data+1.json")
                   (lit "person-full/sub/data 1.json") Fixture.personFull []
                   _ _ _ _ _ _));
    vm_compute; reflexivity.
Defined.

(** X12.  Over the real bucket and subscriber, when the rename is done
    and the Lambda client rejects the invocation, the quarantine
    follows: the date is read, then the renamed object (not the
    original) is copied to [path/errors/<date>-<file name of the new
    key>], tagged with the encoded reason, and, only when that copy is
    accepted, the renamed object is deleted.  The outcome is
    [error-invoke], its reason is "Subscriber Lambda invocation failed: "
    followed by the error, and [movedToErrors] is true exactly when
    both the copy and the delete are accepted. *)
Theorem X12_rejected_invocation_end_to_end (config : BucketConfig)
  (clients : Sdk.Clients) (record : S3EventRecord)
  (key error encoded : jsstring) (subdir : BucketSubdirectory)
  (st : Sdk.Log) :
  let newKey' := newKeyOf subdir key (Sdk.Date_toISOString clients st) in
  let copy := copyForRename config key newKey' in
  let delete := Sdk.DeleteObjectCommand (name config) key in
  let st3 := st ++ [Sdk.DateToISOString; Sdk.S3Send copy; Sdk.S3Send delete] in
  let invoke :=
    invokeFor (subscriberLambdaArn subdir) config newKey'
      (Sdk.Date_toISOString clients st3) in
  let st5 := st3 ++ [Sdk.DateToISOString; Sdk.LambdaSend invoke] in
  let why := lit "Subscriber Lambda invocation failed: " ++ error in
  let errorKey :=
    path subdir ++ lit "/errors/" ++ Sdk.Date_toISOString clients st5
      ++ lit "-" ++ filenameOf newKey' in
  let quarantine := copyForQuarantine config newKey' errorKey encoded in
  let remove := Sdk.DeleteObjectCommand (name config) newKey' in
  decodeKey (s3_object_key record) = Some key ->
  findSubfolderConfig_loop (subdirectories config) key = Some subdir ->
  isAlreadyProcessed (filenameOf key) = false ->
  Sdk.s3_send clients (st ++ [Sdk.DateToISOString]) copy = None ->
  Sdk.s3_send clients (st ++ [Sdk.DateToISOString; Sdk.S3Send copy]) delete
    = None ->
  Sdk.lambda_send clients (st3 ++ [Sdk.DateToISOString]) invoke
    = Some error ->
  JsEncode.encodeURIComponent why = Some encoded ->
  exists r rest,
    Handler.processRecord config clients record st =
      (Returns r,
       st5 ++ Sdk.DateToISOString :: Sdk.S3Send quarantine :: rest) /\
    action r = error_invoke /\ success r = false /\
    reason r = Some why /\ newKey r = Some newKey' /\
    subscriberInvoked r = Some false /\
    ((Sdk.s3_send clients (st5 ++ [Sdk.DateToISOString]) quarantine <> None /\
      rest = [] /\ movedToErrors r = Some false) \/
     (Sdk.s3_send clients (st5 ++ [Sdk.DateToISOString]) quarantine = None /\
      rest = [Sdk.S3Send remove] /\
      (movedToErrors r = Some true <->
       Sdk.s3_send clients
         (st5 ++ [Sdk.DateToISOString; Sdk.S3Send quarantine]) remove
         = None) /\
      (movedToErrors r = Some true \/ movedToErrors r = Some false))).
Proof.
  intros newKey' copy delete st3 invoke st5 why errorKey quarantine remove
         Hdec Hfind Hguard Hcopy Hdel Hinv Henc.
  rewrite (processRecord_transition _ _ _ _ _ _ Hdec Hfind Hguard).
  cbv zeta. rewrite renameObject_run. cbv zeta.
  fold newKey' copy delete. rewrite Hcopy.
  rewrite <- !app_assoc. simpl app. rewrite Hdel.
  cbn [Handler.awaited fst snd].
  rewrite notify_run. cbv zeta. fold st3 invoke. rewrite Hinv.
  cbn [fst snd Sdk.errorText]. fold st5.
  rewrite moveToErrors_run. cbv zeta.
  unfold REASON_INVOKE_FAILED. fold why. rewrite Henc.
  assert (Hof : Bucket.originalFilenameOf newKey' = filenameOf newKey')
    by apply originalFilenameOf_newKeyOf.
  unfold Bucket.errorKeyOf. rewrite Hof.
  fold errorKey. fold quarantine. fold remove.
  destruct (Sdk.s3_send clients (st5 ++ [Sdk.DateToISOString]) quarantine)
    as [e|] eqn:Hq.
  - exists
      {| success := false; action := error_invoke; reason := Some why;
         originalKey := key; newKey := Some newKey';
         subscriberInvoked := Some false; movedToErrors := Some false |}, [].
    cbn [Handler.awaited fst snd]. rewrite <- !app_assoc.
    repeat split. left. repeat split. discriminate.
  - rewrite <- !app_assoc. simpl app.
    destruct (Sdk.s3_send clients _ remove) as [e|] eqn:Hr;
      cbn [Handler.awaited fst snd];
      eexists; exists [Sdk.S3Send remove];
      (split; [reflexivity|]); repeat split;
      right; repeat split; try discriminate; auto.
Qed.

Lemma X12_rejected_invocation_end_to_end_witness :
  exists r rest,
    Handler.processRecord Fixture.bucketConfig
      (SdkFixture.clients false false (Some (lit "Error: X failed")))
      (Fixture.createMockRecord "person-full/sub/data.json") [] =
      (Returns r,
       [Sdk.DateToISOString;
        Sdk.S3Send
          (copyForRename Fixture.bucketConfig
             (lit "person-full/sub/data.json")
             (lit "person-full/sub/2026-02-22T10:30:00.000Z-data.json"));
        Sdk.S3Send
          (Sdk.DeleteObjectCommand (lit "test-bucket")
             (lit "person-full/sub/data.json"));
        Sdk.DateToISOString;
        Sdk.LambdaSend
          (invokeFor (subscriberLambdaArn Fixture.personFull)
             Fixture.bucketConfig
             (lit "person-full/sub/2026-02-22T10:30:00.000Z-data.json")
             Fixture.fixedTimestamp)]
         ++ Sdk.DateToISOString
         :: Sdk.S3Send
              (copyForQuarantine Fixture.bucketConfig
                 (lit "person-full/sub/2026-02-22T10:30:00.000Z-data.json")
                 (lit "person-full/errors/2026-02-22T10:30:00.000Z-2026-02-22T10:30:00.000Z-data.json")
                 (lit "Subscriber%20Lambda%20invocation%20failed%3A%20Error%3A%20X%20failed"))
         :: rest) /\
    action r = error_invoke /\ success r = false.
Proof.
  destruct (X12_rejected_invocation_end_to_end Fixture.bucketConfig
              (SdkFixture.clients false false (Some (lit "Error: X failed")))
              (Fixture.createMockRecord "person-full/sub/data.json")
              (lit "person-full/sub/data.json") (lit "Error: X failed")
              (lit "Subscriber%20Lambda%20invocation%20failed%3A%20Error%3A%20X%20failed")
              Fixture.personFull [])
    as (r & rest & Hrun & Ha & Hs & _);
    try (vm_compute; reflexivity).
  exists r, rest. repeat split; assumption.
Defined.

(* ================================================================== *)
(** ** The handler *)

Section HandlerFacts.
Import Sdk.

Lemma processRecord_undecodable (config : BucketConfig) (clients : Clients)
  (record : S3EventRecord) (st : Log) :
  decodeKey (s3_object_key record) = None ->
  Handler.processRecord config clients record st = (Throws URIError, st).
Proof.
  intros H. unfold Handler.processRecord, process. now rewrite H.
Qed.

Lemma processRecord_no_match (config : BucketConfig) (clients : Clients)
  (record : S3EventRecord) (key : jsstring) (st : Log) :
  decodeKey (s3_object_key record) = Some key ->
  findSubfolderConfig_loop (subdirectories config) key = None ->
  Handler.processRecord config clients record st =
  (Returns {| success := true; action := skipped_no_match;
              reason := Some REASON_NO_MATCH;
              originalKey := key; newKey := None;
              subscriberInvoked := None; movedToErrors := None |}, st).
Proof.
  intros Hdec Hfind. unfold Handler.processRecord, process. rewrite Hdec.
  now rewrite (processKey_no_match (Handler.ports config clients st) key []
                 Hfind).
Qed.

Lemma processRecord_marked (config : BucketConfig) (clients : Clients)
  (record : S3EventRecord) (key : jsstring) (subdir : BucketSubdirectory)
  (st : Log) :
  decodeKey (s3_object_key record) = Some key ->
  findSubfolderConfig_loop (subdirectories config) key = Some subdir ->
  isAlreadyProcessed (filenameOf key) = true ->
  Handler.processRecord config clients record st =
  (Returns {| success := true; action := skipped_already_processed;
              reason := Some REASON_ALREADY_PROCESSED;
              originalKey := key; newKey := None;
              subscriberInvoked := None; movedToErrors := None |}, st).
Proof.
  intros Hdec Hfind Hguard. unfold Handler.processRecord, process.
  rewrite Hdec.
  now rewrite (processKey_marked (Handler.ports config clients st) key
                 subdir [] Hfind Hguard).
Qed.

(** The handler on two batches in a row. *)
Lemma handler_app (config : BucketConfig) (clients : Clients)
  (a b : list S3EventRecord) (st : Log) :
  Handler.handler config clients (a ++ b) st =
  (fst (Handler.handler config clients a st)
     ++ fst (Handler.handler config clients b
               (snd (Handler.handler config clients a st))),
   snd (Handler.handler config clients b
          (snd (Handler.handler config clients a st)))).
Proof.
  revert st. induction a as [|r a IH]; intros st; simpl.
  - now destruct (Handler.handler config clients b st).
  - destruct (Handler.processRecord config clients r st) as [c st'].
    rewrite IH.
    destruct (Handler.handler config clients a st') as [ca sta]. simpl.
    reflexivity.
Qed.

Lemma handler_length (config : BucketConfig) (clients : Clients)
  (records : list S3EventRecord) (st : Log) :
  List.length (fst (Handler.handler config clients records st))
  = List.length records.
Proof.
  revert st. induction records as [|r rs IH]; intros st; simpl;
    [reflexivity|].
  destruct (Handler.processRecord config clients r st) as [c st'].
  specialize (IH st').
  destruct (Handler.handler config clients rs st') as [cs st''].
  simpl in *. now rewrite IH.
Qed.

End HandlerFacts.

(** X13.  A record whose key is malformed percent-encoding does not
    stop the handler: the error is caught and reported for that record,
    no request is made for it, and the records before and after it are
    processed exactly as if it were not in the event.  The handler
    reports one completion for each record. *)
Theorem X13_handler_isolates_malformed_key (config : BucketConfig)
  (clients : Sdk.Clients) (before after : list S3EventRecord)
  (record : S3EventRecord) (st : Sdk.Log) :
  decodeKey (s3_object_key record) = None ->
  fst (Handler.handler config clients (before ++ record :: after) st)
    = fst (Handler.handler config clients before st)
        ++ Throws URIError
        :: fst (Handler.handler config clients after
                  (snd (Handler.handler config clients before st))) /\
  Handler.handler config clients (before ++ after) st
    = (fst (Handler.handler config clients before st)
         ++ fst (Handler.handler config clients after
                   (snd (Handler.handler config clients before st))),
       snd (Handler.handler config clients (before ++ record :: after) st)) /\
  List.length
    (fst (Handler.handler config clients (before ++ record :: after) st))
    = List.length (before ++ record :: after).
Proof.
  intros Hdec.
  split; [|split; [|apply handler_length]]; rewrite !handler_app.
  all: assert (E : forall st',
             Handler.handler config clients (record :: after) st' =
             (Throws URIError
                :: fst (Handler.handler config clients after st'),
              snd (Handler.handler config clients after st')));
    [intros st'; simpl;
     rewrite (processRecord_undecodable _ _ _ _ Hdec);
     now destruct (Handler.handler config clients after st')|].
  all: rewrite E; reflexivity.
Qed.


Lemma X13_handler_isolates_malformed_key_witness :
  fst (Handler.handler Fixture.bucketConfig
         (SdkFixture.clients false false None)
         ([Fixture.createMockRecord "person-full/a.json"]
            ++ Fixture.createMockRecord "person-full/100%.json"
            :: [Fixture.createMockRecord "person-delta/b.json"]) [])
  = fst (Handler.handler Fixture.bucketConfig
           (SdkFixture.clients false false None)
           [Fixture.createMockRecord "person-full/a.json"] [])
      ++ Throws URIError
      :: fst (Handler.handler Fixture.bucketConfig
                (SdkFixture.clients false false None)
                [Fixture.createMockRecord "person-delta/b.json"]
                (snd (Handler.handler Fixture.bucketConfig
                        (SdkFixture.clients false false None)
                        [Fixture.createMockRecord "person-full/a.json"] []))).
Proof.
  refine (proj1 (X13_handler_isolates_malformed_key Fixture.bucketConfig
                   (SdkFixture.clients false false None)
                   [Fixture.createMockRecord "person-full/a.json"]
                   [Fixture.createMockRecord "person-delta/b.json"]
                   (Fixture.createMockRecord "person-full/100%.json") [] _)).
  vm_compute; reflexivity.
Defined.

(** X14.  With a configuration that has no subdirectory, as the one
    the handler falls back to when BUCKET_CONFIG is not set, the handler
    makes no request at all, whatever the event: every record is
    reported as [skipped-no-match] with [success = true], or as the
    URIError of its key. *)
Theorem X14_handler_without_rules_does_nothing (config : BucketConfig)
  (clients : Sdk.Clients) (records : list S3EventRecord) (st : Sdk.Log) :
  subdirectories config = [] ->
  snd (Handler.handler config clients records st) = st /\
  Forall (fun completion =>
            completion = Throws URIError \/
            exists r, completion = Returns r /\
                      action r = skipped_no_match /\ success r = true)
    (fst (Handler.handler config clients records st)).
Proof.
  intros Hcfg. induction records as [|record rs [IHlog IHall]]; simpl.
  - split; [reflexivity|constructor].
  - destruct (decodeKey (s3_object_key record)) as [key|] eqn:Hdec.
    + rewrite (processRecord_no_match config clients record key st Hdec)
        by (now rewrite Hcfg).
      destruct (Handler.handler config clients rs st) as [cs st'].
      simpl in *. split; [exact IHlog|]. constructor; [|exact IHall].
      right. eexists. repeat split.
    + rewrite (processRecord_undecodable _ _ _ _ Hdec).
      destruct (Handler.handler config clients rs st) as [cs st'].
      simpl in *. split; [exact IHlog|]. constructor; [|exact IHall].
      now left.
Qed.

Lemma X14_handler_without_rules_does_nothing_witness :
  snd (Handler.handler Handler.DEFAULT_BUCKET_CONFIG
         (SdkFixture.clients false false None)
         [Fixture.createMockRecord "person-full/a.json";
          Fixture.createMockRecord "person-full/100%.json"] [])
  = [].
Proof.
  refine (proj1 (X14_handler_without_rules_does_nothing
                   Handler.DEFAULT_BUCKET_CONFIG
                   (SdkFixture.clients false false None)
                   [Fixture.createMockRecord "person-full/a.json";
                    Fixture.createMockRecord "person-full/100%.json"] [] _)).
  reflexivity.
Defined.

(** X15.  In the handler the clock is [new Date().toISOString()].
    Provided that gives the 24 characters [YYYY-MM-DDTHH:mm:ss.sssZ],
    the object that a record was renamed to is not processed again:
    for a record whose key decodes, matches a rule and is not marked,
    the record of the new key, whenever it arrives, is reported as
    [skipped-already-processed] and no request is made for it. *)
Theorem X15_handler_feedback_stops (config : BucketConfig)
  (clients : Sdk.Clients) (record record2 : S3EventRecord)
  (key : jsstring) (subdir : BucketSubdirectory) (st st2 : Sdk.Log) :
  decodeKey (s3_object_key record) = Some key ->
  findSubfolderConfig_loop (subdirectories config) key = Some subdir ->
  isAlreadyProcessed (filenameOf key) = false ->
  isISOTimestamp (Sdk.Date_toISOString clients st) = true ->
  decodeKey (s3_object_key record2)
    = Some (newKeyOf subdir key (Sdk.Date_toISOString clients st)) ->
  (exists completion rest,
     Handler.processRecord config clients record st =
       (completion,
        st ++ Sdk.DateToISOString
           :: Sdk.S3Send
                (copyForRename config key
                   (newKeyOf subdir key (Sdk.Date_toISOString clients st)))
           :: rest)) /\
  exists r2,
    Handler.processRecord config clients record2 st2 = (Returns r2, st2) /\
    action r2 = skipped_already_processed /\ success r2 = true.
Proof.
  intros Hdec Hfind Hguard Hiso Hdec2. split.
  - rewrite (processRecord_transition _ _ _ _ _ _ Hdec Hfind Hguard).
    cbv zeta. rewrite renameObject_run. cbv zeta.
    set (newKey' := newKeyOf subdir key (Sdk.Date_toISOString clients st)).
    destruct (Sdk.s3_send clients (st ++ [Sdk.DateToISOString]) _) as [e|].
    + cbn [Handler.awaited fst snd]. rewrite <- app_assoc.
      eexists; eexists; reflexivity.
    + destruct (Sdk.s3_send clients _ _) as [e|];
        cbn [Handler.awaited fst snd].
      * rewrite <- app_assoc. eexists; eexists; reflexivity.
      * destruct (fst (Subscriber.notify _ _ _ _ _)) eqn:Hn.
        -- rewrite notify_run. cbv zeta.
           destruct (Sdk.lambda_send clients _ _); cbn [snd];
             rewrite <- !app_assoc; eexists; eexists; reflexivity.
        -- rewrite moveToErrors_run. cbv zeta. rewrite notify_run. cbv zeta.
           destruct (Sdk.lambda_send clients _ _); cbn [snd];
             destruct (JsEncode.encodeURIComponent _);
             [destruct (Sdk.s3_send clients _ _);
              [|destruct (Sdk.s3_send clients _ _)]|
             |destruct (Sdk.s3_send clients _ _);
              [|destruct (Sdk.s3_send clients _ _)]|];
             cbn [snd]; rewrite <- !app_assoc;
             eexists; eexists; reflexivity.
  - destruct (isISOTimestamp_marks _ Hiso) as [Hns Hmark].
    pose proof (filenameOf_newKeyOf (Handler.ports config clients st) key
                  _ subdir Hfind Hns) as Hfile.
    assert (In subdir (subdirectories config)) as Hin.
    { apply findSubfolderConfig_loop_Some in Hfind
        as (before & after & E & _).
      rewrite E. apply in_elt. }
    destruct (findSubfolderConfig_some_rule _ _ _ Hin
                (newKeyOf_under subdir key (Sdk.Date_toISOString clients st)))
      as [found Hfound].
    rewrite (processRecord_marked config clients record2 _ found st2
               Hdec2 Hfound).
    + eexists; repeat split.
    + rewrite Hfile. apply Hmark.
Qed.

Lemma X15_handler_feedback_stops_witness :
  exists r2,
    Handler.processRecord Fixture.bucketConfig
      (SdkFixture.clients false false None)
      (Fixture.createMockRecord
         "person-full/sub/2026-02-22T10%3A30%3A00.000Z-data.json")
      [Sdk.DateToISOString]
    = (Returns r2, [Sdk.DateToISOString]) /\
    action r2 = skipped_already_processed /\ success r2 = true.
Proof.
  refine (proj2 (X15_handler_feedback_stops Fixture.bucketConfig
                   (SdkFixture.clients false false None)
                   (Fixture.createMockRecord "person-full/sub/data.json")
                   (Fixture.createMockRecord
                      "person-full/sub/2026-02-22T10%3A30%3A00.000Z-data.json")
                   (lit "person-full/sub/data.json") Fixture.personFull
                   [] [Sdk.DateToISOString] _ _ _ _ _));
    vm_compute; reflexivity.
Defined.

(* ================================================================== *)
(** ** Keys that are renamed to the same key *)

Section Collisions.

Lemma join_snoc (l : list jsstring) (f : jsstring) :
  l <> [] -> join (l ++ [f]) = join l ++ SLASH :: f.
Proof.
  induction l as [|a l IH]; intros Hne; [contradiction|].
  destruct l as [|b l]; [reflexivity|].
  change (join ((a :: b :: l) ++ [f]))
    with (a ++ SLASH :: join ((b :: l) ++ [f])).
  rewrite IH by discriminate.
  change (join (a :: b :: l)) with (a ++ SLASH :: join (b :: l)).
  now rewrite <- app_assoc.
Qed.

(** A matched key is a directory, a slash and its file name. *)
Lemma matched_key_dir_file (bucket : Ports) (key : jsstring)
  (subdir : BucketSubdirectory) :
  findSubfolderConfig bucket key = Some subdir ->
  exists dir, key = dir ++ SLASH :: filenameOf key.
Proof.
  intros Hfind.
  destruct (findSubfolderConfig_matches _ _ _ Hfind) as [rel Hkey].
  assert (Hf : filenameOf key = last (split rel) []).
  { unfold filenameOf. rewrite Hkey. apply filename_app_slash. }
  rewrite Hf, Hkey.
  destruct (exists_last (split_not_nil rel)) as (init & f & E).
  rewrite E, last_last.
  pose proof (join_split rel) as Hj. rewrite E in Hj.
  destruct init as [|a init].
  - exists (path subdir). simpl in Hj. now rewrite Hj.
  - rewrite join_snoc in Hj by discriminate.
    exists (path subdir ++ SLASH :: join (a :: init)).
    rewrite <- Hj, <- app_assoc. reflexivity.
Qed.

(** The new key, from the directory and the file name of the key. *)
Lemma newKeyOf_by_directory (bucket : Ports)
  (key dir file timestamp : jsstring) (subdir : BucketSubdirectory) :
  findSubfolderConfig bucket key = Some subdir ->
  key = dir ++ SLASH :: file ->
  noSlash file ->
  (dir = path subdir ++ [SLASH] /\
   newKeyOf subdir key timestamp
   = path subdir ++ SLASH :: timestamp ++ HYPHEN :: file) \/
  (dir <> path subdir ++ [SLASH] /\
   newKeyOf subdir key timestamp
   = dir ++ SLASH :: timestamp ++ HYPHEN :: file).
Proof.
  intros Hfind Hkey Hf.
  destruct (findSubfolderConfig_matches _ _ _ Hfind) as [rel Hrel].
  assert (E : path subdir ++ SLASH :: rel = dir ++ SLASH :: file)
    by (rewrite <- Hrel; exact Hkey).
  destruct (directory_of_matched_key _ _ _ _ Hf E)
    as [[-> ->]|(nested & -> & ->)].
  - right. split.
    + intros Habs. apply (f_equal (@List.length N)) in Habs.
      rewrite length_app in Habs. simpl in Habs. lia.
    + rewrite Hrel. now rewrite newKeyOf_of_file.
  - rewrite Hrel, (newKeyOf_of_relative _ _ _ _ Hf).
    unfold computeNewKey. destruct nested as [|c n].
    + left. split; reflexivity.
    + right. split.
      * intros Habs. apply app_inv_head in Habs. discriminate Habs.
      * simpl. now rewrite <- !app_assoc.
Qed.

End Collisions.

(** X16.  At one reading of the clock, two keys matched by the same
    rule are renamed to the same key only if they are the same key, or
    if they are [path/file] and [path//file]: apart from the empty
    directory name right under the intake path, the renaming never
    sends two objects to one key. *)
Theorem X16_new_keys_collide_only_on_empty_segment (bucket : Ports)
  (key1 key2 timestamp : jsstring) (subdir : BucketSubdirectory) :
  findSubfolderConfig bucket key1 = Some subdir ->
  findSubfolderConfig bucket key2 = Some subdir ->
  includesSlash timestamp = false ->
  newKeyOf subdir key1 timestamp = newKeyOf subdir key2 timestamp ->
  key1 = key2 \/
  (exists file,
     (key1 = path subdir ++ lit "/" ++ file /\
      key2 = path subdir ++ lit "//" ++ file) \/
     (key1 = path subdir ++ lit "//" ++ file /\
      key2 = path subdir ++ lit "/" ++ file)).
Proof.
  intros Hfind1 Hfind2 Hts Hnew. apply includesSlash_false in Hts.
  destruct (matched_key_dir_file _ _ _ Hfind1) as [d1 Hk1].
  destruct (matched_key_dir_file _ _ _ Hfind2) as [d2 Hk2].
  assert (Hf1 : noSlash (filenameOf key1)) by apply last_split_noSlash.
  assert (Hf2 : noSlash (filenameOf key2)) by apply last_split_noSlash.
  set (f1 := filenameOf key1) in *. set (f2 := filenameOf key2) in *.
  assert (Hx : forall f, noSlash f -> noSlash (timestamp ++ HYPHEN :: f)).
  { intros f Hf. unfold noSlash in *. rewrite in_app_iff.
    intros [H|[H|H]]; [auto|discriminate|auto]. }
  assert (Hsame : forall D1 D2,
             D1 ++ SLASH :: timestamp ++ HYPHEN :: f1
             = D2 ++ SLASH :: timestamp ++ HYPHEN :: f2 ->
             D1 = D2 /\ f1 = f2).
  { intros D1 D2 E.
    assert (Hfile : timestamp ++ HYPHEN :: f1 = timestamp ++ HYPHEN :: f2).
    { rewrite <- (filenameOf_dir_file D1 _ (Hx f1 Hf1)).
      rewrite <- (filenameOf_dir_file D2 _ (Hx f2 Hf2)).
      now rewrite E. }
    split.
    - rewrite Hfile in E.
      now apply (app_inv_tail (SLASH :: timestamp ++ HYPHEN :: f2)).
    - apply app_inv_head in Hfile. now injection Hfile. }
  destruct (newKeyOf_by_directory bucket key1 d1 f1 timestamp subdir
              Hfind1 Hk1 Hf1) as [[Hd1 Hn1]|[Hd1 Hn1]];
    destruct (newKeyOf_by_directory bucket key2 d2 f2 timestamp subdir
                Hfind2 Hk2 Hf2) as [[Hd2 Hn2]|[Hd2 Hn2]];
    rewrite Hn1, Hn2 in Hnew; apply Hsame in Hnew as [HD Hf].
  - left. rewrite Hk1, Hk2. now rewrite Hd1, Hd2, Hf.
  - right. exists f2. right. rewrite Hk1, Hk2, Hd1, Hf, <- HD.
    split; [now rewrite <- app_assoc|reflexivity].
  - right. exists f2. left. rewrite Hk1, Hk2, Hd2, Hf, HD.
    split; [reflexivity|now rewrite <- app_assoc].
  - left. rewrite Hk1, Hk2. now rewrite HD, Hf.
Qed.

Lemma X16_new_keys_collide_only_on_empty_segment_witness :
  lit "person-full/data.json" = lit "person-full//data.json" \/
  (exists file,
     (lit "person-full/data.json" = lit "person-full" ++ lit "/" ++ file /\
      lit "person-full//data.json" = lit "person-full" ++ lit "//" ++ file) \/
     (lit "person-full/data.json" = lit "person-full" ++ lit "//" ++ file /\
      lit "person-full//data.json" = lit "person-full" ++ lit "/" ++ file)).
Proof.
  apply (X16_new_keys_collide_only_on_empty_segment
           (Fixture.mockBucket Fixture.bucketConfig Fixture.fixedTimestamp
              true Resolved true)
           (lit "person-full/data.json") (lit "person-full//data.json")
           Fixture.fixedTimestamp Fixture.personFull);
    vm_compute; reflexivity.
Defined.
